(** * Advanced todo service: task mutation pipeline, recurrence projection
      and notification retry.

    A shallow embedding of the Python sources

      - app/mcp/base_tool.py, app/mcp/server.py,
        app/mcp/tools/{add,complete,update,delete,view}_task.py
      - app/agents/skills/mcp_invocation.py
      - app/dapr/client.py
      - app/services/task_service.py, app/services/recurring_task_service.py,
        app/services/reminder_scheduler.py,
        app/services/notification_service.py
      - recurring-task-service/src/services/recurring_task_service.py
      - notification-service/src/services/notification_service.py
      - notification-service/src/consumers/reminder_consumer.py

    Tables are finite maps from primary keys to rows, the event bus is the
    list of envelopes the broker accepted, and Python exceptions are an
    explicit result constructor. *)

From Stdlib Require Import ZArith String Ascii Bool List Lia DecimalString.
From stdpp Require Import base option list gmap strings.
Import ListNotations.
Local Open Scope string_scope.
Local Open Scope Z_scope.

(** ** Timestamps and dynamically typed values *)

Record datetime : Type := mkDatetime {
  year : Z; month : Z; day : Z;
  hour : Z; minute : Z; second : Z; microsecond : Z;
  tzoffset : option Z    (* [None] for a naive value such as [utcnow()] *)
}.

(** The values that travel in event payloads, responses and error details.
    [PIso d] is the string [d.isoformat()]. *)
Inductive pyval : Type :=
  | PNone
  | PBool (b : bool)
  | PInt (n : Z)
  | PStr (s : string)
  | PIso (d : datetime)
  | PStrs (l : list string).

#[global] Instance datetime_eq_dec : EqDecision datetime.
Proof. solve_decision. Defined.

(** ** Exceptions and results *)

Inductive exn : Type :=
  | OverflowError
  | ValueError
  | TypeError
  | UnboundLocalError (message : string)
  | PublishError
  | DataError
  | MCPToolError (code message : string) (details : list (string * pyval)).

Inductive pyresult (A : Type) : Type :=
  | Return (a : A)
  | Raise (e : exn)
  | OutOfFuel.
Arguments Return {A} a.
Arguments Raise {A} e.
Arguments OutOfFuel {A}.

Definition bind {A B} (r : pyresult A) (k : A -> pyresult B) : pyresult B :=
  match r with
  | Return a => k a
  | Raise e => Raise e
  | OutOfFuel => OutOfFuel
  end.

Notation "x <- r ;; k" := (bind r (fun x => k))
  (at level 100, r at next level, right associativity).

(** ** Python strings *)

(** A [str] is held as the bytes of its UTF-8 encoding, one [ascii] per
    byte, so a code point takes one to four bytes (a lone surrogate is
    written with three, like the other code points of its range).
    Equality, concatenation and substring search on the bytes are those
    on the code points; length and white space have to look at the
    encoding. *)

Module PyStr.

Definition byte (c : ascii) : Z := Z.of_nat (nat_of_ascii c).

(** The bytes [10xxxxxx] continue a code point. *)
Definition is_continuation (c : ascii) : bool :=
  Z.land (byte c) 192 =? 128.

(** [len(s)]: the number of code points. *)
Fixpoint len (s : string) : Z :=
  match s with
  | EmptyString => 0
  | String c r => (if is_continuation c then 0 else 1) + len r
  end.

(** [str.isspace] of one code point. The white space of [str] is
    U+0009 to U+000D, U+001C to U+0020, U+0085, U+00A0, U+1680, U+2000 to
    U+200A, U+2028, U+2029, U+202F, U+205F and U+3000; [is_space1] are
    those of one byte, [is_space2] and [is_space3] take the bytes of a
    two- and a three-byte code point in reading order. *)
Definition is_space1 (a : Z) : bool :=
  ((9 <=? a) && (a <=? 13)) || ((28 <=? a) && (a <=? 32)).

Definition is_space2 (a b : Z) : bool :=
  (a =? 194) && ((b =? 133) || (b =? 160)).

Definition is_space3 (a b c : Z) : bool :=
  ((a =? 225) && (b =? 154) && (c =? 128))
  || ((a =? 226) && (b =? 128)
      && (((128 <=? c) && (c <=? 138)) || (c =? 168) || (c =? 169)
          || (c =? 175)))
  || ((a =? 226) && (b =? 129) && (c =? 159))
  || ((a =? 227) && (b =? 128) && (c =? 128)).

(** [s.lstrip()] *)
Fixpoint lstrip (s : string) : string :=
  match s with
  | EmptyString => EmptyString
  | String a r =>
      if is_space1 (byte a) then lstrip r
      else
        match r with
        | String b r2 =>
            if is_space2 (byte a) (byte b) then lstrip r2
            else
              match r2 with
              | String c r3 =>
                  if is_space3 (byte a) (byte b) (byte c) then lstrip r3
                  else s
              | EmptyString => s
              end
        | EmptyString => s
        end
  end.

Fixpoint rev_acc (s acc : string) : string :=
  match s with
  | EmptyString => acc
  | String c r => rev_acc r (String c acc)
  end.

(** The bytes in reverse order. *)
Definition rev (s : string) : string := rev_acc s EmptyString.

(** [s.rstrip()] on the reversed bytes of [s]: the last byte comes
    first. *)
Fixpoint rstrip_rev (s : string) : string :=
  match s with
  | EmptyString => EmptyString
  | String c r =>
      if is_space1 (byte c) then rstrip_rev r
      else
        match r with
        | String b r2 =>
            if is_space2 (byte b) (byte c) then rstrip_rev r2
            else
              match r2 with
              | String a r3 =>
                  if is_space3 (byte a) (byte b) (byte c)
                  then rstrip_rev r3
                  else s
              | EmptyString => s
              end
        | EmptyString => s
        end
  end.

(** [s.strip()] *)
Definition strip (s : string) : string :=
  rev (rstrip_rev (rev (lstrip s))).

(** Truthiness of a [str]: non-empty. *)
Definition truthy (s : string) : bool :=
  match s with EmptyString => false | _ => true end.

(** [needle in hay]. *)
Fixpoint contains (needle hay : string) : bool :=
  String.prefix needle hay ||
  match hay with
  | EmptyString => false
  | String _ r => contains needle r
  end.

End PyStr.

(** ** [datetime] with the proleptic Gregorian ordinal arithmetic of the
       standard library *)

Module PyDatetime.

Definition MINYEAR : Z := 1.
Definition MAXYEAR : Z := 9999.
Definition MAXORDINAL : Z := 3652059.

Definition is_leap (y : Z) : bool :=
  (y mod 4 =? 0) && (negb (y mod 100 =? 0) || (y mod 400 =? 0)).

Definition DAYS_IN_MONTH : list Z :=
  [-1; 31; 28; 31; 30; 31; 30; 31; 31; 30; 31; 30; 31].

Definition DAYS_BEFORE_MONTH : list Z :=
  [-1; 0; 31; 59; 90; 120; 151; 181; 212; 243; 273; 304; 334].

Definition tbl (t : list Z) (i : Z) : Z := nth (Z.to_nat i) t 0.

Definition days_before_year (y : Z) : Z :=
  let y' := y - 1 in y' * 365 + y' / 4 - y' / 100 + y' / 400.

Definition days_in_month (y m : Z) : Z :=
  if (m =? 2) && is_leap y then 29 else tbl DAYS_IN_MONTH m.

Definition days_before_month (y m : Z) : Z :=
  tbl DAYS_BEFORE_MONTH m + (if (2 <? m) && is_leap y then 1 else 0).

Definition ymd2ord (y m d : Z) : Z :=
  days_before_year y + days_before_month y m + d.

Definition DI400Y : Z := 146097.
Definition DI100Y : Z := 36524.
Definition DI4Y : Z := 1461.

Definition ord2ymd (n : Z) : Z * Z * Z :=
  let n := n - 1 in
  let n400 := n / DI400Y in
  let n := n mod DI400Y in
  let y := n400 * 400 + 1 in
  let n100 := n / DI100Y in
  let n := n mod DI100Y in
  let n4 := n / DI4Y in
  let n := n mod DI4Y in
  let n1 := n / 365 in
  let n := n mod 365 in
  let y := y + n100 * 100 + n4 * 4 + n1 in
  if (n1 =? 4) || (n100 =? 4) then (y - 1, 12, 31)
  else
    let leapyear := (n1 =? 3) && (negb (n4 =? 24) || (n100 =? 3)) in
    let m := Z.shiftr (n + 50) 5 in
    let preceding :=
      tbl DAYS_BEFORE_MONTH m + (if (2 <? m) && leapyear then 1 else 0) in
    if n <? preceding then
      let m := m - 1 in
      let preceding :=
        preceding - (tbl DAYS_IN_MONTH m
                     + (if (m =? 2) && leapyear then 1 else 0)) in
      (y, m, n - preceding + 1)
    else (y, m, n - preceding + 1).

(** The invariant every constructed [datetime] satisfies
    ([_check_date_fields], [_check_time_fields]). *)
Definition check_date_fields (y m d : Z) : bool :=
  (MINYEAR <=? y) && (y <=? MAXYEAR) && (1 <=? m) && (m <=? 12)
  && (1 <=? d) && (d <=? days_in_month y m).

Definition check_time_fields (dt : datetime) : bool :=
  (0 <=? hour dt) && (hour dt <=? 23) && (0 <=? minute dt)
  && (minute dt <=? 59) && (0 <=? second dt) && (second dt <=? 59)
  && (0 <=? microsecond dt) && (microsecond dt <=? 999999).

Definition valid (dt : datetime) : bool :=
  check_date_fields (year dt) (month dt) (day dt) && check_time_fields dt.

Definition toordinal (dt : datetime) : Z :=
  ymd2ord (year dt) (month dt) (day dt).

(** Monday is 0, Sunday is 6. *)
Definition weekday (dt : datetime) : Z := (toordinal dt + 6) mod 7.

Definition with_date (dt : datetime) (ymd : Z * Z * Z) : datetime :=
  let '(y, m, d) := ymd in
  mkDatetime y m d (hour dt) (minute dt) (second dt) (microsecond dt)
             (tzoffset dt).

(** [dt + timedelta(days=k)]: the time of day is kept, the date moves by
    [k] ordinals, and a result outside [1 .. MAXORDINAL] is an
    [OverflowError]. *)
Definition add_days (dt : datetime) (k : Z) : pyresult datetime :=
  let o := toordinal dt + k in
  if (0 <? o) && (o <=? MAXORDINAL) then Return (with_date dt (ord2ymd o))
  else Raise OverflowError.

(** [dt.replace(year=y, month=m, day=d)]. *)
Definition replace (dt : datetime) (y m d : Z) : pyresult datetime :=
  if check_date_fields y m d then Return (with_date dt (y, m, d))
  else Raise ValueError.

(** [calendar.monthrange(y, m)[1]] for a month in [1 .. 12]. *)
Definition monthrange_ndays (y m : Z) : Z :=
  tbl DAYS_IN_MONTH m + (if (m =? 2) && is_leap y then 1 else 0).

Definition same_time (a b : datetime) : Prop :=
  hour a = hour b /\ minute a = minute b /\ second a = second b
  /\ microsecond a = microsecond b /\ tzoffset a = tzoffset b.

End PyDatetime.
Import PyDatetime.

(** ** The task table *)

Record Task : Type := mkTask {
  id : option Z;                       (* [None] until the row is flushed *)
  user_id : string;
  title : string;
  description : option string;
  completed : bool;
  created_at : datetime;
  updated_at : datetime;
  priority : string;
  due_date : option datetime;
  tags : option (list string);
  recurrence : option string;
  recurrence_rule : option string;
  next_occurrence : option datetime
}.

(** The [task] table: rows by primary key, and the next value of the
    autoincrement sequence. *)
Record TaskDb : Type := mkTaskDb {
  rows : gmap Z Task;
  next_id : Z
}.

(** Every stored key is older than the sequence. *)
Definition db_wf (db : TaskDb) : Prop :=
  forall k t, rows db !! k = Some t -> k < next_id db /\ id t = Some k.

Definition with_id (t : Task) (k : Z) : Task :=
  mkTask (Some k) (user_id t) (title t) (description t) (completed t)
         (created_at t) (updated_at t) (priority t) (due_date t) (tags t)
         (recurrence t) (recurrence_rule t) (next_occurrence t).

(** [session.add(t); session.commit(); session.refresh(t)] for a new row.
    Column constraints that only some databases enforce (the length of a
    [VARCHAR]) are not part of the model. *)
Definition db_insert (t : Task) (db : TaskDb) : Task * TaskDb :=
  let k := next_id db in
  let t' := with_id t k in
  (t', mkTaskDb (<[k := t']> (rows db)) (k + 1)).

(** [session.delete(t); session.commit()]. *)
Definition db_delete (k : Z) (db : TaskDb) : TaskDb :=
  mkTaskDb (delete k (rows db)) (next_id db).

(** [session.add(t); session.commit()] for a row that is already stored. *)
Definition db_update (k : Z) (t : Task) (db : TaskDb) : TaskDb :=
  mkTaskDb (<[k := t]> (rows db)) (next_id db).

Definition empty_db : TaskDb := mkTaskDb ∅ 1.

(** Truthiness of an optional string: neither [None] nor empty. *)
Definition opt_truthy (o : option string) : bool :=
  match o with
  | Some s => PyStr.truthy s
  | None => false
  end.

(** [o == s] for an optional string [o] and a literal [s]. *)
Definition opt_is (o : option string) (s : string) : bool :=
  match o with
  | Some x => String.eqb x s
  | None => false
  end.

(** ** Recurrence: app/services/recurring_task_service.py and
       recurring-task-service/src/services/recurring_task_service.py
       (the two files share [calculate_next_occurrence] and
       [create_next_occurrence] line for line) *)

Module RecurringTaskService.

(** [while next_date.weekday() >= 5: next_date += timedelta(days=1)] *)
Fixpoint skip_weekend (fuel : nat) (next_date : datetime)
  : pyresult datetime :=
  if 5 <=? weekday next_date then
    match fuel with
    | O => OutOfFuel
    | S fuel' =>
        d <- add_days next_date 1 ;; skip_weekend fuel' d
    end
  else Return next_date.

Definition calculate_next_occurrence (fuel : nat)
    (recurrence recurrence_rule : option string)
    (last_completion : datetime) : pyresult (option datetime) :=
  if negb (opt_truthy recurrence) then Return None
  else if opt_is recurrence "daily" then
    d <- add_days last_completion 1 ;; Return (Some d)
  else if opt_is recurrence "weekly" then
    d <- add_days last_completion 7 ;; Return (Some d)
  else if opt_is recurrence "monthly" then
    let next_month := month last_completion + 1 in
    let next_year := year last_completion in
    let '(next_month, next_year) :=
      if 12 <? next_month then (1, next_year + 1)
      else (next_month, next_year) in
    let max_day := monthrange_ndays next_year next_month in
    let next_day := Z.min (day last_completion) max_day in
    d <- replace last_completion next_year next_month next_day ;;
    Return (Some d)
  else if opt_is recurrence "custom" && opt_truthy recurrence_rule then
    let rule := default "" recurrence_rule in
    if PyStr.contains "every_2_days" rule then
      d <- add_days last_completion 2 ;; Return (Some d)
    else if PyStr.contains "every_weekday" rule then
      next_date <- add_days last_completion 1 ;;
      d <- skip_weekend fuel next_date ;;
      Return (Some d)
    else Return None
  else Return None.

(** [create_next_occurrence]; [now], [now_c] and [now_u] are the three
    readings of [datetime.utcnow()], in program order. *)
Definition create_next_occurrence (fuel : nat) (now now_c now_u : datetime)
    (completed_task : Task) (db : TaskDb)
  : pyresult (option Task) * TaskDb :=
  if negb (opt_truthy (recurrence completed_task)) then (Return None, db)
  else
    match calculate_next_occurrence fuel (recurrence completed_task)
            (recurrence_rule completed_task) now with
    | Return None => (Return None, db)
    | Return (Some next_occ) =>
        let new_task :=
          mkTask None (user_id completed_task) (title completed_task)
                 (description completed_task) false now_c now_u
                 (priority completed_task) (Some next_occ)
                 (tags completed_task) (recurrence completed_task)
                 (recurrence_rule completed_task) None in
        let '(t, db') := db_insert new_task db in
        (Return (Some t), db')
    | Raise e => (Raise e, db)
    | OutOfFuel => (OutOfFuel, db)
    end.

End RecurringTaskService.

(** A naive timestamp (no [tzinfo]), as [datetime.utcnow()] returns, and a
    timezone-aware one at UTC, as an ISO string ending in [Z] parses to. *)
Definition naive (y m d hh mm ss : Z) : datetime :=
  mkDatetime y m d hh mm ss 0 None.

Definition utc (y m d hh mm ss : Z) : datetime :=
  mkDatetime y m d hh mm ss 0 (Some 0).

(** ** Notifications: notification-service/src/models/notification.py *)

Module Notification.

(** [task_id] is an integer: the column is not nullable. That it names a
    stored task (the foreign key) is not part of the model. *)
Record t : Type := mk {
  id : option Z;
  task_id : Z;
  user_id : string;
  scheduled_time : datetime;
  sent_time : option datetime;
  status : string;                   (* pending, sent, failed, delivered *)
  delivery_attempts : Z;
  channel : string;
  message_content : string;
  created_at : datetime;
  updated_at : datetime
}.

Definition with_id (n : t) (k : Z) : t :=
  mk (Some k) (task_id n) (user_id n) (scheduled_time n) (sent_time n)
     (status n) (delivery_attempts n) (channel n) (message_content n)
     (created_at n) (updated_at n).

Definition set_delivery_attempts (n : t) (a : Z) : t :=
  mk (id n) (task_id n) (user_id n) (scheduled_time n) (sent_time n)
     (status n) a (channel n) (message_content n)
     (created_at n) (updated_at n).

Definition set_status (n : t) (s : string) : t :=
  mk (id n) (task_id n) (user_id n) (scheduled_time n) (sent_time n)
     s (delivery_attempts n) (channel n) (message_content n)
     (created_at n) (updated_at n).

(** The [notification] table. *)
Record Db : Type := mkDb {
  rows : gmap Z t;
  next_id : Z
}.

Definition wf (db : Db) : Prop :=
  forall k n, rows db !! k = Some n -> k < next_id db /\ id n = Some k.

Definition insert (n : t) (db : Db) : t * Db :=
  let k := next_id db in
  let n' := with_id n k in
  (n', mkDb (<[k := n']> (rows db)) (k + 1)).

(** [session.add(n); session.commit()] for a loaded row. *)
Definition save (n : t) (db : Db) : Db :=
  match id n with
  | Some k => mkDb (<[k := n]> (rows db)) (next_id db)
  | None => (insert n db).2
  end.


End Notification.

(** [s.replace('Z', '+00:00')] *)
Fixpoint replace_Z (s : string) : string :=
  match s with
  | EmptyString => EmptyString
  | String c r =>
      if Ascii.eqb c "Z"%char then "+00:00" ++ replace_Z r
      else String c (replace_Z r)
  end.

(** ** notification-service/src/services/notification_service.py *)

Module NotificationService.

Import Notification.

Section WithParser.

(** [datetime.fromisoformat]: a [ValueError] on a malformed string. *)
Variable fromisoformat : string -> option datetime.

(** What a timestamp column without time zone hands back for a parsed
    value written to it. The parsed value may carry an offset; the row,
    and the object refreshed from it, hold what the database made of it.
    The readings of [utcnow()] are naive and come back as written. *)
Variable column : datetime -> datetime.

(** The clock readings are, in program order: [now_sched] for the
    scheduled time when no due date is given, [now_sent] for the sent
    time, [now_c] and [now_u] for the two column defaults. *)
Definition send_notification
    (now_sched now_sent now_c now_u : datetime)
    (user_id_ : string) (task_id_ : Z) (title_ : string)
    (due_date_ : option string) (message : string) (channel_ : string)
    (db : Db) : pyresult t * Db :=
  let scheduled :=
    if opt_truthy due_date_ then
      match fromisoformat (replace_Z (default "" due_date_)) with
      | Some d => Return (column d)
      | None => Raise ValueError
      end
    else Return now_sched in
  match scheduled with
  | Return sched =>
      let notification :=
        mk None task_id_ user_id_ sched (Some now_sent) "sent" 1
           channel_ message now_c now_u in
      let '(n, db') := insert notification db in
      (Return n, db')
  | Raise e => (Raise e, db)
  | OutOfFuel => (OutOfFuel, db)
  end.

End WithParser.

Definition get_failed_notifications (db : Db) : list t :=
  filter (fun n => status n = "failed") (map snd (map_to_list (rows db))).

(** One round of the loop of [retry_failed_notifications]. *)
Definition retry_step (acc : Db * Z) (notification : t) : Db * Z :=
  let '(db, retry_count) := acc in
  if delivery_attempts notification <? 3 then
    (save (set_delivery_attempts notification
             (delivery_attempts notification + 1)) db,
     retry_count + 1)
  else (db, retry_count).

Definition retry_failed_notifications (db : Db) : Z * Db :=
  let failed_notifications := get_failed_notifications db in
  let '(db', retry_count) :=
    fold_left retry_step failed_notifications (db, 0) in
  (retry_count, db').

Definition record_delivery_failure (notification_id : Z)
    (error_details : string) (db : Db) : option t * Db :=
  match rows db !! notification_id with
  | Some notification =>
      let n := set_delivery_attempts (set_status notification "failed")
                 (delivery_attempts notification + 1) in
      (Some n, save n db)
  | None => (None, db)
  end.

End NotificationService.

(** ** notification-service/src/consumers/reminder_consumer.py *)

Module ReminderConsumer.

Import Notification.

Section WithParser.

Variable fromisoformat : string -> option datetime.

(** What the timestamp column makes of a parsed value, as in the
    notification service. *)
Variable column : datetime -> datetime.

Definition send_notification
    (now_sched now_sent now_c now_u : datetime)
    (user_id_ : string) (task_id_ : Z) (title_ : string)
    (due_date_ : option string) (message : string) (channel_ : string)
    (db : Db) : pyresult unit * Db :=
  let scheduled :=
    if opt_truthy due_date_ then
      match fromisoformat (replace_Z (default "" due_date_)) with
      | Some d => Return (column d)
      | None => Raise ValueError
      end
    else Return now_sched in
  match scheduled with
  | Return sched =>
      let notification :=
        mk None task_id_ user_id_ sched (Some now_sent) "sent" 1
           channel_ message now_c now_u in
      (Return tt, (insert notification db).2)
  | Raise e => (Raise e, db)
  | OutOfFuel => (OutOfFuel, db)
  end.

End WithParser.

(** [handle_failed_notification]; the boolean tells whether the row
    was handed to [move_to_dead_letter_queue], which only logs. *)
Definition handle_failed_notification (notification_id : Z)
    (error_details : string) (db : Db) : bool * Db :=
  match rows db !! notification_id with
  | Some notification =>
      let n := set_status
                 (set_delivery_attempts notification
                    (delivery_attempts notification + 1)) "failed" in
      (negb (delivery_attempts n <? 3), save n db)
  | None => (false, db)
  end.

End ReminderConsumer.

(** ** The store the tools work on, and their results *)

(** [str(n)] for an integer. *)
Definition str_of_int (n : Z) : string := NilZero.string_of_int (Z.to_int n).

Definition ostr (o : option string) : pyval :=
  match o with Some s => PStr s | None => PNone end.

Definition oiso (o : option datetime) : pyval :=
  match o with Some d => PIso d | None => PNone end.

Definition oint (o : option Z) : pyval :=
  match o with Some n => PInt n | None => PNone end.

(** The standard response dictionaries of app/mcp/base_tool.py. *)
Inductive response : Type :=
  | Success (data : list (string * pyval)) (message : option string)
  | Failure (code message : string) (details : list (string * pyval)).

Definition create_success_response (data : list (string * pyval))
    (message : string) : response :=
  Success data (if PyStr.truthy message then Some message else None).

(** [create_error_response] is defined on [MCPToolError] only. *)
Definition create_error_response (error : exn) : option response :=
  match error with
  | MCPToolError code message details => Some (Failure code message details)
  | _ => None
  end.

(** The error response a caller builds from what a tool raised. *)
Definition error_response {A} (r : pyresult A) : option response :=
  match r with
  | Raise e => create_error_response e
  | _ => None
  end.

(** [d.get(key)] *)
Fixpoint dict_get (key : string) (d : list (string * pyval))
  : option pyval :=
  match d with
  | [] => None
  | (k, v) :: rest => if String.eqb k key then Some v else dict_get key rest
  end.

(** ** app/dapr/client.py *)

(** The envelope without its random [event_id] and its timestamp. *)
Record Event : Type := mkEvent {
  topic : string;
  event_type : string;
  source : string;
  data : list (string * pyval)
}.

(** The environment of the publisher: whether the Dapr client library is
    installed, and whether the sidecar accepts the n-th publish attempt. *)
Record Broker : Type := mkBroker {
  dapr_available : bool;
  accepts : nat -> bool
}.

(** What the broker holds, and how many publishes were attempted. *)
Record Bus : Type := mkBus {
  published : list Event;
  attempts : nat
}.

Record World : Type := mkWorld {
  db : TaskDb;
  bus : Bus
}.

(** State and exceptions of a tool call. *)
Definition M (A : Type) : Type := World -> pyresult A * World.

Definition ret {A} (a : A) : M A := fun w => (Return a, w).

Definition raise {A} (e : exn) : M A := fun w => (Raise e, w).

Definition mbind {A B} (m : M A) (k : A -> M B) : M B :=
  fun w =>
    match m w with
    | (Return a, w') => k a w'
    | (Raise e, w') => (Raise e, w')
    | (OutOfFuel, w') => (OutOfFuel, w')
    end.

(** [try: m  except Exception as e: handler e] *)
Definition try_except {A} (m : M A) (handler : exn -> M A) : M A :=
  fun w =>
    match m w with
    | (Raise e, w') => handler e w'
    | r => r
    end.

Definition lift {A} (r : pyresult A) : M A := fun w => (r, w).

Definition get_db : M TaskDb := fun w => (Return (db w), w).

Definition put_db (d : TaskDb) : M unit :=
  fun w => (Return tt, mkWorld d (bus w)).

Declare Scope tool_scope.
Delimit Scope tool_scope with tool.
Notation "x <~ m ;; k" := (mbind m (fun x => k))
  (at level 100, m at next level, right associativity) : tool_scope.
Notation "m ;;; k" := (mbind m (fun _ => k))
  (at level 100, right associativity) : tool_scope.

Module DaprEventPublisher.

Local Open Scope tool_scope.

Definition publish_event (br : Broker) (topic_ event_type_ : string)
    (data_ : list (string * pyval)) : M unit :=
  fun w =>
    if negb (dapr_available br) then (Return tt, w)
    else
      let b := bus w in
      if accepts br (attempts b) then
        (Return tt,
         mkWorld (db w)
           (mkBus (published b
                   ++ [mkEvent topic_ event_type_ "todo-chat-api" data_])
                  (S (attempts b))))
      else
        (Raise PublishError,
         mkWorld (db w) (mkBus (published b) (S (attempts b)))).

Definition publish_task_created br task_data : M unit :=
  publish_event br "task-events" "task.created" task_data.

Definition publish_task_updated br task_data : M unit :=
  publish_event br "task-events" "task.updated" task_data.

Definition publish_task_completed br task_data : M unit :=
  publish_event br "task-events" "task.completed" task_data.

Definition publish_task_deleted br task_data : M unit :=
  publish_event br "task-events" "task.deleted" task_data.

Definition publish_reminder_scheduled br reminder_data : M unit :=
  publish_event br "reminders" "task.due_scheduled" reminder_data.

End DaprEventPublisher.

(** ** app/mcp/base_tool.py *)

Module BaseMCPTool.

(** [validate_user_id]; the string it returns is the checked id. *)
Definition validate_user_id (user_id_ : pyval) : pyresult string :=
  match user_id_ with
  | PStr s =>
      if PyStr.truthy s then Return s
      else Raise (MCPToolError "UNAUTHORIZED" "Invalid or missing user_id"
                    [("field", PStr "user_id")])
  | _ => Raise (MCPToolError "UNAUTHORIZED" "Invalid or missing user_id"
                  [("field", PStr "user_id")])
  end.

Definition validate_ownership (resource_user_id requesting_user_id : string)
  : pyresult unit :=
  if negb (String.eqb resource_user_id requesting_user_id) then
    Raise (MCPToolError "NOT_FOUND" "Resource not found" [])
  else Return tt.

End BaseMCPTool.

(** [str(e)]: the message of an [MCPToolError] and of an
    [UnboundLocalError]; the text of the other exceptions is not
    modelled. *)
Definition exn_text (e : exn) : string :=
  match e with
  | MCPToolError _ message _ => message
  | UnboundLocalError message => message
  | _ => ""
  end.

(** The outer handlers of the tools that read the table first: an
    [MCPToolError] is re-raised, any other exception becomes
    [INTERNAL_ERROR] with the tool's message. *)
Definition reraise_or_internal {A} (msg : string) (m : M A) : M A :=
  try_except m
    (fun e =>
       match e with
       | MCPToolError _ _ _ => raise e
       | _ => raise (MCPToolError "INTERNAL_ERROR" msg
                       [("error", PStr (exn_text e))])
       end).

(** The response fields the tools build from a stored row. *)
Definition task_fields (t : Task) : list (string * pyval) :=
  [ ("id", oint (id t)); ("user_id", PStr (user_id t));
    ("title", PStr (title t)); ("description", ostr (description t));
    ("completed", PBool (completed t));
    ("created_at", PIso (created_at t));
    ("updated_at", PIso (updated_at t));
    ("priority", PStr (priority t)); ("due_date", oiso (due_date t));
    ("tags", PStrs (default [] (tags t)));
    ("recurrence", ostr (recurrence t));
    ("recurrence_rule", ostr (recurrence_rule t));
    ("next_occurrence", oiso (next_occurrence t)) ].

Definition not_found (task_id_ : Z) : exn :=
  MCPToolError "NOT_FOUND" ("Task " ++ str_of_int task_id_ ++ " not found")
    [("task_id", PInt task_id_)].

(** ** app/mcp/tools/add_task.py *)

Module AddTaskTool.

Import BaseMCPTool DaprEventPublisher.
Local Open Scope tool_scope.

Definition validation_error (msg field : string) : exn :=
  MCPToolError "VALIDATION_ERROR" msg [("field", PStr field)].

Definition in_priorities (p : string) : bool :=
  existsb (String.eqb p) ["high"; "medium"; "low"].

(** The checks of [execute] on title, priority and tags, in program
    order; the arguments have the types the tool declares, so the
    [isinstance] tests hold. *)
Definition validate (title_ priority_ : string)
    (tags_ : option (list string)) : pyresult unit :=
  if negb (PyStr.truthy title_) || negb (PyStr.truthy (PyStr.strip title_))
  then Raise (validation_error "Task title cannot be empty" "title")
  else if negb (in_priorities priority_)
  then Raise (validation_error
                "Priority must be one of: high, medium, low" "priority")
  else
    match tags_ with
    | Some ((_ :: _) as l) =>
        if 10 <? Z.of_nat (length l)
        then Raise (validation_error
                      "Maximum 10 tags per task allowed" "tags")
        else if existsb (fun tag => 20 <? PyStr.len tag) l
        then Raise (validation_error
                      "Each tag must be a string of max 20 characters"
                      "tags")
        else Return tt
    | _ => Return tt
    end.

Definition strip_description (description_ : option string)
  : option string :=
  match description_ with
  | Some s => if PyStr.truthy s then Some (PyStr.strip s) else Some s
  | None => None
  end.

Section WithDatabase.

(** How the database reads the text handed to a timestamp column;
    [None] when it rejects it. *)
Variable db_timestamp : string -> option datetime.

(** The fallback of [execute]: the row is written directly. *)
Definition create_directly (now_c now_u : datetime)
    (uid title_ : string) (description_ : option string)
    (priority_ : string) (due_date_ : option string)
    (tags_ : option (list string))
    (recurrence_ recurrence_rule_ : option string) : M response :=
  due <~ match due_date_ with
         | None => ret None
         | Some s =>
             match db_timestamp s with
             | Some d => ret (Some d)
             | None => raise DataError
             end
         end ;;
  d <~ get_db ;;
  let new_task :=
    mkTask None uid (PyStr.strip title_) (strip_description description_)
           false now_c now_u priority_ due (Some (default [] tags_))
           recurrence_ recurrence_rule_ None in
  let '(new_task, d') := db_insert new_task d in
  put_db d' ;;;
  ret (create_success_response (task_fields new_task)
         ("Task '" ++ title_ ++ "' created successfully")).

(** [execute]; [now1] and [now2] are the clock readings rendered into
    the event, [now_c] and [now_u] the column defaults of the row the
    fallback inserts. *)
Definition execute (br : Broker) (now1 now2 now_c now_u : datetime)
    (user_id_ : pyval) (title_ : string) (description_ : option string)
    (priority_ : string) (due_date_ : option string)
    (tags_ : option (list string))
    (recurrence_ recurrence_rule_ : option string) : M response :=
  uid <~ lift (validate_user_id user_id_) ;;
  lift (validate title_ priority_ tags_) ;;;
  let task_data :=
    [ ("user_id", PStr uid); ("title", PStr (PyStr.strip title_));
      ("description", ostr (strip_description description_));
      ("completed", PBool false);
      ("created_at", PIso now1); ("updated_at", PIso now2);
      ("priority", PStr priority_); ("due_date", ostr due_date_);
      ("tags", PStrs (default [] tags_));
      ("recurrence", ostr recurrence_);
      ("recurrence_rule", ostr recurrence_rule_);
      ("next_occurrence", PNone) ] in
  try_except
    (publish_task_created br task_data ;;;
     (if opt_truthy due_date_ then
        publish_reminder_scheduled br
          [ ("task_id", PNone); ("user_id", PStr uid);
            ("due_date", ostr due_date_);
            ("title", PStr (PyStr.strip title_)) ]
      else ret tt) ;;;
     ret (create_success_response
            (("id", PNone) :: task_data)
            ("Task '" ++ title_ ++ "' creation requested")))
    (fun event_publish_error =>
       create_directly now_c now_u uid title_ description_ priority_
         due_date_ tags_ recurrence_ recurrence_rule_).

End WithDatabase.

End AddTaskTool.

(** ** app/mcp/tools/complete_task.py *)

Module CompleteTaskTool.

Import BaseMCPTool DaprEventPublisher.
Local Open Scope tool_scope.

Definition set_completed (t : Task) (c : bool) (now : datetime) : Task :=
  mkTask (id t) (user_id t) (title t) (description t) c (created_at t) now
         (priority t) (due_date t) (tags t) (recurrence t)
         (recurrence_rule t) (next_occurrence t).

(** The fallback of [execute]. *)
Definition complete_directly (now : datetime) (uid : string) (task_id_ : Z)
  : M response :=
  d <~ get_db ;;
  match rows d !! task_id_ with
  | None => raise (not_found task_id_)
  | Some task =>
      lift (validate_ownership (user_id task) uid) ;;;
      let task := set_completed task true now in
      put_db (db_update task_id_ task d) ;;;
      ret (create_success_response (task_fields task)
             ("Task '" ++ title task ++ "' marked as completed"))
  end.

Definition execute (br : Broker) (now : datetime) (user_id_ : pyval)
    (task_id_ : Z) : M response :=
  uid <~ lift (validate_user_id user_id_) ;;
  let completion_data := [("id", PInt task_id_); ("user_id", PStr uid)] in
  try_except
    (publish_task_completed br completion_data ;;;
     ret (create_success_response completion_data
            ("Task " ++ str_of_int task_id_ ++ " completion requested")))
    (fun event_publish_error => complete_directly now uid task_id_).

End CompleteTaskTool.

(** ** app/mcp/tools/delete_task.py *)

Module DeleteTaskTool.

Import BaseMCPTool.
Local Open Scope tool_scope.

Section WithInterpreter.

(** [str(e)] of the [UnboundLocalError] for the local name [select]; its
    wording depends on the version of the interpreter. *)
Variable select_unbound : string.

(** [execute]. The handler of the inner [try] imports [select] (line 79,
    [from sqlmodel import Session, select]), and an import anywhere in a
    function makes the name local to the whole function. The first
    statement of the outer [try], [select(Task).where(...)] on line 42,
    reads that local before anything has bound it and raises
    [UnboundLocalError]: the lookup, the ownership check, the publish and
    both deletions of lines 43 to 103 are never reached. The outer
    handler rolls back a session that holds no change and raises
    [INTERNAL_ERROR]. *)
Definition execute (user_id_ : pyval) (task_id_ : Z) : M response :=
  uid <~ lift (validate_user_id user_id_) ;;
  reraise_or_internal "Failed to delete task"
    (raise (UnboundLocalError select_unbound)).

End WithInterpreter.

End DeleteTaskTool.

(** ** app/mcp/tools/view_task.py *)

Module ViewTaskTool.

Import BaseMCPTool.
Local Open Scope tool_scope.

Definition execute (user_id_ : pyval) (task_id_ : Z) : M response :=
  uid <~ lift (validate_user_id user_id_) ;;
  reraise_or_internal "Failed to retrieve task"
    (d <~ get_db ;;
     match rows d !! task_id_ with
     | None => raise (not_found task_id_)
     | Some task =>
         lift (validate_ownership (user_id task) uid) ;;;
         ret (create_success_response
                [ ("id", oint (id task)); ("user_id", PStr (user_id task));
                  ("title", PStr (title task));
                  ("description", ostr (description task));
                  ("completed", PBool (completed task));
                  ("created_at", PIso (created_at task));
                  ("updated_at", PIso (updated_at task)) ]
                ("Here are the details for task " ++ str_of_int task_id_))
     end).

End ViewTaskTool.

(** ** app/services/task_service.py *)

Module TaskService.

Definition get_by_id (task_id_ : Z) (user_id_ : string) (d : TaskDb)
  : option Task :=
  match rows d !! task_id_ with
  | Some task => if String.eqb (user_id task) user_id_ then Some task
                 else None
  | None => None
  end.

Section WithParser.

(** [datetime.fromisoformat]: [None] stands for its [ValueError]. *)
Variable fromisoformat : string -> option datetime.

(** What the [due_date] column, a timestamp without time zone, hands
    back for a parsed value written to it: the task is refreshed from the
    row after the commit, so it holds that value and not the parsed
    one. *)
Variable column : datetime -> datetime.

Definition create_advanced (now_c now_u : datetime)
    (user_id_ title_ : string) (description_ : option string)
    (priority_ : string) (due_date_ : option string)
    (tags_ : option (list string))
    (recurrence_ recurrence_rule_ : option string) (d : TaskDb)
  : Task * TaskDb :=
  let priority_ :=
    if negb (AddTaskTool.in_priorities priority_) then "medium"
    else priority_ in
  let due_datetime :=
    if opt_truthy due_date_
    then column <$> fromisoformat (replace_Z (default "" due_date_))
    else None in
  db_insert
    (mkTask None user_id_ title_ description_ false now_c now_u
            priority_ due_datetime (Some (default [] tags_))
            recurrence_ recurrence_rule_ None)
    d.

End WithParser.

Definition delete (task_id_ : Z) (user_id_ : string) (d : TaskDb)
  : bool * TaskDb :=
  match get_by_id task_id_ user_id_ d with
  | None => (false, d)
  | Some task => (true, db_delete task_id_ d)
  end.

Definition toggle_complete (now : datetime) (task_id_ : Z)
    (user_id_ : string) (d : TaskDb) : option Task * TaskDb :=
  match get_by_id task_id_ user_id_ d with
  | None => (None, d)
  | Some task =>
      let task :=
        CompleteTaskTool.set_completed task (negb (completed task)) now in
      (Some task, db_update task_id_ task d)
  end.

End TaskService.

(** ** Definitions that the proofs use *)

(** Bounded search: [p] holds for [fuel] consecutive integers from [i]. *)
Fixpoint all_from (fuel : nat) (i : Z) (p : Z -> bool) : bool :=
  match fuel with
  | O => true
  | S fuel' => if p i then all_from fuel' (i + 1) p else false
  end.

(** What one day [r] of the first 400-year cycle has to satisfy. *)
Definition cycle_ok (r : Z) : bool :=
  let '(y, m, d) := ord2ymd (r + 1) in
  (ymd2ord y m d =? r + 1)
  && (1 <=? y) && (y <=? 400)
  && ((145730 <? r) || (y <=? 399))
  && (1 <=? m) && (m <=? 12) && (1 <=? d) && (d <=? days_in_month y m).

Definition shift_year (k : Z) (ymd : Z * Z * Z) : Z * Z * Z :=
  let '(y, m, d) := ymd in (y + k, m, d).

(** The row [create_next_occurrence] builds from the completed task and
    the computed occurrence. *)
Definition projected (src : Task) (k : Z) (occ now_c now_u : datetime)
  : Task :=
  mkTask (Some k) (user_id src) (title src) (description src) false
         now_c now_u (priority src) (Some occ) (tags src)
         (recurrence src) (recurrence_rule src) None.

(** The source task of the scenario: "Pay rent", monthly, due
    2026-01-31T00:00:00Z (which the column holds without the offset),
    stored under key 1 and already completed. *)
Definition pay_rent : Task :=
  mkTask (Some 1) "user-a" "Pay rent" None true
         (naive 2026 1 1 8 0 0) (naive 2026 3 15 10 30 0) "medium"
         (Some (naive 2026 1 31 0 0 0)) (Some []) (Some "monthly") None None.

Definition pay_rent_db : TaskDb := mkTaskDb {[ 1 := pay_rent ]} 2.

#[global] Instance notification_eq_dec : EqDecision Notification.t.
Proof. solve_decision. Defined.

(** A notification the retry loop acts on. *)
Definition eligible (n : Notification.t) : Prop :=
  Notification.status n = "failed" /\ Notification.delivery_attempts n < 3.

Definition retried (n : Notification.t) : Notification.t :=
  Notification.set_delivery_attempts n (Notification.delivery_attempts n + 1).

Definition retry_row (n : Notification.t) : Notification.t :=
  if decide (eligible n) then retried n else n.

(** [rounds] successive invocations of [retry_failed_notifications]. *)
Definition retry_rounds (rounds : nat) (db : Notification.Db)
  : Notification.Db :=
  Nat.iter rounds
    (fun d => (NotificationService.retry_failed_notifications d).2) db.

(** A table with a dead-lettered row (1), a retryable one (2) and a sent
    one (3). *)
Definition sample_notifications : Notification.Db :=
  let row k st a :=
    Notification.mk (Some k) 7 "user-a" (naive 2026 1 31 0 0 0)
      None st a "push" "Task 'Pay rent' is due soon!"
      (naive 2026 1 30 0 0 0) (naive 2026 1 30 0 0 0) in
  Notification.mkDb
    {[ 1 := row 1 "failed" 3; 2 := row 2 "failed" 1; 3 := row 3 "sent" 1 ]}
    4.



Definition eleven_accents : string := "ééééééééééé".


(** ** Sample environments *)

(** A database that reads the one timestamp text used below. *)
Definition pg_timestamp (s : string) : option datetime :=
  if String.eqb s "2026-01-31T00:00:00Z" then Some (naive 2026 1 31 0 0 0)
  else None.

(** A sidecar that accepts the first publish and rejects the later ones,
    one that is down, and one that is up. *)
Definition flaky : Broker :=
  mkBroker true (fun n => match n with O => true | _ => false end).

Definition down : Broker := mkBroker true (fun _ => false).

Definition up : Broker := mkBroker true (fun _ => true).

Definition empty_world : World := mkWorld empty_db (mkBus [] 0).

Definition pay_rent_world : World := mkWorld pay_rent_db (mkBus [] 0).

(** Task 42 of user-b, in a table of its own. *)
Definition others_task : Task :=
  mkTask (Some 42) "user-b" "Call the bank" None false
         (naive 2026 1 1 8 0 0) (naive 2026 1 1 8 0 0) "high" None
         (Some ["private"]) None None None.

Definition others_world : World :=
  mkWorld (mkTaskDb {[ 42 := others_task ]} 43) (mkBus [] 0).

(** ** app/mcp/tools/update_task.py *)

Module UpdateTaskTool.

Import BaseMCPTool DaprEventPublisher.
Local Open Scope tool_scope.

(** Truthiness of an optional list: neither [None] nor empty. *)
Definition list_truthy {A} (o : option (list A)) : bool :=
  match o with
  | Some (_ :: _) => true
  | _ => false
  end.

Definition otags (o : option (list string)) : pyval :=
  match o with Some l => PStrs l | None => PNone end.

(** [any([title, description is not None, priority, due_date, tags,
    recurrence, recurrence_rule])] *)
Definition any_field (title_ description_ priority_ due_date_ : option string)
    (tags_ : option (list string))
    (recurrence_ recurrence_rule_ : option string) : bool :=
  opt_truthy title_ || bool_decide (description_ <> None)
  || opt_truthy priority_ || opt_truthy due_date_ || list_truthy tags_
  || opt_truthy recurrence_ || opt_truthy recurrence_rule_.

(** The checks of [execute] after the user id, in program order. *)
Definition validate (task_id_ : Z)
    (title_ description_ priority_ due_date_ : option string)
    (tags_ : option (list string))
    (recurrence_ recurrence_rule_ : option string) : pyresult unit :=
  if negb (any_field title_ description_ priority_ due_date_ tags_
             recurrence_ recurrence_rule_)
  then Raise (MCPToolError "VALIDATION_ERROR"
                "At least one field must be provided for update"
                [("task_id", PInt task_id_)])
  else if opt_truthy priority_
          && negb (AddTaskTool.in_priorities (default "" priority_))
  then Raise (AddTaskTool.validation_error
                "Priority must be one of: high, medium, low" "priority")
  else
    match tags_ with
    | Some ((_ :: _) as l) =>
        if 10 <? Z.of_nat (length l)
        then Raise (AddTaskTool.validation_error
                      "Maximum 10 tags per task allowed" "tags")
        else if existsb (fun tag => 20 <? PyStr.len tag) l
        then Raise (AddTaskTool.validation_error
                      "Each tag must be a string of max 20 characters"
                      "tags")
        else Return tt
    | _ => Return tt
    end.

(** The assignments of the fallback: a field is written when its argument
    is not [None]. *)
Definition apply_update (task : Task)
    (title_ description_ priority_ : option string)
    (due : option datetime) (tags_ : option (list string))
    (recurrence_ recurrence_rule_ : option string) (now : datetime) : Task :=
  mkTask (id task) (user_id task)
         (default (title task) title_)
         (match description_ with
          | Some d => Some d | None => description task end)
         (completed task) (created_at task) now
         (default (priority task) priority_)
         (match due with Some d => Some d | None => due_date task end)
         (match tags_ with Some l => Some l | None => tags task end)
         (match recurrence_ with
          | Some r => Some r | None => recurrence task end)
         (match recurrence_rule_ with
          | Some r => Some r | None => recurrence_rule task end)
         (next_occurrence task).

Section WithDatabase.

(** How the database reads the text handed to a timestamp column. *)
Variable db_timestamp : string -> option datetime.

Definition update_directly (now : datetime) (uid : string) (task_id_ : Z)
    (title_ description_ priority_ due_date_ : option string)
    (tags_ : option (list string))
    (recurrence_ recurrence_rule_ : option string) : M response :=
  d <~ get_db ;;
  match rows d !! task_id_ with
  | None => raise (not_found task_id_)
  | Some task =>
      lift (validate_ownership (user_id task) uid) ;;;
      due <~ match due_date_ with
             | None => ret None
             | Some s =>
                 match db_timestamp s with
                 | Some t => ret (Some t)
                 | None => raise DataError
                 end
             end ;;
      let task := apply_update task title_ description_ priority_ due tags_
                    recurrence_ recurrence_rule_ now in
      put_db (db_update task_id_ task d) ;;;
      ret (create_success_response (task_fields task)
             ("Task '" ++ title task ++ "' updated successfully"))
  end.

Definition execute (br : Broker) (now : datetime) (user_id_ : pyval)
    (task_id_ : Z) (title_ description_ priority_ due_date_ : option string)
    (tags_ : option (list string))
    (recurrence_ recurrence_rule_ : option string) : M response :=
  uid <~ lift (validate_user_id user_id_) ;;
  lift (validate task_id_ title_ description_ priority_ due_date_ tags_
          recurrence_ recurrence_rule_) ;;;
  let update_data :=
    [ ("id", PInt task_id_); ("user_id", PStr uid);
      ("title", ostr title_); ("description", ostr description_);
      ("priority", ostr priority_); ("due_date", ostr due_date_);
      ("tags", otags tags_); ("recurrence", ostr recurrence_);
      ("recurrence_rule", ostr recurrence_rule_) ] in
  try_except
    (publish_task_updated br update_data ;;;
     ret (create_success_response update_data
            ("Task " ++ str_of_int task_id_ ++ " update requested")))
    (fun event_publish_error =>
       update_directly now uid task_id_ title_ description_ priority_
         due_date_ tags_ recurrence_ recurrence_rule_).

End WithDatabase.

End UpdateTaskTool.

(** ** app/services/task_service.py, continued *)

Module TaskServiceMore.

Section WithParser.

Variable fromisoformat : string -> option datetime.

(** What the [due_date] column hands back for a parsed value, as in
    [create_advanced]. *)
Variable column : datetime -> datetime.

(** [update_advanced]: a priority outside the three and a due date that
    does not parse are skipped. *)
Definition update_advanced (now : datetime) (task_id_ : Z) (user_id_ : string)
    (title_ description_ priority_ due_date_ : option string)
    (tags_ : option (list string))
    (recurrence_ recurrence_rule_ : option string) (d : TaskDb)
  : option Task * TaskDb :=
  match TaskService.get_by_id task_id_ user_id_ d with
  | None => (None, d)
  | Some task =>
      let priority_ :=
        match priority_ with
        | Some p => if AddTaskTool.in_priorities p then Some p else None
        | None => None
        end in
      let due :=
        match due_date_ with
        | Some s => column <$> fromisoformat (replace_Z s)
        | None => None
        end in
      let task :=
        UpdateTaskTool.apply_update task title_ description_ priority_ due
          tags_ recurrence_ recurrence_rule_ now in
      (Some task, db_update task_id_ task d)
  end.

End WithParser.

End TaskServiceMore.

(** ** app/services/recurring_task_service.py, the event handler *)

Module CompletedEvents.

Import RecurringTaskService.

(** The direct [DaprClient.publish_event] of the handler; its envelope has
    no source, and a failure is logged and dropped. *)
Definition announce (br : Broker) (next_task : Task) (b : Bus) : Bus :=
  if dapr_available br then
    if accepts br (attempts b) then
      mkBus (published b
             ++ [mkEvent "task-events" "task.created" ""
                   [ ("id", oint (id next_task));
                     ("user_id", PStr (user_id next_task));
                     ("title", PStr (title next_task));
                     ("due_date", oiso (due_date next_task)) ]])
            (S (attempts b))
    else mkBus (published b) (S (attempts b))
  else b.

(** [process_task_completed_event]; the event carries [id] and
    [user_id]. *)
Definition process_task_completed_event (br : Broker) (fuel : nat)
    (now now_c now_u : datetime) (task_id_ : option Z)
    (user_id_ : option string) (w : World) : pyresult bool * World :=
  match task_id_ with
  | None | Some 0 => (Return false, w)
  | Some k =>
      match user_id_ with
      | None => (Return false, w)
      | Some u =>
          match TaskService.get_by_id k u (db w) with
          | None => (Return false, w)
          | Some task =>
              if opt_truthy (recurrence task) then
                match create_next_occurrence fuel now now_c now_u task
                        (db w) with
                | (Return (Some next_task), d') =>
                    (Return true, mkWorld d' (announce br next_task (bus w)))
                | (Return None, d') => (Return false, mkWorld d' (bus w))
                | (Raise _, d') => (Return false, mkWorld d' (bus w))
                | (OutOfFuel, d') => (OutOfFuel, mkWorld d' (bus w))
                end
              else (Return false, w)
          end
      end
  end.

End CompletedEvents.

(** ** app/services/reminder_scheduler.py *)

Module ReminderScheduler.

Import DaprEventPublisher.
Local Open Scope tool_scope.

(** [t + timedelta(hours=h, minutes=m)]: the seconds carry into the
    ordinal; outside [1 .. MAXORDINAL] it is an [OverflowError]. *)
Definition add_time (t : datetime) (hours minutes : Z) : pyresult datetime :=
  let total :=
    hour t * 3600 + minute t * 60 + second t + hours * 3600 + minutes * 60 in
  let days := toordinal t + total / 86400 in
  let secs := total mod 86400 in
  if (0 <? days) && (days <=? MAXORDINAL) then
    let '(y, m, d) := ord2ymd days in
    Return (mkDatetime y m d (secs / 3600) ((secs mod 3600) / 60)
              (secs mod 60) (microsecond t) (tzoffset t))
  else Raise OverflowError.

(** The order of two timestamp columns without time zone. *)
Definition stamp (t : datetime) : list Z :=
  [year t; month t; day t; hour t; minute t; second t; microsecond t].

Fixpoint lex_le (a b : list Z) : bool :=
  match a, b with
  | [], _ => true
  | _ :: _, [] => false
  | x :: a', y :: b' => (x <? y) || ((x =? y) && lex_le a' b')
  end.

Definition dt_le (a b : datetime) : bool := lex_le (stamp a) (stamp b).

Definition schedule_reminders_for_task (br : Broker) (task : Task) : M bool :=
  match due_date task with
  | None => ret false
  | Some due =>
      let reminder_data :=
        [ ("task_id", oint (id task)); ("user_id", PStr (user_id task));
          ("due_date", PIso due); ("title", PStr (title task));
          ("priority", PStr (priority task)) ] in
      try_except
        (publish_reminder_scheduled br reminder_data ;;; ret true)
        (fun e => ret false)
  end.

(** The rows of the two sweeps: due within [now, target] and not
    completed, of every user. *)
Definition due_between (now target : datetime) (d : TaskDb) : list Task :=
  filter (fun t => match due_date t with
                   | Some due => dt_le due target && dt_le now due
                   | None => false
                   end = true
                   /\ completed t = false)
         (map snd (map_to_list (rows d))).

(** The loop of [schedule_periodic_reminders]. *)
Fixpoint schedule_all (br : Broker) (tasks : list Task) (scheduled_count : Z)
  : M Z :=
  match tasks with
  | [] => ret scheduled_count
  | task :: rest =>
      ok <~ schedule_reminders_for_task br task ;;
      schedule_all br rest
        (if ok then scheduled_count + 1 else scheduled_count)
  end.

Definition schedule_periodic_reminders (br : Broker) (now : datetime)
    (hours_before_due : Z) : M Z :=
  target_time <~ lift (add_time now hours_before_due 0) ;;
  d <~ get_db ;;
  schedule_all br (due_between now target_time d) 0.

End ReminderScheduler.

(** ** notification-service: batches and reminder events *)

Module NotificationBatch.

Import Notification.


Section WithParser.

Variable fromisoformat : string -> option datetime.

Variable column : datetime -> datetime.


End WithParser.

Definition get_pending_notifications (db : Db) : list t :=
  filter (fun n => status n = "pending") (map snd (map_to_list (rows db))).

End NotificationBatch.

Module ReminderEvents.

Import Notification.

(** The fields [process_reminder_event] reads with [get]; a field is
    [None] when the key is absent. Non-ASCII characters of the messages
    are their UTF-8 bytes. *)
Record reminder : Type := mkReminder {
  r_task_id : option Z;
  r_user_id : option string;
  r_due_date : option string;
  r_title : option string;
  r_priority : option string;
  r_channel : option string
}.

Definition reminder_message (title_ : string) (priority_ : string)
    (due_date_ : option string) : string :=
  let message :=
    if String.eqb priority_ "high"
    then "🚨 HIGH PRIORITY: Task '" ++ title_ ++ "' is due soon!"
    else if String.eqb priority_ "low"
    then "↘️ Low priority reminder: Task '" ++ title_ ++ "' is due soon."
    else "⏰ Reminder: Task '" ++ title_ ++ "' is due soon!" in
  if opt_truthy due_date_
  then "⏰ URGENT REMINDER: Task '" ++ title_ ++ "' is due at "
       ++ default "" due_date_
  else message.

Section WithParser.

Variable fromisoformat : string -> option datetime.

Variable column : datetime -> datetime.

(** [process_reminder_event] of the reminder consumer. The second
    component tells whether a [notification.sent] event reached the bus;
    a failed publish is logged and dropped. *)
Definition process_reminder_event (br : Broker)
    (n1 n2 n3 n4 n5 : datetime) (ev : reminder) (db : Db) (b : Bus)
  : bool * Db * Bus :=
  match r_task_id ev, r_user_id ev, r_title ev with
  | Some k, Some u, Some ti =>
      if (k =? 0) || negb (PyStr.truthy u) || negb (PyStr.truthy ti)
      then (false, db, b)
      else
        let message :=
          reminder_message ti (default "medium" (r_priority ev))
            (r_due_date ev) in
        let channel_ := default "push" (r_channel ev) in
        match ReminderConsumer.send_notification fromisoformat column
                n1 n2 n3 n4 u k ti (r_due_date ev) message channel_ db with
        | (Return _, db') =>
            let b' :=
              if dapr_available br then
                if accepts br (attempts b) then
                  mkBus (published b
                         ++ [mkEvent "notifications" "notification.sent" ""
                               [ ("task_id", PInt k); ("user_id", PStr u);
                                 ("timestamp", PIso n5);
                                 ("status", PStr "sent");
                                 ("channel", PStr channel_) ]])
                        (S (attempts b))
                else mkBus (published b) (S (attempts b))
              else b in
            (true, db', b')
        | (_, db') => (false, db', b)
        end
  | _, _, _ => (false, db, b)
  end.

End WithParser.

End ReminderEvents.

(** ** app/services/notification_service.py *)

Module AppNotificationService.

(** [process_reminder_event] of the API's own notification service. It
    reads the task table and writes to the bus only; the due date of the
    event goes into the logged message alone. A failed publish is logged
    and dropped. *)
Definition process_reminder_event (br : Broker) (now : datetime)
    (task_id_ : option Z) (user_id_ title_ : option string)
    (d : TaskDb) (b : Bus) : bool * Bus :=
  match task_id_, user_id_, title_ with
  | Some k, Some u, Some ti =>
      if (k =? 0) || negb (PyStr.truthy u) || negb (PyStr.truthy ti)
      then (false, b)
      else
        match rows d !! k with
        | Some task =>
            if String.eqb (user_id task) u then
              if completed task then (true, b)
              else
                (true,
                 if dapr_available br then
                   if accepts br (attempts b) then
                     mkBus (published b
                            ++ [mkEvent "notifications" "notification.sent"
                                  ""
                                  [ ("task_id", PInt k);
                                    ("user_id", PStr u);
                                    ("timestamp", PIso now);
                                    ("status", PStr "sent") ]])
                           (S (attempts b))
                   else mkBus (published b) (S (attempts b))
                 else b)
            else (false, b)
        | None => (false, b)
        end
  | _, _, _ => (false, b)
  end.

End AppNotificationService.

(** What a consumer reads from a field of an event. *)
Definition as_int (v : option pyval) : option Z :=
  match v with Some (PInt k) => Some k | _ => None end.

Definition as_str (v : option pyval) : option string :=
  match v with Some (PStr s) => Some s | _ => None end.

(** ** app/mcp/server.py *)

(** [d[key] = v] on an insertion-ordered dictionary. *)
Fixpoint dict_set {A} (key : string) (v : A) (d : list (string * A))
  : list (string * A) :=
  match d with
  | [] => [(key, v)]
  | (k, x) :: rest =>
      if String.eqb k key then (k, v) :: rest
      else (k, x) :: dict_set key v rest
  end.

Fixpoint dict_find {A} (key : string) (d : list (string * A)) : option A :=
  match d with
  | [] => None
  | (k, x) :: rest => if String.eqb k key then Some x else dict_find key rest
  end.

Module MCPServer.

(** The handler takes the keyword arguments of the call; the schema in
    [parameters] is only handed out by [get_tool_schemas]. *)
Record MCPTool : Type := mkTool {
  name : string;
  tool_description : string;
  handler : list (string * pyval) -> M response
}.

Definition register_tool (tool : MCPTool) (tools : list (string * MCPTool))
  : list (string * MCPTool) :=
  dict_set (name tool) tool tools.

Definition get_tool (name_ : string) (tools : list (string * MCPTool))
  : pyresult MCPTool :=
  match dict_find name_ tools with
  | Some tool => Return tool
  | None => Raise ValueError
  end.

Definition list_tools (tools : list (string * MCPTool)) : list string :=
  map fst tools.

(** A keyword argument named like a parameter of
    [invoke_tool(self, tool_name, **kwargs)]. *)
Definition collides (kwargs : list (string * pyval)) : bool :=
  match dict_find "self" kwargs, dict_find "tool_name" kwargs with
  | None, None => false
  | _, _ => true
  end.

(** [invoke_tool(tool_name, **kwargs)]: with a colliding keyword the call
    raises [TypeError] when the arguments are bound, before the body
    runs. *)
Definition invoke_tool (tools : list (string * MCPTool)) (tool_name : string)
    (kwargs : list (string * pyval)) : M response :=
  if collides kwargs then raise TypeError
  else
    mbind (lift (get_tool tool_name tools)) (fun tool =>
      match dict_find "user_id" kwargs with
      | None => raise ValueError
      | Some _ => handler tool kwargs
      end).

End MCPServer.

(** ** app/agents/skills/mcp_invocation.py *)

Module MCPInvocationSkill.

Local Open Scope tool_scope.

(** Truthiness of a parameter value. *)
Definition truthy (v : pyval) : bool :=
  match v with
  | PNone => false
  | PBool b => b
  | PInt n => negb (n =? 0)
  | PStr s => PyStr.truthy s
  | PIso _ => true
  | PStrs l => match l with [] => false | _ :: _ => true end
  end.

Definition REQUIRED_PARAMS : list (string * list string) :=
  [ ("add_task", ["user_id"; "title"]);
    ("list_tasks", ["user_id"]);
    ("update_task", ["user_id"; "task_id"]);
    ("complete_task", ["user_id"; "task_id"]);
    ("delete_task", ["user_id"; "task_id"]) ].

(** [param not in parameters or not parameters[param]] *)
Definition is_missing (parameters : list (string * pyval)) (param : string)
  : bool :=
  match dict_find param parameters with
  | None => true
  | Some v => negb (truthy v)
  end.

Definition _validate_tool_parameters (tool_name : string)
    (parameters : list (string * pyval)) : pyresult unit :=
  match dict_find tool_name REQUIRED_PARAMS with
  | None => Return tt
  | Some required =>
      let missing := List.filter (is_missing parameters) required in
      match missing with
      | [] => Return tt
      | _ :: _ =>
          Raise (MCPToolError "VALIDATION_ERROR"
                   ("Missing required parameters: "
                    ++ String.concat ", " missing)
                   [("missing_parameters", PStrs missing)])
      end
  end.

Section WithStr.

(** [str(e)] of the exceptions that are not an [MCPToolError]. *)
Variable str : exn -> string.

Definition invoke (tools : list (string * MCPServer.MCPTool))
    (tool_name user_id_ : string)
    (parameters : option (list (string * pyval))) : M response :=
  if negb (PyStr.truthy user_id_) then
    raise (MCPToolError "UNAUTHORIZED"
             "user_id is required for MCP tool invocation" [])
  else
    let tool_params :=
      dict_set "user_id" (PStr user_id_) (default [] parameters) in
    lift (_validate_tool_parameters tool_name tool_params) ;;;
    try_except (MCPServer.invoke_tool tools tool_name tool_params)
      (fun e =>
         match e with
         | MCPToolError _ _ _ => raise e
         | _ => raise (MCPToolError "INTERNAL_ERROR"
                         ("Failed to execute tool: " ++ str e) [])
         end).

End WithStr.

End MCPInvocationSkill.

(** ** What a tool call may do to the world, as seen by the caller [uid] *)

(** The table after a step: rows of other owners are untouched, the
    key discipline is kept and the sequence does not go back. *)
Definition db_ok (uid : string) (d d' : TaskDb) : Prop :=
  (forall k t, rows d !! k = Some t -> user_id t <> uid ->
               rows d' !! k = Some t)
  /\ (db_wf d -> db_wf d')
  /\ next_id d <= next_id d'.

(** The bus after a step: what was published stays, in order. *)
Definition bus_ok (b b' : Bus) : Prop :=
  (exists more, published b' = (published b ++ more)%list
                /\ (length more <= attempts b' - attempts b)%nat)
  /\ (attempts b <= attempts b')%nat.

Definition step_ok (uid : string) (w w' : World) : Prop :=
  db_ok uid (db w) (db w') /\ bus_ok (bus w) (bus w').

(** The surroundings of a tool call: the broker, the way the database
    reads timestamp text, and the interpreter's text for the unbound
    local of the delete tool. *)
Record Env : Type := mkEnv {
  env_broker : Broker;
  env_timestamp : string -> option datetime;
  env_select_unbound : string
}.

(** A call of one of the five task tools, with the clock readings it
    takes. *)
Inductive call : Type :=
  | AddTask (now1 now2 now_c now_u : datetime) (title_ : string)
      (description_ : option string) (priority_ : string)
      (due_date_ : option string) (tags_ : option (list string))
      (recurrence_ recurrence_rule_ : option string)
  | CompleteTask (now : datetime) (task_id_ : Z)
  | UpdateTask (now : datetime) (task_id_ : Z)
      (title_ description_ priority_ due_date_ : option string)
      (tags_ : option (list string))
      (recurrence_ recurrence_rule_ : option string)
  | DeleteTask (task_id_ : Z)
  | ViewTask (task_id_ : Z).

Definition run (e : Env) (user_id_ : pyval) (c : call) : M response :=
  match c with
  | AddTask now1 now2 now_c now_u ti de pr du ta re ru =>
      AddTaskTool.execute (env_timestamp e) (env_broker e) now1 now2 now_c
        now_u user_id_ ti de pr du ta re ru
  | CompleteTask now k =>
      CompleteTaskTool.execute (env_broker e) now user_id_ k
  | UpdateTask now k ti de pr du ta re ru =>
      UpdateTaskTool.execute (env_timestamp e) (env_broker e) now user_id_ k
        ti de pr du ta re ru
  | DeleteTask k =>
      DeleteTaskTool.execute (env_select_unbound e) user_id_ k
  | ViewTask k => ViewTaskTool.execute user_id_ k
  end.

(** A session: calls made one after the other, each by some user. *)
Fixpoint run_all (e : Env) (calls : list (string * call)) (w : World)
  : World :=
  match calls with
  | [] => w
  | (u, c) :: rest => run_all e rest (run e (PStr u) c w).2
  end.

(** The calls of the delete tool. *)
Definition is_delete (c : call) : bool :=
  match c with DeleteTask _ => true | _ => false end.

(** The rows of [owner] are kept as they are. *)
Definition protects (owner : string) (d d' : TaskDb) : Prop :=
  forall k t, rows d !! k = Some t -> user_id t = owner ->
              rows d' !! k = Some t.

(** The text of Python 3.11 and later for the unbound local. *)
Definition select_unbound_text : string :=
  "cannot access local variable 'select' "
  ++ "where it is not associated with a value".

(** An environment whose bus is down, and one whose bus is up. *)
Definition quiet_down : Env := mkEnv down pg_timestamp select_unbound_text.

Definition quiet_up : Env := mkEnv up pg_timestamp select_unbound_text.



(** [datetime.fromisoformat] on the strings of the examples. *)
Definition sample_fromisoformat (s : string) : option datetime :=
  if String.eqb s "2026-01-31T00:00:00+00:00"
  then Some (utc 2026 1 31 0 0 0)
  else None.

(** A timestamp column that keeps the wall clock of what it is given and
    drops the offset. *)
Definition sample_column (t : datetime) : datetime :=
  mkDatetime (year t) (month t) (day t) (hour t) (minute t) (second t)
    (microsecond t) None.






(** Two open tasks due on 31 January 2026, of two users. *)
Definition sweep_world : World :=
  let row k u ti :=
    mkTask (Some k) u ti None false (naive 2026 1 1 8 0 0)
      (naive 2026 1 1 8 0 0) "medium" (Some (naive 2026 1 31 0 0 0))
      (Some []) None None None in
  mkWorld
    (mkTaskDb {[ 1 := row 1 "user-a" "Pay rent";
                 2 := row 2 "user-b" "Call the bank" ]} 3)
    (mkBus [] 0).

(** A registered tool whose handler looks at task 1 of the caller. *)
Definition first_task_tool : MCPServer.MCPTool :=
  MCPServer.mkTool "complete_task" "Look at the first task"
    (fun kwargs =>
       ViewTaskTool.execute (default PNone (dict_find "user_id" kwargs)) 1).

(** A handler that fails with an exception of the standard library. *)
Definition broken_tool : MCPServer.MCPTool :=
  MCPServer.mkTool "view_task" "Always fails" (fun _ => raise DataError).

Definition sample_str (e : exn) : string :=
  match e with
  | ValueError => "Tool not found"
  | TypeError => "multiple values"
  | _ => "error"
  end.

(** * Proofs *)

(** ** Facts about the ordinal arithmetic *)

Module DatetimeFacts.

Lemma all_from_spec (fuel : nat) (p : Z -> bool) :
  forall i, all_from fuel i p = true ->
  forall r, i <= r < i + Z.of_nat fuel -> p r = true.
Proof.
  induction fuel as [|fuel IH]; simpl; intros i Hall r Hr; [lia|].
  destruct (p i) eqn:Hp; [|discriminate].
  destruct (Z.eq_dec r i) as [->|Hne]; [exact Hp|].
  apply (IH (i + 1)); [exact Hall | lia].
Qed.

Lemma first_cycle_check : all_from (Z.to_nat DI400Y) 0 cycle_ok = true.
Proof. vm_compute. reflexivity. Qed.

Lemma first_cycle (r : Z) : 0 <= r < DI400Y -> cycle_ok r = true.
Proof.
  intros Hr. apply (all_from_spec _ _ 0 first_cycle_check).
  rewrite Z2Nat.id by discriminate. lia.
Qed.

Lemma is_leap_shift (y q : Z) : is_leap (y + 400 * q) = is_leap y.
Proof.
  unfold is_leap.
  replace ((y + 400 * q) mod 4) with (y mod 4)
    by (replace (y + 400 * q) with (y + (100 * q) * 4) by lia;
        now rewrite Z.mod_add).
  replace ((y + 400 * q) mod 100) with (y mod 100)
    by (replace (y + 400 * q) with (y + (4 * q) * 100) by lia;
        now rewrite Z.mod_add).
  replace ((y + 400 * q) mod 400) with (y mod 400)
    by (replace (y + 400 * q) with (y + q * 400) by lia;
        now rewrite Z.mod_add).
  reflexivity.
Qed.

Lemma days_before_year_shift (y q : Z) :
  days_before_year (y + 400 * q) = days_before_year y + DI400Y * q.
Proof.
  unfold days_before_year, DI400Y. cbv zeta.
  replace (y + 400 * q - 1) with (y - 1 + 400 * q) by lia.
  replace ((y - 1 + 400 * q) / 4) with ((y - 1) / 4 + 100 * q)
    by (replace (y - 1 + 400 * q) with (y - 1 + (100 * q) * 4) by lia;
        now rewrite Z.div_add).
  replace ((y - 1 + 400 * q) / 100) with ((y - 1) / 100 + 4 * q)
    by (replace (y - 1 + 400 * q) with (y - 1 + (4 * q) * 100) by lia;
        now rewrite Z.div_add).
  replace ((y - 1 + 400 * q) / 400) with ((y - 1) / 400 + q)
    by (replace (y - 1 + 400 * q) with (y - 1 + q * 400) by lia;
        now rewrite Z.div_add).
  lia.
Qed.

Lemma ymd2ord_shift (y m d q : Z) :
  ymd2ord (y + 400 * q) m d = ymd2ord y m d + DI400Y * q.
Proof.
  unfold ymd2ord, days_before_month.
  rewrite days_before_year_shift, is_leap_shift. lia.
Qed.

Lemma days_in_month_shift (y m q : Z) :
  days_in_month (y + 400 * q) m = days_in_month y m.
Proof. unfold days_in_month. now rewrite is_leap_shift. Qed.

(** [ord2ymd] works cycle by cycle. *)
Lemma ord2ymd_cycle (q r : Z) :
  0 <= r < DI400Y ->
  ord2ymd (DI400Y * q + r + 1) = shift_year (400 * q) (ord2ymd (r + 1)).
Proof.
  intros Hr. unfold ord2ymd. cbv zeta.
  replace (DI400Y * q + r + 1 - 1) with (r + q * DI400Y) by lia.
  replace (r + 1 - 1) with r by lia.
  rewrite Z.div_add, Z.mod_add by (unfold DI400Y; lia).
  rewrite (Z.div_small r DI400Y), (Z.mod_small r DI400Y) by lia.
  set (n100 := r / DI100Y). set (r1 := r mod DI100Y).
  set (n4 := r1 / DI4Y). set (r2 := r1 mod DI4Y).
  set (n1 := r2 / 365). set (r3 := r2 mod 365).
  destruct ((n1 =? 4) || (n100 =? 4)).
  - unfold shift_year. f_equal. f_equal. lia.
  - destruct (r3 <? _); unfold shift_year; f_equal; f_equal; lia.
Qed.

Theorem ord2ymd_roundtrip (n : Z) :
  1 <= n <= MAXORDINAL ->
  let '(y, m, d) := ord2ymd n in
  ymd2ord y m d = n /\ check_date_fields y m d = true.
Proof.
  intros Hn.
  pose (q := (n - 1) / DI400Y). pose (r := (n - 1) mod DI400Y).
  assert (Hr : 0 <= r < DI400Y) by (apply Z.mod_pos_bound; reflexivity).
  assert (Hnq : n = DI400Y * q + r + 1).
  { pose proof (Z.div_mod (n - 1) DI400Y ltac:(discriminate)).
    subst q r. lia. }
  assert (Hq : 0 <= q <= 24 /\ (q = 24 -> r <= 145730)).
  { unfold DI400Y, MAXORDINAL in *. lia. }
  pose proof (first_cycle r Hr) as Hc.
  rewrite Hnq, ord2ymd_cycle by exact Hr.
  unfold cycle_ok in Hc. destruct (ord2ymd (r + 1)) as [[y m] d].
  unfold shift_year.
  repeat (apply andb_prop in Hc as [Hc ?]).
  rewrite ymd2ord_shift. split; [lia|].
  unfold check_date_fields, MINYEAR, MAXYEAR.
  rewrite days_in_month_shift.
  repeat (apply andb_true_intro; split); lia.
Qed.

End DatetimeFacts.

(** ** Results about [datetime] arithmetic *)

Section DatetimeArith.

Import DatetimeFacts.

Lemma month_cases (m : Z) :
  1 <= m <= 12 ->
  m = 1 \/ m = 2 \/ m = 3 \/ m = 4 \/ m = 5 \/ m = 6 \/ m = 7 \/ m = 8
  \/ m = 9 \/ m = 10 \/ m = 11 \/ m = 12.
Proof. lia. Qed.

Lemma check_date_fields_inv (y m d : Z) :
  check_date_fields y m d = true ->
  1 <= y <= 9999 /\ 1 <= m <= 12 /\ 1 <= d <= days_in_month y m.
Proof.
  unfold check_date_fields, MINYEAR, MAXYEAR. intros H.
  repeat (apply andb_prop in H as [H ?]). lia.
Qed.

Lemma days_before_year_nonneg (y : Z) : 1 <= y -> 0 <= days_before_year y.
Proof.
  intros Hy. unfold days_before_year. cbv zeta.
  pose proof (Z.div_pos (y - 1) 400 ltac:(lia) ltac:(lia)).
  assert ((y - 1) / 100 <= (y - 1) / 4).
  { apply Z.div_le_lower_bound; [lia|].
    pose proof (Z.mul_div_le (y - 1) 100 ltac:(lia)).
    pose proof (Z.div_pos (y - 1) 100 ltac:(lia) ltac:(lia)). lia. }
  lia.
Qed.

Lemma days_before_month_nonneg (y m : Z) :
  1 <= m <= 12 -> 0 <= days_before_month y m.
Proof.
  intros Hm. unfold days_before_month.
  destruct (month_cases m Hm) as
    [->|[->|[->|[->|[->|[->|[->|[->|[->|[->|[->| ->]]]]]]]]]]];
    destruct (is_leap y); vm_compute; discriminate.
Qed.

Lemma toordinal_pos (t : datetime) : valid t = true -> 1 <= toordinal t.
Proof.
  unfold valid. intros H. apply andb_prop in H as [H _].
  apply check_date_fields_inv in H as (Hy & Hm & Hd).
  unfold toordinal, ymd2ord.
  pose proof (days_before_year_nonneg (year t) ltac:(lia)).
  pose proof (days_before_month_nonneg (year t) (month t) Hm). lia.
Qed.

Lemma with_date_time (t : datetime) (ymd : Z * Z * Z) :
  same_time (with_date t ymd) t
  /\ check_time_fields (with_date t ymd) = check_time_fields t.
Proof. destruct ymd as [[y m] d]. unfold same_time. simpl. tauto. Qed.

(** [t + timedelta(days=k)] lands [k] ordinals later, at the same time
    of day, whenever that day exists. *)
Lemma add_days_spec (t : datetime) (k : Z) :
  valid t = true ->
  1 <= toordinal t + k <= MAXORDINAL ->
  exists t', add_days t k = Return t'
    /\ toordinal t' = toordinal t + k
    /\ valid t' = true
    /\ same_time t' t.
Proof.
  intros Hv Hk. unfold add_days. cbv zeta.
  replace ((0 <? toordinal t + k) && (toordinal t + k <=? MAXORDINAL))
    with true by (symmetry; apply andb_true_intro; lia).
  eexists. split; [reflexivity|].
  pose proof (ord2ymd_roundtrip (toordinal t + k) Hk) as Hrt.
  pose proof (with_date_time t (ord2ymd (toordinal t + k))) as [Hst Hct].
  destruct (ord2ymd (toordinal t + k)) as [[y m] d].
  destruct Hrt as [Hord Hchk].
  unfold valid in *. apply andb_prop in Hv as [_ Hv].
  repeat split; try apply Hst.
  - exact Hord.
  - rewrite Hct, Hv. simpl. rewrite Hchk. reflexivity.
Qed.

Lemma add_days_overflow (t : datetime) (k : Z) :
  MAXORDINAL < toordinal t + k -> add_days t k = Raise OverflowError.
Proof.
  intros Hk. unfold add_days. cbv zeta.
  replace (toordinal t + k <=? MAXORDINAL) with false
    by (symmetry; apply Z.leb_gt; lia).
  now rewrite andb_false_r.
Qed.

Lemma same_time_trans (a b c : datetime) :
  same_time a b -> same_time b c -> same_time a c.
Proof. unfold same_time. intuition congruence. Qed.

End DatetimeArith.

(** ** The next-occurrence calculator *)

Section NextOccurrence.

Import RecurringTaskService.

Lemma skip_weekend_weekday (fuel : nat) (t : datetime) :
  weekday t < 5 -> skip_weekend fuel t = Return t.
Proof.
  intros H. destruct fuel; simpl;
    (replace (5 <=? weekday t) with false
       by (symmetry; apply Z.leb_gt; lia)); reflexivity.
Qed.

Lemma skip_weekend_step (fuel : nat) (t t' : datetime) :
  5 <= weekday t -> add_days t 1 = Return t' ->
  skip_weekend (S fuel) t = skip_weekend fuel t'.
Proof.
  intros H Ht'. simpl.
  replace (5 <=? weekday t) with true by (symmetry; apply Z.leb_le; lia).
  rewrite Ht'. reflexivity.
Qed.

(** The loop needs at most two rounds: on a valid date it never runs out
    of fuel when given two. *)
Lemma skip_weekend_total (fuel : nat) (t : datetime) :
  valid t = true -> (2 <= fuel)%nat -> skip_weekend fuel t <> OutOfFuel.
Proof.
  intros Hv Hf.
  destruct fuel as [|[|fuel]]; [lia | lia | clear Hf].
  pose proof (toordinal_pos t Hv) as Hpos.
  destruct (Z_lt_le_dec (weekday t) 5) as [Hw|Hw].
  { rewrite skip_weekend_weekday by exact Hw. discriminate. }
  destruct (Z_le_gt_dec (toordinal t + 1) MAXORDINAL) as [Hr|Hr].
  2:{ simpl. replace (5 <=? weekday t) with true
        by (symmetry; apply Z.leb_le; lia).
      rewrite add_days_overflow by lia. discriminate. }
  destruct (add_days_spec t 1 Hv ltac:(lia)) as (t1 & E1 & O1 & V1 & _).
  rewrite (skip_weekend_step _ t t1 Hw E1).
  destruct (Z_lt_le_dec (weekday t1) 5) as [Hw1|Hw1].
  { rewrite skip_weekend_weekday by exact Hw1. discriminate. }
  destruct (Z_le_gt_dec (toordinal t1 + 1) MAXORDINAL) as [Hr1|Hr1].
  2:{ simpl. replace (5 <=? weekday t1) with true
        by (symmetry; apply Z.leb_le; lia).
      rewrite add_days_overflow by lia. discriminate. }
  destruct (add_days_spec t1 1 V1 ltac:(lia)) as (t2 & E2 & O2 & V2 & _).
  rewrite (skip_weekend_step _ t1 t2 Hw1 E2).
  rewrite skip_weekend_weekday; [discriminate|].
  unfold weekday in *. rewrite O2, O1 in *.
  pose proof (Z.mod_pos_bound (toordinal t + 6) 7 ltac:(lia)).
  assert ((toordinal t + 1 + 1 + 6) mod 7 = 0 \/
          (toordinal t + 1 + 1 + 6) mod 7 = 1); [|lia].
  revert Hw Hw1. generalize (toordinal t). intros o.
  Z.to_euclidean_division_equations. lia.
Qed.

(** With two rounds of fuel the calculator always returns or raises. *)
Lemma calculate_next_occurrence_total
    (fuel : nat) (rec rule : option string) (T : datetime) :
  valid T = true -> (2 <= fuel)%nat ->
  calculate_next_occurrence fuel rec rule T <> OutOfFuel.
Proof.
  intros Hv Hf. unfold calculate_next_occurrence.
  assert (Hadd : forall k, (d <- add_days T k ;; Return (Some d))
                           <> OutOfFuel).
  { intros k. unfold add_days. cbv zeta.
    destruct ((0 <? toordinal T + k) && (toordinal T + k <=? MAXORDINAL));
      discriminate. }
  destruct (negb (opt_truthy rec)); [discriminate|].
  destruct (opt_is rec "daily"); [apply Hadd|].
  destruct (opt_is rec "weekly"); [apply Hadd|].
  destruct (opt_is rec "monthly").
  { destruct (12 <? month T + 1); unfold replace;
      destruct (check_date_fields _ _ _); discriminate. }
  destruct (opt_is rec "custom" && opt_truthy rule); [|discriminate].
  destruct (PyStr.contains "every_2_days" _); [apply Hadd|].
  destruct (PyStr.contains "every_weekday" _); [|discriminate].
  pose proof (toordinal_pos T Hv) as Hpos.
  destruct (Z_le_gt_dec (toordinal T + 1) MAXORDINAL) as [Hr|Hr].
  - destruct (add_days_spec T 1 Hv ltac:(lia)) as (t1 & E1 & _ & V1 & _).
    rewrite E1. simpl.
    pose proof (skip_weekend_total fuel t1 V1 Hf) as Hs.
    destruct (skip_weekend fuel t1); [discriminate|discriminate|].
    contradiction.
  - rewrite add_days_overflow by lia. discriminate.
Qed.

(** Daily: one day after any timestamp. *)
Lemma daily_next (fuel : nat) (rule : option string) (T : datetime) :
  calculate_next_occurrence fuel (Some "daily") rule T
  = (d <- add_days T 1 ;; Return (Some d)).
Proof. reflexivity. Qed.

Lemma daily_next_day (fuel : nat) (rule : option string) (T : datetime) :
  valid T = true -> toordinal T + 1 <= MAXORDINAL ->
  exists d, calculate_next_occurrence fuel (Some "daily") rule T
            = Return (Some d)
    /\ toordinal d = toordinal T + 1 /\ same_time d T /\ valid d = true.
Proof.
  intros Hv Hr. pose proof (toordinal_pos T Hv).
  destruct (add_days_spec T 1 Hv ltac:(lia)) as (d & E & O & V & S).
  exists d. rewrite daily_next, E. simpl. auto.
Qed.

(** Monthly: same day of the next month, clamped to its length. *)
Lemma monthly_next (fuel : nat) (rule : option string) (T : datetime) :
  valid T = true -> (year T < 9999 \/ month T < 12) ->
  let ny := if month T =? 12 then year T + 1 else year T in
  let nm := if month T =? 12 then 1 else month T + 1 in
  calculate_next_occurrence fuel (Some "monthly") rule T
  = Return (Some (with_date T (ny, nm,
                               Z.min (day T) (days_in_month ny nm)))).
Proof.
  intros Hv Hr. cbv zeta.
  unfold valid in Hv. apply andb_prop in Hv as [Hd _].
  apply check_date_fields_inv in Hd as (Hy & Hm & Hd).
  unfold calculate_next_occurrence. simpl opt_truthy. simpl opt_is.
  cbv iota beta. simpl negb. cbv iota.
  assert (Hdim : forall y m, 1 <= m <= 12 ->
            monthrange_ndays y m = days_in_month y m /\
            28 <= days_in_month y m).
  { intros y m Hm'. unfold monthrange_ndays, days_in_month.
    destruct (month_cases m Hm') as
      [->|[->|[->|[->|[->|[->|[->|[->|[->|[->|[->| ->]]]]]]]]]]];
      destruct (is_leap y); vm_compute; split; congruence. }
  destruct (Z.eq_dec (month T) 12) as [E|E].
  - rewrite E. simpl. destruct (Hdim (year T + 1) 1 ltac:(lia)) as [-> ?].
    unfold replace.
    replace (check_date_fields _ _ _) with true; [reflexivity|].
    symmetry. unfold check_date_fields, MINYEAR, MAXYEAR.
    repeat (apply andb_true_intro; split); lia.
  - replace (12 <? month T + 1) with false
      by (symmetry; apply Z.ltb_ge; lia).
    replace (month T =? 12) with false by (symmetry; apply Z.eqb_neq; lia).
    destruct (Hdim (year T) (month T + 1) ltac:(lia)) as [-> ?].
    unfold replace.
    replace (check_date_fields _ _ _) with true; [reflexivity|].
    symmetry. unfold check_date_fields, MINYEAR, MAXYEAR.
    repeat (apply andb_true_intro; split); lia.
Qed.

(** Custom, [every_weekday], from a Friday: three ordinals later, which
    is a Monday. *)
Lemma weekday_next_from_friday (fuel : nat) (F : datetime) :
  valid F = true -> (2 <= fuel)%nat -> weekday F = 4 ->
  toordinal F + 3 <= MAXORDINAL ->
  exists M, calculate_next_occurrence fuel (Some "custom")
              (Some "every_weekday") F = Return (Some M)
    /\ toordinal M = toordinal F + 3 /\ weekday M = 0
    /\ same_time M F /\ valid M = true.
Proof.
  intros Hv Hf Hw Hr.
  destruct fuel as [|[|fuel]]; [lia | lia | clear Hf].
  pose proof (toordinal_pos F Hv) as Hpos.
  destruct (add_days_spec F 1 Hv ltac:(lia)) as (t1 & E1 & O1 & V1 & S1).
  destruct (add_days_spec t1 1 V1 ltac:(lia)) as (t2 & E2 & O2 & V2 & S2).
  destruct (add_days_spec t2 1 V2 ltac:(lia)) as (t3 & E3 & O3 & V3 & S3).
  assert (W : weekday t1 = 5 /\ weekday t2 = 6 /\ weekday t3 = 0).
  { unfold weekday in *. rewrite O3, O2, O1.
    revert Hw. generalize (toordinal F). intros o.
    Z.to_euclidean_division_equations. lia. }
  destruct W as (W1 & W2 & W3).
  exists t3.
  unfold calculate_next_occurrence. simpl opt_truthy. simpl opt_is.
  cbv iota beta. simpl negb. simpl andb. cbv iota. simpl default.
  replace (PyStr.contains "every_2_days" "every_weekday") with false
    by reflexivity.
  replace (PyStr.contains "every_weekday" "every_weekday") with true
    by reflexivity.
  cbv iota. rewrite E1. unfold bind at 1.
  rewrite (skip_weekend_step _ t1 t2 ltac:(lia) E2).
  rewrite (skip_weekend_step _ t2 t3 ltac:(lia) E3).
  rewrite skip_weekend_weekday by lia. simpl.
  split; [reflexivity|]. split; [lia|]. split; [exact W3|].
  split; [|exact V3].
  eapply same_time_trans; [exact S3|].
  eapply same_time_trans; [exact S2|exact S1].
Qed.

End NextOccurrence.

(** C5: the next-occurrence calculator. For every timestamp [T] the daily
    pattern yields [T + 1 day] (the very addition, with its overflow at the
    last representable day, and one ordinal later at the same time of day
    whenever that day exists); the monthly pattern takes 2026-01-31 to
    2026-02-28 and in general keeps the day of month clamped to the length
    of the next month; the custom rule [every_weekday] takes a Friday to
    the following Monday, skipping the weekend. *)
Theorem next_occurrence_calculator
    (fuel : nat) (rule : option string) (T : datetime) :
  valid T = true -> (2 <= fuel)%nat ->
  RecurringTaskService.calculate_next_occurrence fuel (Some "daily") rule T
    = (d <- add_days T 1 ;; Return (Some d))
  /\ (toordinal T + 1 <= MAXORDINAL ->
      exists d,
        RecurringTaskService.calculate_next_occurrence
          fuel (Some "daily") rule T = Return (Some d)
        /\ toordinal d = toordinal T + 1 /\ same_time d T
        /\ valid d = true)
  /\ (forall hh mi ss us tz,
        RecurringTaskService.calculate_next_occurrence
          fuel (Some "monthly") rule (mkDatetime 2026 1 31 hh mi ss us tz)
        = Return (Some (mkDatetime 2026 2 28 hh mi ss us tz)))
  /\ (year T < 9999 \/ month T < 12 ->
      let ny := if month T =? 12 then year T + 1 else year T in
      let nm := if month T =? 12 then 1 else month T + 1 in
      RecurringTaskService.calculate_next_occurrence
        fuel (Some "monthly") rule T
      = Return (Some (with_date T (ny, nm,
                                   Z.min (day T) (days_in_month ny nm)))))
  /\ (weekday T = 4 -> toordinal T + 3 <= MAXORDINAL ->
      exists M,
        RecurringTaskService.calculate_next_occurrence
          fuel (Some "custom") (Some "every_weekday") T = Return (Some M)
        /\ toordinal M = toordinal T + 3 /\ weekday M = 0
        /\ same_time M T /\ valid M = true).
Proof.
  intros Hv Hf.
  split; [apply daily_next|].
  split; [intros Hr; now apply daily_next_day|].
  split; [intros; reflexivity|].
  split; [intros Hr; now apply monthly_next|].
  intros Hw Hr. now apply weekday_next_from_friday.
Qed.

(** Friday 2026-01-30 09:00 is followed by Monday 2026-02-02 09:00. *)
Lemma next_occurrence_calculator_witness :
  valid (naive 2026 1 30 9 0 0) = true /\
  exists M,
    RecurringTaskService.calculate_next_occurrence
      2 (Some "custom") (Some "every_weekday") (naive 2026 1 30 9 0 0)
    = Return (Some M)
    /\ toordinal M = toordinal (naive 2026 1 30 9 0 0) + 3
    /\ weekday M = 0
    /\ same_time M (naive 2026 1 30 9 0 0) /\ valid M = true.
Proof.
  split; [reflexivity|].
  refine (proj2 (proj2 (proj2 (proj2
    (next_occurrence_calculator 2 None (naive 2026 1 30 9 0 0)
       eq_refl (le_n 2))))) eq_refl _).
  vm_compute. discriminate.
Defined.

(** ** Projection of the next occurrence *)

Section Projection.

Import RecurringTaskService.

Lemma db_insert_fresh (t : Task) (db : TaskDb) :
  db_wf db -> rows db !! next_id db = None.
Proof.
  intros Hwf. destruct (rows db !! next_id db) as [t0|] eqn:E; [|done].
  apply Hwf in E as [E _]. lia.
Qed.

Lemma db_insert_wf (t : Task) (db : TaskDb) :
  db_wf db -> db_wf (db_insert t db).2.
Proof.
  intros Hwf k t0. simpl. intros H.
  destruct (decide (next_id db = k)) as [<-|Hne].
  - rewrite lookup_insert_eq in H. injection H as <-. simpl. split; [lia|done].
  - rewrite lookup_insert_ne in H by done. apply Hwf in H as [? ?].
    split; [lia|done].
Qed.

Lemma create_next_occurrence_eq
    (fuel : nat) (now now_c now_u occ : datetime) (src : Task)
    (db : TaskDb) :
  opt_truthy (recurrence src) = true ->
  calculate_next_occurrence fuel (recurrence src) (recurrence_rule src) now
    = Return (Some occ) ->
  create_next_occurrence fuel now now_c now_u src db
  = (Return (Some (projected src (next_id db) occ now_c now_u)),
     mkTaskDb (<[next_id db := projected src (next_id db) occ now_c now_u]>
                 (rows db))
              (next_id db + 1)).
Proof.
  intros Hrec Hocc. unfold create_next_occurrence.
  rewrite Hrec, Hocc. reflexivity.
Qed.

End Projection.

(** C3, as stated, fails: the occurrence is computed from the clock at
    completion, not from the due date of the completed task. Completed on
    2026-03-15 at 10:30, the task due 2026-01-31 projects a task due
    2026-04-15 at 10:30, not 2026-02-28. *)
Lemma projection_ignores_due_date :
  exists t db',
    RecurringTaskService.create_next_occurrence 2
      (naive 2026 3 15 10 30 0) (naive 2026 3 15 10 30 0)
      (naive 2026 3 15 10 30 0) pay_rent pay_rent_db
    = (Return (Some t), db')
    /\ due_date t = Some (naive 2026 4 15 10 30 0)
    /\ due_date t <> Some (utc 2026 2 28 0 0 0)
    /\ due_date t <> Some (naive 2026 2 28 0 0 0).
Proof.
  eexists. eexists. split; [vm_compute; reflexivity|].
  simpl. repeat split; discriminate.
Qed.

(** C3, amended: completing a recurring task with recurrence monthly
    creates exactly one new task. Its due date is the monthly successor
    of the time at which the completion is processed (the clock reading
    [now]), not of the due date of the completed task: the same day of the
    next month, or the last day of that month when it is shorter, at the
    same time of day; processed on 2026-01-31T00:00:00 it is
    2026-02-28T00:00:00. The new task is not completed, has no
    [next_occurrence] and copies owner, title, description, priority,
    tags, recurrence and recurrence rule from the source. Only in December
    9999, which has no next month, the calculation raises [ValueError]
    and nothing is created. *)
Theorem next_occurrence_projection
    (fuel : nat) (now now_c now_u : datetime) (src : Task) (db : TaskDb) :
  db_wf db ->
  recurrence src = Some "monthly" ->
  valid now = true ->
  let ny := if month now =? 12 then year now + 1 else year now in
  let nm := if month now =? 12 then 1 else month now + 1 in
  let occ :=
    with_date now (ny, nm, Z.min (day now) (days_in_month ny nm)) in
  (year now < 9999 \/ month now < 12 ->
   exists t db',
     RecurringTaskService.create_next_occurrence fuel now now_c now_u src db
       = (Return (Some t), db')
     /\ due_date t = Some occ
     /\ completed t = false /\ next_occurrence t = None
     /\ user_id t = user_id src /\ title t = title src
     /\ description t = description src /\ priority t = priority src
     /\ tags t = tags src /\ recurrence t = recurrence src
     /\ recurrence_rule t = recurrence_rule src
     /\ id t = Some (next_id db)
     /\ rows db !! next_id db = None
     /\ rows db' = <[next_id db := t]> (rows db)
     /\ size (rows db') = S (size (rows db))
     /\ next_id db' = next_id db + 1
     /\ (now = naive 2026 1 31 0 0 0 ->
         due_date t = Some (naive 2026 2 28 0 0 0)))
  /\ (year now = 9999 -> month now = 12 ->
      RecurringTaskService.create_next_occurrence fuel now now_c now_u src db
      = (Raise ValueError, db)).
Proof.
  intros Hwf Hrec Hv. cbv zeta. split.
  - intros Hr.
    pose proof (db_insert_fresh src db Hwf) as Hfresh.
    pose proof (monthly_next fuel (recurrence_rule src) now Hv Hr) as Hocc.
    cbv zeta in Hocc. rewrite <- Hrec in Hocc.
    eexists. eexists.
    split.
    { apply create_next_occurrence_eq; [now rewrite Hrec|exact Hocc]. }
    cbn [due_date completed next_occurrence user_id title description
         priority tags recurrence recurrence_rule id projected rows
         next_id].
    repeat (split; [reflexivity|]).
    split; [exact Hfresh|]. split; [reflexivity|].
    split; [now apply map_size_insert_None|].
    split; [reflexivity|].
    intros ->. reflexivity.
  - intros Hy Hm.
    unfold RecurringTaskService.create_next_occurrence,
           RecurringTaskService.calculate_next_occurrence.
    rewrite Hrec. simpl. rewrite Hm, Hy. reflexivity.
Qed.

Lemma next_occurrence_projection_witness :
  exists t db',
    RecurringTaskService.create_next_occurrence 2
      (naive 2026 1 31 0 0 0) (naive 2026 1 31 0 0 0)
      (naive 2026 1 31 0 0 0) pay_rent pay_rent_db
    = (Return (Some t), db')
    /\ due_date t = Some (naive 2026 2 28 0 0 0)
    /\ completed t = false /\ title t = "Pay rent"
    /\ recurrence t = Some "monthly"
    /\ size (rows db') = 2%nat.
Proof.
  assert (Hwf : db_wf pay_rent_db).
  { intros k t. unfold pay_rent_db. simpl. intros H.
    apply lookup_singleton_Some in H as [<- <-]. split; [lia|reflexivity]. }
  destruct (proj1 (next_occurrence_projection 2
                     (naive 2026 1 31 0 0 0) (naive 2026 1 31 0 0 0)
                     (naive 2026 1 31 0 0 0) pay_rent pay_rent_db Hwf
                     eq_refl eq_refl) ltac:(left; reflexivity))
    as (t & db' & E & _ & Hc & _ & _ & Ht & _ & _ & _ & Hr & _ & _ & _ & _
        & Hs & _ & Hd).
  exists t, db'. split; [exact E|]. split; [exact (Hd eq_refl)|].
  split; [exact Hc|]. split; [exact Ht|]. split; [exact Hr|].
  rewrite Hs. reflexivity.
Defined.

(** ** Duplicate prevention *)

Section DuplicatePrevention.

Import RecurringTaskService.

(** [create_next_occurrence] never reads the table: run again on the same
    completed task, it inserts again. *)
Lemma create_next_occurrence_twice
    (fuel : nat) (now now_c now_u occ : datetime) (src : Task)
    (db : TaskDb) :
  opt_truthy (recurrence src) = true ->
  calculate_next_occurrence fuel (recurrence src) (recurrence_rule src) now
    = Return (Some occ) ->
  let r1 := create_next_occurrence fuel now now_c now_u src db in
  let r2 := create_next_occurrence fuel now now_c now_u src r1.2 in
  r1.1 = Return (Some (projected src (next_id db) occ now_c now_u))
  /\ r2.1 = Return (Some (projected src (next_id db + 1) occ now_c now_u))
  /\ rows r2.2
     = <[next_id db + 1 := projected src (next_id db + 1) occ now_c now_u]>
         (<[next_id db := projected src (next_id db) occ now_c now_u]>
            (rows db)).
Proof.
  intros Hrec Hocc. cbv zeta.
  rewrite (create_next_occurrence_eq _ _ _ _ occ) by assumption. simpl.
  rewrite (create_next_occurrence_eq _ _ _ _ occ) by assumption. simpl.
  auto.
Qed.

End DuplicatePrevention.

(** C4, evaluated on the code: the completion of "Pay rent" delivered twice
    projects two tasks, rows 2 and 3, with the same owner, title,
    recurrence and due date: [create_next_occurrence] inserts without
    looking at the table and calls no duplicate check. *)
Theorem duplicate_delivery_projects_twice :
  let now := naive 2026 1 31 0 0 0 in
  let r1 :=
    RecurringTaskService.create_next_occurrence 2 now now now
      pay_rent pay_rent_db in
  let r2 :=
    RecurringTaskService.create_next_occurrence 2 now now now
      pay_rent r1.2 in
  exists t1 t2,
    r1.1 = Return (Some t1) /\ r2.1 = Return (Some t2)
    /\ rows r2.2 !! 2 = Some t1 /\ rows r2.2 !! 3 = Some t2
    /\ size (rows r2.2) = 3%nat
    /\ user_id t1 = user_id t2 /\ title t1 = title t2
    /\ recurrence t1 = recurrence t2
    /\ due_date t1 = Some (naive 2026 2 28 0 0 0)
    /\ due_date t2 = Some (naive 2026 2 28 0 0 0).
Proof.
  cbv zeta. eexists. eexists.
  split; [vm_compute; reflexivity|].
  split; [vm_compute; reflexivity|].
  split; [vm_compute; reflexivity|].
  split; [vm_compute; reflexivity|].
  split; [vm_compute; reflexivity|].
  repeat (split; [reflexivity|]). reflexivity.
Qed.

(** ** Retrying failed notifications *)

Section Retry.

Import Notification NotificationService.

Lemma elem_of_failed (db : Db) (n : t) :
  n ∈ get_failed_notifications db
  <-> status n = "failed" /\ exists k, rows db !! k = Some n.
Proof.
  unfold get_failed_notifications.
  rewrite list_elem_of_filter, list_elem_of_fmap. split.
  - intros [Hs [[k n'] [-> Hin]]]. split; [exact Hs|].
    exists k. now apply elem_of_map_to_list.
  - intros [Hs [k Hk]]. split; [exact Hs|].
    exists (k, n). split; [reflexivity|]. now apply elem_of_map_to_list.
Qed.

Lemma retry_step_lt (db : Db) (c : Z) (n : t) :
  delivery_attempts n < 3 ->
  retry_step (db, c) n
  = (save (set_delivery_attempts n (delivery_attempts n + 1)) db, c + 1).
Proof.
  intros H. unfold retry_step.
  now replace (delivery_attempts n <? 3) with true
    by (symmetry; apply Z.ltb_lt; lia).
Qed.

Lemma retry_step_ge (db : Db) (c : Z) (n : t) :
  3 <= delivery_attempts n -> retry_step (db, c) n = (db, c).
Proof.
  intros H. unfold retry_step.
  now replace (delivery_attempts n <? 3) with false
    by (symmetry; apply Z.ltb_ge; lia).
Qed.

Lemma retry_fold (db : Db) (Hwf : wf db) (l : list t) :
  (forall n, n ∈ l -> exists k, rows db !! k = Some n) ->
  forall acc c,
    let r := fold_left retry_step l (acc, c) in
    next_id r.1 = next_id acc
    /\ r.2 = c + Z.of_nat (length (filter (fun n => delivery_attempts n < 3) l))
    /\ forall k,
         rows r.1 !! k =
         match rows db !! k with
         | Some n =>
             if decide (n ∈ l /\ delivery_attempts n < 3)
             then Some (retried n) else rows acc !! k
         | None => rows acc !! k
         end.
Proof.
  induction l as [|x l IH]; intros Hl acc c; cbv zeta.
  - simpl. split; [reflexivity|]. split; [lia|]. intros k.
    destruct (rows db !! k) as [n|]; [|reflexivity].
    reflexivity.
  - destruct (Hl x ltac:(left)) as [kx Hkx].
    destruct (Hwf kx x Hkx) as [_ Hidx].
    assert (Hl' : forall n, n ∈ l -> exists k, rows db !! k = Some n)
      by (intros n Hn; apply Hl; now right).
    change (fold_left retry_step (x :: l) (acc, c))
      with (fold_left retry_step l (retry_step (acc, c) x)).
    destruct (Z_lt_le_dec (delivery_attempts x) 3) as [Hlt|Hge].
    + rewrite retry_step_lt by exact Hlt.
      assert (Hsave :
        save (set_delivery_attempts x (delivery_attempts x + 1)) acc
        = mkDb (<[kx := retried x]> (rows acc)) (next_id acc)).
      { unfold save. simpl id. rewrite Hidx. reflexivity. }
      rewrite Hsave.
      specialize (IH Hl'
        (mkDb (<[kx := retried x]> (rows acc)) (next_id acc)) (c + 1)).
      cbv zeta in IH. destruct IH as (Hn & Hc & Hrows).
      simpl in Hn, Hrows.
      split; [exact Hn|]. split.
      { rewrite Hc, filter_cons_True by exact Hlt. simpl length. lia. }
      intros k. rewrite Hrows.
      destruct (rows db !! k) as [n|] eqn:Hk.
      * destruct (decide (kx = k)) as [<-|Hne].
        -- assert (n = x) by congruence. subst n.
           rewrite lookup_insert_eq.
           rewrite (decide_True (P := x ∈ x :: l /\ _))
             by (split; [left|exact Hlt]).
           destruct (decide _); reflexivity.
        -- rewrite lookup_insert_ne by exact Hne.
           assert (n <> x).
           { intros ->. destruct (Hwf k x Hk) as [_ Hid].
             congruence. }
           destruct (decide (n ∈ l /\ _)) as [[Hin Ha]|Hno].
           ++ rewrite decide_True; [reflexivity|].
              split; [now right|exact Ha].
           ++ rewrite decide_False; [reflexivity|].
              intros [Hin Ha]. apply Hno. split; [|exact Ha].
              apply elem_of_cons in Hin as [?|?]; [contradiction|done].
      * rewrite lookup_insert_ne; [reflexivity|]. congruence.
    + rewrite retry_step_ge by exact Hge.
      specialize (IH Hl' acc c). cbv zeta in IH.
      destruct IH as (Hn & Hc & Hrows).
      split; [exact Hn|]. split.
      { rewrite Hc, filter_cons_False by lia. reflexivity. }
      intros k. rewrite Hrows.
      destruct (rows db !! k) as [n|] eqn:Hk; [|reflexivity].
      destruct (decide (n ∈ l /\ _)) as [[Hin Ha]|Hno].
      * rewrite decide_True; [reflexivity|]. split; [now right|exact Ha].
      * rewrite decide_False; [reflexivity|].
        intros [Hin Ha]. apply Hno. split; [|exact Ha].
        apply elem_of_cons in Hin as [->|?]; [lia|done].
Qed.

(** One invocation: exactly the eligible rows are bumped, once each. *)
Lemma retry_failed_notifications_rows (db : Db) :
  wf db ->
  (retry_failed_notifications db).2
  = mkDb (retry_row <$> rows db) (next_id db)
  /\ (retry_failed_notifications db).1
     = Z.of_nat (length (filter (fun n => delivery_attempts n < 3)
                           (get_failed_notifications db))).
Proof.
  intros Hwf. unfold retry_failed_notifications. cbv zeta.
  pose proof (retry_fold db Hwf (get_failed_notifications db)) as H.
  specialize (H ltac:(intros n Hn; now apply elem_of_failed in Hn as [_ ?])
                db 0).
  cbv zeta in H.
  destruct (fold_left retry_step (get_failed_notifications db) (db, 0))
    as [db' c]. simpl in *.
  destruct H as (Hn & Hc & Hrows). split; [|lia].
  destruct db' as [rows' next']. simpl in *. subst next'. f_equal.
  apply map_eq. intros k. rewrite Hrows, lookup_fmap.
  destruct (rows db !! k) as [n|] eqn:Hk; [|reflexivity]. simpl.
  unfold retry_row, eligible.
  destruct (decide (status n = "failed" /\ _)) as [[Hs Ha]|Hno].
  - rewrite decide_True; [reflexivity|]. split; [|exact Ha].
    apply elem_of_failed. eauto.
  - rewrite decide_False; [reflexivity|].
    intros [Hin Ha]. apply Hno. split; [|exact Ha].
    now apply elem_of_failed in Hin as [? _].
Qed.

Lemma retry_preserves_wf (db : Db) :
  wf db -> wf (retry_failed_notifications db).2.
Proof.
  intros Hwf. rewrite (proj1 (retry_failed_notifications_rows db Hwf)).
  intros k n. simpl. rewrite lookup_fmap.
  destruct (rows db !! k) as [m|] eqn:Hk; [|discriminate].
  simpl. intros [= <-]. destruct (Hwf k m Hk) as [? Hid].
  split; [assumption|]. unfold retry_row.
  destruct (decide _); [|exact Hid]. exact Hid.
Qed.

Lemma retry_rounds_wf (rounds : nat) (db : Db) :
  wf db -> wf (retry_rounds rounds db).
Proof.
  intros Hwf. induction rounds as [|r IH]; [exact Hwf|].
  simpl. now apply retry_preserves_wf.
Qed.

End Retry.


Lemma sample_notifications_wf : Notification.wf sample_notifications.
Proof.
  change (map_Forall
            (fun k n => k < 4 /\ Notification.id n = Some k)
            (Notification.rows sample_notifications)).
  apply (bool_decide_unpack _). vm_compute. exact I.
Defined.


(** ** Delivery bookkeeping *)

Section Delivery.

Import Notification.



End Delivery.



(** ** The dual-path tools *)

Section DualPath.

Import BaseMCPTool DaprEventPublisher.

Lemma truthy_false (s : string) : PyStr.truthy s = false <-> s = "".
Proof. destruct s; simpl; split; congruence. Qed.

Lemma validate_user_id_str (uid : string) :
  PyStr.truthy uid = true -> validate_user_id (PStr uid) = Return uid.
Proof. intros H. simpl. now rewrite H. Qed.

Lemma validate_ownership_same (uid : string) :
  validate_ownership uid uid = Return tt.
Proof. unfold validate_ownership. now rewrite String.eqb_refl. Qed.

(** The ownership gate answers a foreign owner with the generic error. *)
Lemma validate_ownership_foreign (owner requester : string) :
  owner <> requester ->
  validate_ownership owner requester
  = Raise (MCPToolError "NOT_FOUND" "Resource not found" []).
Proof.
  intros H. unfold validate_ownership.
  apply String.eqb_neq in H. now rewrite H.
Qed.

(** [TaskService.get_by_id] answers a foreign task as a missing one. *)
Lemma get_by_id_foreign (task_id_ : Z) (requester : string) (d : TaskDb)
    (t : Task) :
  rows d !! task_id_ = Some t -> user_id t <> requester ->
  TaskService.get_by_id task_id_ requester d = None
  /\ TaskService.get_by_id task_id_ requester (db_delete task_id_ d) = None.
Proof.
  intros Ht Hne. unfold TaskService.get_by_id. rewrite Ht.
  apply String.eqb_neq in Hne. rewrite Hne. split; [reflexivity|].
  simpl. now rewrite lookup_delete_eq.
Qed.

(** Publishing through a sidecar that accepts, through one that rejects,
    and without the client library. *)
Lemma publish_event_accepted br tp ty dat (w : World) :
  dapr_available br = true -> accepts br (attempts (bus w)) = true ->
  publish_event br tp ty dat w
  = (Return tt,
     mkWorld (db w)
       (mkBus (published (bus w) ++ [mkEvent tp ty "todo-chat-api" dat])
              (S (attempts (bus w))))).
Proof. intros Ha Hc. unfold publish_event. now rewrite Ha, Hc. Qed.

Lemma publish_event_rejected br tp ty dat (w : World) :
  dapr_available br = true -> accepts br (attempts (bus w)) = false ->
  publish_event br tp ty dat w
  = (Raise PublishError,
     mkWorld (db w) (mkBus (published (bus w)) (S (attempts (bus w))))).
Proof. intros Ha Hc. unfold publish_event. now rewrite Ha, Hc. Qed.

Lemma publish_event_dev_mode br tp ty dat (w : World) :
  dapr_available br = false -> publish_event br tp ty dat w = (Return tt, w).
Proof. intros Ha. unfold publish_event. now rewrite Ha. Qed.

(** The two paths of [complete_task] on a task the caller owns: an
    accepted publish leaves the table alone; a rejected one sets the flag
    on that row and publishes nothing. *)
Lemma complete_task_paths (br : Broker) (now : datetime) (uid : string)
    (task_id_ : Z) (w : World) (t : Task) :
  PyStr.truthy uid = true -> dapr_available br = true ->
  rows (db w) !! task_id_ = Some t -> user_id t = uid ->
  (accepts br (attempts (bus w)) = true ->
   exists resp w',
     CompleteTaskTool.execute br now (PStr uid) task_id_ w
       = (Return resp, w')
     /\ db w' = db w
     /\ published (bus w')
        = (published (bus w)
           ++ [mkEvent "task-events" "task.completed" "todo-chat-api"
                 [("id", PInt task_id_); ("user_id", PStr uid)]])%list)
  /\ (accepts br (attempts (bus w)) = false ->
      exists w',
        CompleteTaskTool.execute br now (PStr uid) task_id_ w
          = (Return (create_success_response
                       (task_fields
                          (CompleteTaskTool.set_completed t true now))
                       ("Task '" ++ title t ++ "' marked as completed")),
             w')
        /\ rows (db w')
           = <[task_id_ := CompleteTaskTool.set_completed t true now]>
               (rows (db w))
        /\ next_id (db w') = next_id (db w)
        /\ published (bus w') = published (bus w)).
Proof.
  intros Hu Ha Ht Ho. split; intros Hc.
  - eexists. eexists.
    unfold CompleteTaskTool.execute, mbind, lift, try_except.
    rewrite validate_user_id_str by exact Hu.
    unfold publish_task_completed.
    rewrite publish_event_accepted by assumption.
    unfold ret. split; [reflexivity|]. split; reflexivity.
  - eexists.
    unfold CompleteTaskTool.execute, mbind, lift, try_except.
    rewrite validate_user_id_str by exact Hu.
    unfold publish_task_completed.
    rewrite publish_event_rejected by assumption.
    unfold CompleteTaskTool.complete_directly, mbind, get_db, lift.
    cbn [db]. rewrite Ht, Ho, validate_ownership_same.
    unfold put_db, ret. simpl.
    repeat split; reflexivity.
Qed.

End DualPath.

(** C1, evaluated on the code: [add_task] with a due date publishes two
    events inside one [try]. When the sidecar accepts [task.created] and
    rejects the reminder, the handler still creates the task directly: the
    intent event stays on the bus and the row is in the table, so both
    paths have taken effect in the same call. *)
Theorem add_task_takes_both_paths :
  exists resp t ev,
    AddTaskTool.execute pg_timestamp flaky
      (naive 2026 1 1 9 0 0) (naive 2026 1 1 9 0 0)
      (naive 2026 1 1 9 0 1) (naive 2026 1 1 9 0 1)
      (PStr "user-a") "Pay rent" None "medium"
      (Some "2026-01-31T00:00:00Z") None (Some "monthly") None empty_world
    = (Return resp,
       mkWorld (mkTaskDb {[ 1 := t ]} 2) (mkBus [ev] 2))
    /\ event_type ev = "task.created"
    /\ dict_get "title" (data ev) = Some (PStr "Pay rent")
    /\ title t = "Pay rent" /\ user_id t = "user-a" /\ id t = Some 1
    /\ resp = create_success_response (task_fields t)
                "Task 'Pay rent' created successfully".
Proof.
  eexists. eexists. eexists.
  split; [vm_compute; reflexivity|].
  repeat split; reflexivity.
Qed.

(** C2, evaluated on the code: user-a asks for task 42. When the task
    belongs to user-b the tool raises [NOT_FOUND] with the generic message
    and no details; when there is no task 42 it raises [NOT_FOUND] with the
    message "Task 42 not found" and the id in the details. The code is the
    same, it is never [UNAUTHORIZED], no field of the task is returned, but
    the two answers differ, so a caller can tell a foreign task from a
    missing one. *)
Theorem foreign_task_told_apart_from_missing :
  let foreign := (ViewTaskTool.execute (PStr "user-a") 42 others_world).1 in
  let missing := (ViewTaskTool.execute (PStr "user-a") 42 empty_world).1 in
  foreign = Raise (MCPToolError "NOT_FOUND" "Resource not found" [])
  /\ missing = Raise (MCPToolError "NOT_FOUND" "Task 42 not found"
                        [("task_id", PInt 42)])
  /\ foreign <> missing
  /\ error_response foreign
     = Some (Failure "NOT_FOUND" "Resource not found" [])
  /\ error_response missing
     = Some (Failure "NOT_FOUND" "Task 42 not found" [("task_id", PInt 42)])
  /\ TaskService.get_by_id 42 "user-a" (db others_world)
     = TaskService.get_by_id 42 "user-a" (db empty_world).
Proof.
  cbv zeta.
  split; [vm_compute; reflexivity|].
  split; [vm_compute; reflexivity|].
  split; [vm_compute; discriminate|].
  split; [vm_compute; reflexivity|].
  split; [vm_compute; reflexivity|].
  vm_compute. reflexivity.
Qed.

(** C6, as stated, fails on [TaskService.toggle_complete]: it is a toggle,
    and on the completed task "Pay rent" it sets [completed] back to
    false. *)
Lemma toggle_complete_reopens_completed_task :
  exists t d',
    TaskService.toggle_complete (naive 2026 3 16 8 0 0) 1 "user-a" pay_rent_db
    = (Some t, d')
    /\ completed pay_rent = true
    /\ completed t = false
    /\ rows d' !! 1 = Some t.
Proof.
  eexists. eexists. split; [vm_compute; reflexivity|].
  repeat split; reflexivity.
Qed.

(** C6, amended: completing an already completed task through the direct
    write of the complete tool (the path taken when the publish fails)
    returns success and leaves the task completed; in the table only
    [updated_at] of that row changes, no row is added and nothing is
    published. [TaskService.toggle_complete] is a toggle: on the same task
    it returns the row with [completed] false. *)
Theorem complete_again_changes_only_updated_at
    (br : Broker) (now : datetime) (uid : string) (task_id_ : Z)
    (w : World) (t : Task) :
  PyStr.truthy uid = true ->
  dapr_available br = true -> accepts br (attempts (bus w)) = false ->
  rows (db w) !! task_id_ = Some t -> user_id t = uid ->
  completed t = true ->
  (exists t' w',
     CompleteTaskTool.execute br now (PStr uid) task_id_ w
     = (Return (create_success_response (task_fields t')
                  ("Task '" ++ title t ++ "' marked as completed")), w')
     /\ rows (db w') = <[task_id_ := t']> (rows (db w))
     /\ next_id (db w') = next_id (db w)
     /\ size (rows (db w')) = size (rows (db w))
     /\ published (bus w') = published (bus w)
     /\ completed t' = true
     /\ updated_at t' = now
     /\ t' = mkTask (id t) (user_id t) (title t) (description t)
               (completed t) (created_at t) now (priority t) (due_date t)
               (tags t) (recurrence t) (recurrence_rule t)
               (next_occurrence t))
  /\ (exists t',
        TaskService.toggle_complete now task_id_ uid (db w)
        = (Some t', db_update task_id_ t' (db w))
        /\ completed t' = false).
Proof.
  intros Hu Ha Hc Ht Ho Hdone. split.
  - destruct (proj2 (complete_task_paths br now uid task_id_ w t
                       Hu Ha Ht Ho) Hc) as (w' & E & Hr & Hn & Hp).
    exists (CompleteTaskTool.set_completed t true now), w'.
    split; [exact E|]. split; [exact Hr|]. split; [exact Hn|].
    split.
    { rewrite Hr. apply map_size_insert_Some. rewrite Ht. eauto. }
    split; [exact Hp|]. split; [reflexivity|]. split; [reflexivity|].
    unfold CompleteTaskTool.set_completed. now rewrite Hdone.
  - eexists. unfold TaskService.toggle_complete, TaskService.get_by_id.
    rewrite Ht, Ho, String.eqb_refl. split; [reflexivity|].
    simpl. now rewrite Hdone.
Qed.

Lemma complete_again_changes_only_updated_at_witness :
  exists t' w',
    CompleteTaskTool.execute down (naive 2026 3 16 8 0 0) (PStr "user-a") 1
      pay_rent_world
    = (Return (create_success_response (task_fields t')
                 "Task 'Pay rent' marked as completed"), w')
    /\ completed t' = true
    /\ size (rows (db w')) = 1%nat
    /\ published (bus w') = [].
Proof.
  destruct (complete_again_changes_only_updated_at down
              (naive 2026 3 16 8 0 0) "user-a" 1 pay_rent_world pay_rent
              eq_refl eq_refl eq_refl eq_refl eq_refl eq_refl)
    as [(t' & w' & E & _ & _ & Hs & Hp & Hc & _) _].
  exists t', w'. split; [exact E|]. split; [exact Hc|].
  split; [rewrite Hs; reflexivity|exact Hp].
Defined.

(** C10, evaluated on the code: the delete tool deletes nothing, on
    either path. For every non-empty user id, every task id and every
    world, [execute] fails with [INTERNAL_ERROR], "Failed to delete task",
    carrying the text of the [UnboundLocalError] of line 42, and leaves
    the table and the bus as they were: no row is removed and no event is
    published or attempted. The owner's delete of the stored task "Pay
    rent" leaves that task in the table. *)
Theorem delete_fails_before_the_lookup :
  (forall (select_unbound : string) (c : ascii) (s : string) (task_id_ : Z)
          (w : World),
     DeleteTaskTool.execute select_unbound (PStr (String c s)) task_id_ w
     = (Raise (MCPToolError "INTERNAL_ERROR" "Failed to delete task"
                 [("error", PStr select_unbound)]), w))
  /\ (forall select_unbound,
        let r :=
          DeleteTaskTool.execute select_unbound (PStr "user-a") 1
            pay_rent_world in
        rows (db pay_rent_world) !! 1 = Some pay_rent
        /\ user_id pay_rent = "user-a"
        /\ (exists c m d, r.1 = Raise (MCPToolError c m d))
        /\ rows (db r.2) !! 1 = Some pay_rent
        /\ published (bus r.2) = []
        /\ attempts (bus r.2) = 0%nat).
Proof.
  split.
  - intros select_unbound c s task_id_ w. reflexivity.
  - intros select_unbound. cbv zeta.
    split; [reflexivity|]. split; [reflexivity|].
    split; [eexists; eexists; eexists; reflexivity|].
    repeat split; reflexivity.
Qed.

(** ** Validation on create *)


Section CreateValidation.

Import AddTaskTool.

Lemma in_priorities_spec (p : string) :
  in_priorities p = true <-> p = "high" \/ p = "medium" \/ p = "low".
Proof.
  unfold in_priorities. simpl. rewrite !orb_true_iff, !String.eqb_eq.
  intuition discriminate.
Qed.





End CreateValidation.



(** Length is counted in characters, not bytes: a tag of eleven accented
    letters, twenty-two bytes long, passes the check. *)
Lemma accented_tag_is_accepted :
  PyStr.len eleven_accents = 11
  /\ String.length eleven_accents = 22%nat
  /\ AddTaskTool.validate "Pay rent" "medium" (Some [eleven_accents])
     = Return tt.
Proof. repeat split; reflexivity. Qed.

(** * Further properties *)

(** ** The calculator beyond the scenarios *)

Section CalculatorMore.

Import RecurringTaskService.

Lemma weekday_range (t : datetime) : 0 <= weekday t < 7.
Proof. unfold weekday. apply Z.mod_pos_bound. lia. Qed.

Lemma contains_nonempty (needle hay : string) :
  needle <> "" -> PyStr.contains needle hay = true -> PyStr.truthy hay = true.
Proof.
  intros Hn H. destruct hay; [|reflexivity].
  destruct needle; [congruence|]. simpl in H. discriminate.
Qed.

End CalculatorMore.

(** X1: the custom rule [every_weekday] (any rule text that contains it
    and not [every_2_days]) always lands on a Monday to Friday, one to
    three days after the given timestamp, at the same time of day, and on
    the first such day: every day strictly in between is a Saturday or a
    Sunday. *)
Theorem every_weekday_is_next_working_day
    (fuel : nat) (rule : string) (T : datetime) :
  valid T = true -> (2 <= fuel)%nat ->
  PyStr.contains "every_2_days" rule = false ->
  PyStr.contains "every_weekday" rule = true ->
  toordinal T + 3 <= MAXORDINAL ->
  exists d,
    RecurringTaskService.calculate_next_occurrence
      fuel (Some "custom") (Some rule) T = Return (Some d)
    /\ weekday d < 5
    /\ toordinal T < toordinal d <= toordinal T + 3
    /\ (forall o, toordinal T < o < toordinal d -> 5 <= (o + 6) mod 7)
    /\ same_time d T /\ valid d = true.
Proof.
  intros Hv Hf H2 Hw Hr.
  destruct fuel as [|[|fuel]]; [lia | lia | clear Hf].
  pose proof (toordinal_pos T Hv) as Hpos.
  assert (Htr : PyStr.truthy rule = true).
  { apply (contains_nonempty "every_weekday"); [discriminate|exact Hw]. }
  destruct (add_days_spec T 1 Hv ltac:(lia)) as (t1 & E1 & O1 & V1 & S1).
  destruct (add_days_spec t1 1 V1 ltac:(lia)) as (t2 & E2 & O2 & V2 & S2).
  destruct (add_days_spec t2 1 V2 ltac:(lia)) as (t3 & E3 & O3 & V3 & S3).
  assert (Hcalc :
    RecurringTaskService.calculate_next_occurrence (S (S fuel))
      (Some "custom") (Some rule) T
    = (d <- RecurringTaskService.skip_weekend (S (S fuel)) t1 ;;
       Return (Some d))).
  { unfold RecurringTaskService.calculate_next_occurrence.
    simpl opt_truthy. simpl opt_is. cbv iota beta. simpl negb.
    rewrite Htr. simpl andb. cbv iota. simpl default.
    rewrite H2, Hw. rewrite E1. reflexivity. }
  rewrite Hcalc. clear Hcalc.
  pose proof (weekday_range t1) as R1.
  assert (Hw1 : weekday t1 = (toordinal T + 1 + 6) mod 7)
    by (unfold weekday; now rewrite O1).
  assert (Hw2 : weekday t2 = (toordinal T + 2 + 6) mod 7)
    by (unfold weekday; rewrite O2, O1; f_equal; lia).
  assert (Hw3 : weekday t3 = (toordinal T + 3 + 6) mod 7)
    by (unfold weekday; rewrite O3, O2, O1; f_equal; lia).
  destruct (Z_lt_le_dec (weekday t1) 5) as [C1|C1].
  - exists t1. rewrite skip_weekend_weekday by exact C1. simpl.
    split; [reflexivity|]. split; [exact C1|]. split; [lia|].
    split; [intros o Ho; lia|]. split; assumption.
  - rewrite (skip_weekend_step _ t1 t2 C1 E2).
    destruct (Z_lt_le_dec (weekday t2) 5) as [C2|C2].
    + exists t2. rewrite skip_weekend_weekday by exact C2. simpl.
      split; [reflexivity|]. split; [exact C2|]. split; [lia|].
      split.
      { intros o Ho. assert (o = toordinal T + 1) as -> by lia. lia. }
      split; [|exact V2]. eapply same_time_trans; eassumption.
    + rewrite (skip_weekend_step _ t2 t3 C2 E3).
      assert (C3 : weekday t3 < 5).
      { rewrite Hw3. rewrite Hw1 in C1. rewrite Hw2 in C2.
        revert C1 C2. generalize (toordinal T). intros o.
        Z.to_euclidean_division_equations. lia. }
      exists t3. rewrite skip_weekend_weekday by exact C3. simpl.
      split; [reflexivity|]. split; [exact C3|]. split; [lia|].
      split.
      { intros o Ho.
        assert (o = toordinal T + 1 \/ o = toordinal T + 2) as [->| ->]
          by lia; lia. }
      split; [|exact V3].
      eapply same_time_trans; [exact S3|].
      eapply same_time_trans; eassumption.
Qed.

(** Thursday 2026-01-29 is followed by Friday 2026-01-30. *)
Lemma every_weekday_is_next_working_day_witness :
  exists d,
    RecurringTaskService.calculate_next_occurrence
      2 (Some "custom") (Some "every_weekday") (naive 2026 1 29 9 0 0)
    = Return (Some d)
    /\ weekday d < 5
    /\ toordinal (naive 2026 1 29 9 0 0) < toordinal d
       <= toordinal (naive 2026 1 29 9 0 0) + 3.
Proof.
  destruct (every_weekday_is_next_working_day 2 "every_weekday"
              (naive 2026 1 29 9 0 0) eq_refl (le_n 2) eq_refl eq_refl
              ltac:(vm_compute; discriminate))
    as (d & E & Hw & Ho & _).
  exists d. split; [exact E|]. split; [exact Hw|exact Ho].
Defined.

(** X2: the weekly pattern returns the timestamp seven days later: same
    weekday, same time of day, a valid date. *)
Theorem weekly_keeps_the_weekday
    (fuel : nat) (rule : option string) (T : datetime) :
  valid T = true -> toordinal T + 7 <= MAXORDINAL ->
  exists d,
    RecurringTaskService.calculate_next_occurrence
      fuel (Some "weekly") rule T = Return (Some d)
    /\ toordinal d = toordinal T + 7
    /\ weekday d = weekday T
    /\ same_time d T /\ valid d = true.
Proof.
  intros Hv Hr. pose proof (toordinal_pos T Hv).
  destruct (add_days_spec T 7 Hv ltac:(lia)) as (d & E & O & V & S).
  exists d. split.
  { unfold RecurringTaskService.calculate_next_occurrence. simpl.
    rewrite E. reflexivity. }
  split; [exact O|]. split; [|split; assumption].
  unfold weekday. rewrite O.
  replace (toordinal T + 7 + 6) with (toordinal T + 6 + 1 * 7) by lia.
  apply Z.mod_add. lia.
Qed.

Lemma weekly_keeps_the_weekday_witness :
  exists d,
    RecurringTaskService.calculate_next_occurrence
      0 (Some "weekly") None (naive 2026 1 30 9 0 0) = Return (Some d)
    /\ weekday d = 4.
Proof.
  destruct (weekly_keeps_the_weekday 0 None (naive 2026 1 30 9 0 0)
              eq_refl ltac:(vm_compute; discriminate))
    as (d & E & _ & Hw & _).
  exists d. split; [exact E|]. rewrite Hw. reflexivity.
Defined.

(** X3: the monthly pattern always yields a real calendar date: the next
    month (January of the next year after December), the same day of the
    month or an earlier one, unchanged when the day is at most 28, at the
    same time of day. Only December 9999 has no next month: there the
    calculator raises [ValueError]. *)
Theorem monthly_yields_a_valid_date
    (fuel : nat) (rule : option string) (T : datetime) :
  valid T = true ->
  (year T < 9999 \/ month T < 12 ->
   exists d,
     RecurringTaskService.calculate_next_occurrence
       fuel (Some "monthly") rule T = Return (Some d)
     /\ valid d = true
     /\ 1 <= day d <= day T
     /\ (day T <= 28 -> day d = day T)
     /\ year d * 12 + month d = year T * 12 + month T + 1
     /\ same_time d T)
  /\ (year T = 9999 -> month T = 12 ->
      RecurringTaskService.calculate_next_occurrence
        fuel (Some "monthly") rule T = Raise ValueError).
Proof.
  intros Hv. split.
  - intros Hr. eexists. split; [now apply monthly_next|].
    pose proof Hv as Hv'. unfold valid in Hv'.
    apply andb_prop in Hv' as [Hd Ht].
    apply check_date_fields_inv in Hd as (Hy & Hm & Hd).
    set (ny := if month T =? 12 then year T + 1 else year T).
    set (nm := if month T =? 12 then 1 else month T + 1).
    assert (Hnm : 1 <= nm <= 12 /\ 1 <= ny <= 9999
                  /\ ny * 12 + nm = year T * 12 + month T + 1).
    { subst ny nm. destruct (Z.eqb_spec (month T) 12); lia. }
    assert (Hdim : 28 <= days_in_month ny nm).
    { unfold days_in_month.
      destruct (month_cases nm (proj1 Hnm)) as
        [->|[->|[->|[->|[->|[->|[->|[->|[->|[->|[->| ->]]]]]]]]]]];
        destruct (is_leap ny); vm_compute; discriminate. }
    destruct (with_date_time T
                (ny, nm, Z.min (day T) (days_in_month ny nm))) as [Hst Hct].
    split.
    { unfold valid. rewrite Hct, Ht. simpl.
      rewrite andb_true_r. unfold check_date_fields, MINYEAR, MAXYEAR.
      repeat (apply andb_true_intro; split); lia. }
    simpl. split; [lia|]. split; [lia|]. split; [lia|exact Hst].
  - intros Hy Hm.
    unfold RecurringTaskService.calculate_next_occurrence. simpl.
    rewrite Hm, Hy. reflexivity.
Qed.

Lemma monthly_yields_a_valid_date_witness :
  exists d,
    RecurringTaskService.calculate_next_occurrence
      0 (Some "monthly") None (naive 2024 1 31 9 0 0) = Return (Some d)
    /\ valid d = true /\ 1 <= day d <= 31.
Proof.
  destruct (proj1 (monthly_yields_a_valid_date 0 None
                     (naive 2024 1 31 9 0 0) eq_refl)
              ltac:(left; simpl; lia))
    as (d & E & V & Hd & _).
  exists d. split; [exact E|]. split; [exact V|exact Hd].
Defined.

(** X4: recurrence is best effort. For an empty or unknown pattern, and
    for the custom pattern with no rule or with a rule that contains
    neither [every_2_days] nor [every_weekday] (such as [every_3_days]),
    the calculator returns [None] without raising, and
    [create_next_occurrence] creates nothing: it returns [None] and the
    table is unchanged. *)
Theorem unsupported_recurrence_projects_nothing
    (fuel : nat) (now now_c now_u : datetime) (src : Task) (d : TaskDb) :
  recurrence src <> Some "daily" ->
  recurrence src <> Some "weekly" ->
  recurrence src <> Some "monthly" ->
  (recurrence src = Some "custom" ->
   match recurrence_rule src with
   | Some r => PyStr.contains "every_2_days" r = false
               /\ PyStr.contains "every_weekday" r = false
   | None => True
   end) ->
  RecurringTaskService.calculate_next_occurrence fuel (recurrence src)
    (recurrence_rule src) now = Return None
  /\ RecurringTaskService.create_next_occurrence fuel now now_c now_u src d
     = (Return None, d).
Proof.
  intros Hd Hw Hm Hc.
  assert (Hcalc :
    RecurringTaskService.calculate_next_occurrence fuel (recurrence src)
      (recurrence_rule src) now = Return None).
  { unfold RecurringTaskService.calculate_next_occurrence.
    destruct (recurrence src) as [r|]; [|reflexivity].
    destruct (negb (opt_truthy (Some r))); [reflexivity|].
    simpl opt_is.
    destruct (String.eqb_spec r "daily") as [->|_]; [congruence|].
    destruct (String.eqb_spec r "weekly") as [->|_]; [congruence|].
    destruct (String.eqb_spec r "monthly") as [->|_]; [congruence|].
    destruct (String.eqb_spec r "custom") as [->|_]; [|reflexivity].
    specialize (Hc eq_refl).
    destruct (recurrence_rule src) as [rule|]; [|reflexivity].
    destruct Hc as [H2 Hwd]. simpl default. rewrite H2, Hwd.
    destruct (opt_truthy (Some rule)); reflexivity. }
  split; [exact Hcalc|].
  unfold RecurringTaskService.create_next_occurrence. rewrite Hcalc.
  destruct (negb (opt_truthy (recurrence src))); reflexivity.
Qed.

Lemma unsupported_recurrence_projects_nothing_witness :
  let src :=
    mkTask (Some 1) "user-a" "Water plants" None true
           (naive 2026 1 1 8 0 0) (naive 2026 1 1 8 0 0) "low" None None
           (Some "custom") (Some "every_3_days") None in
  RecurringTaskService.create_next_occurrence 2
    (naive 2026 1 31 0 0 0) (naive 2026 1 31 0 0 0) (naive 2026 1 31 0 0 0)
    src empty_db
  = (Return None, empty_db).
Proof.
  cbv zeta.
  apply unsupported_recurrence_projects_nothing;
    simpl; try discriminate.
  intros _. split; reflexivity.
Defined.

(** ** The completed-event handler *)

Section CompletedEventFacts.

Import RecurringTaskService.

Lemma create_next_occurrence_result
    (fuel : nat) (now now_c now_u : datetime) (src : Task) (d : TaskDb) :
  match (create_next_occurrence fuel now now_c now_u src d).1 with
  | Return (Some t) =>
      exists occ,
        t = projected src (next_id d) occ now_c now_u
        /\ (create_next_occurrence fuel now now_c now_u src d).2
           = mkTaskDb (<[next_id d := t]> (rows d)) (next_id d + 1)
  | _ => (create_next_occurrence fuel now now_c now_u src d).2 = d
  end.
Proof.
  unfold create_next_occurrence.
  destruct (negb (opt_truthy (recurrence src))); [reflexivity|].
  destruct (calculate_next_occurrence _ _ _ _) as [[occ|]|e|];
    try reflexivity.
  simpl. exists occ. split; reflexivity.
Qed.

End CompletedEventFacts.

(** X5: [process_task_completed_event] answers [True] exactly when it has
    inserted one projected task, a copy of a recurring task that the
    event's user owns, not completed and with a due date; whenever it
    answers [False] (no id, id 0, no user, a missing or foreign task, no
    recurrence, an unsupported rule, or an error of the calculation) the
    table and the bus are as before. *)
Theorem completed_event_true_iff_projected
    (br : Broker) (fuel : nat) (now now_c now_u : datetime)
    (task_id_ : option Z) (user_id_ : option string) (w : World) :
  db_wf (db w) ->
  let r :=
    CompletedEvents.process_task_completed_event br fuel now now_c now_u
      task_id_ user_id_ w in
  (r.1 = Return true ->
   exists k u src t,
     task_id_ = Some k /\ user_id_ = Some u
     /\ rows (db w) !! k = Some src /\ user_id src = u
     /\ opt_truthy (recurrence src) = true
     /\ rows (db w) !! next_id (db w) = None
     /\ rows (db r.2) = <[next_id (db w) := t]> (rows (db w))
     /\ user_id t = u /\ title t = title src
     /\ completed t = false /\ due_date t <> None
     /\ recurrence t = recurrence src)
  /\ (r.1 = Return false -> r.2 = w).
Proof.
  intros Hwf. cbv zeta.
  unfold CompletedEvents.process_task_completed_event.
  destruct task_id_ as [k|]; [|split; [discriminate|reflexivity]].
  destruct (Z.eq_dec k 0) as [->|Hk];
    [split; [discriminate|reflexivity]|].
  assert (Hmatch : forall (A : Type) (a b : A),
            match k with 0 => a | _ => b end = b).
  { intros A a b. destruct k; [contradiction|reflexivity|reflexivity]. }
  rewrite Hmatch.
  destruct user_id_ as [u|]; [|split; [discriminate|reflexivity]].
  unfold TaskService.get_by_id.
  destruct (rows (db w) !! k) as [src|] eqn:Hsrc;
    [|split; [discriminate|reflexivity]].
  destruct (String.eqb_spec (user_id src) u) as [Hu|Hu];
    [|split; [discriminate|reflexivity]].
  destruct (opt_truthy (recurrence src)) eqn:Hrec;
    [|split; [discriminate|reflexivity]].
  pose proof (create_next_occurrence_result fuel now now_c now_u src (db w))
    as Hres.
  destruct (RecurringTaskService.create_next_occurrence fuel now now_c now_u
              src (db w)) as [[[t|]|e|] d'] eqn:Hcreate; simpl in Hres.
  - destruct Hres as (occ & -> & ->). split; [|discriminate].
    intros _. exists k, u, src, (projected src (next_id (db w)) occ now_c now_u).
    simpl. repeat split; try assumption; try reflexivity.
    + now apply (db_insert_fresh src).
    + discriminate.
  - subst d'. split; [discriminate|]. intros _. destruct w; reflexivity.
  - subst d'. split; [discriminate|]. intros _. destruct w; reflexivity.
  - split; discriminate.
Qed.

Lemma completed_event_true_iff_projected_witness :
  exists t,
    (CompletedEvents.process_task_completed_event up 2
       (naive 2026 1 31 0 0 0) (naive 2026 1 31 0 0 0)
       (naive 2026 1 31 0 0 0) (Some 1) (Some "user-a") pay_rent_world).1
    = Return true
    /\ rows (db (CompletedEvents.process_task_completed_event up 2
                   (naive 2026 1 31 0 0 0) (naive 2026 1 31 0 0 0)
                   (naive 2026 1 31 0 0 0) (Some 1) (Some "user-a")
                   pay_rent_world).2) !! 2 = Some t
    /\ title t = "Pay rent"
    /\ (CompletedEvents.process_task_completed_event up 2
          (naive 2026 1 31 0 0 0) (naive 2026 1 31 0 0 0)
          (naive 2026 1 31 0 0 0) (Some 1) (Some "user-b") pay_rent_world)
       = (Return false, pay_rent_world).
Proof.
  assert (Hwf : db_wf (db pay_rent_world)).
  { change (map_Forall (fun k t => k < 2 /\ id t = Some k)
              (rows pay_rent_db)).
    apply (bool_decide_unpack _). vm_compute. exact I. }
  destruct (proj1 (completed_event_true_iff_projected up 2
              (naive 2026 1 31 0 0 0) (naive 2026 1 31 0 0 0)
              (naive 2026 1 31 0 0 0) (Some 1) (Some "user-a")
              pay_rent_world Hwf) eq_refl)
    as (k & u & src & t & Hk & _ & Hsrc & _ & _ & _ & Hrows & _ & Ht & _).
  exists t. split; [reflexivity|]. split.
  { rewrite Hrows. apply lookup_insert_eq. }
  split.
  { rewrite Ht. injection Hk as <-. 
    assert (src = pay_rent) as ->; [|reflexivity].
    assert (rows (db pay_rent_world) !! 1 = Some pay_rent) by reflexivity.
    congruence. }
  reflexivity.
Defined.

(** ** What every tool call respects *)

Section ToolSteps.

Import BaseMCPTool DaprEventPublisher.

Lemma db_ok_refl (uid : string) (d : TaskDb) : db_ok uid d d.
Proof. unfold db_ok. split; [|split]; [auto|auto|lia]. Qed.

Lemma db_ok_trans (uid : string) (a b c : TaskDb) :
  db_ok uid a b -> db_ok uid b c -> db_ok uid a c.
Proof.
  intros (H1 & W1 & N1) (H2 & W2 & N2). split; [|split]; [|auto|lia].
  intros k t Hk Hu. apply H2; auto.
Qed.

Lemma bus_ok_refl (b : Bus) : bus_ok b b.
Proof.
  split; [|lia]. exists []. rewrite app_nil_r. split; [reflexivity|simpl; lia].
Qed.

Lemma bus_ok_rejected (b : Bus) :
  bus_ok b (mkBus (published b) (S (attempts b))).
Proof.
  split; [|simpl; lia]. exists []. rewrite app_nil_r.
  split; [reflexivity|simpl; lia].
Qed.

Lemma bus_ok_accepted (b : Bus) (ev : Event) :
  bus_ok b (mkBus (published b ++ [ev]) (S (attempts b))).
Proof.
  split; [|simpl; lia]. exists [ev]. split; [reflexivity|simpl; lia].
Qed.

Lemma bus_ok_trans (a b c : Bus) : bus_ok a b -> bus_ok b c -> bus_ok a c.
Proof.
  intros [(m1 & E1 & L1) A1] [(m2 & E2 & L2) A2]. split; [|lia].
  exists (m1 ++ m2)%list. rewrite E2, E1, <- app_assoc.
  split; [reflexivity|]. rewrite length_app. lia.
Qed.

Lemma step_ok_trans (uid : string) (a b c : World) :
  step_ok uid a b -> step_ok uid b c -> step_ok uid a c.
Proof.
  intros [D1 B1] [D2 B2]. split;
    [eapply db_ok_trans | eapply bus_ok_trans]; eassumption.
Qed.

(** Writing back a row of the caller, under its key and with its id. *)
Lemma db_ok_update (uid : string) (d : TaskDb) (k : Z) (t t' : Task) :
  rows d !! k = Some t -> user_id t = uid -> id t' = id t ->
  db_ok uid d (db_update k t' d).
Proof.
  intros Hk Hu Hid. split; [|split]; simpl; [| |lia].
  - intros k' t0 Hk' Hne. rewrite lookup_insert_ne; [exact Hk'|].
    intros ->. congruence.
  - intros Hwf k' t0. simpl. destruct (decide (k = k')) as [<-|Hne].
    + rewrite lookup_insert_eq. intros [= <-].
      destruct (Hwf k t Hk) as [? ?]. split; [assumption|congruence].
    + rewrite lookup_insert_ne by exact Hne. apply Hwf.
Qed.

Lemma db_ok_delete (uid : string) (d : TaskDb) (k : Z) (t : Task) :
  rows d !! k = Some t -> user_id t = uid -> db_ok uid d (db_delete k d).
Proof.
  intros Hk Hu. split; [|split]; simpl; [| |lia].
  - intros k' t0 Hk' Hne. rewrite lookup_delete_ne; [exact Hk'|].
    intros ->. congruence.
  - intros Hwf k' t0 H. simpl in H. apply lookup_delete_Some in H as [_ H].
    now apply Hwf.
Qed.

Lemma db_ok_insert (uid : string) (d : TaskDb) (t : Task) :
  db_wf d -> db_ok uid d (db_insert t d).2.
Proof.
  intros Hwf. split; [|split]; simpl; [| |lia].
  - intros k t0 Hk Hne. rewrite lookup_insert_ne; [exact Hk|].
    intros <-. apply Hwf in Hk as [? _]. lia.
  - intros _. now apply db_insert_wf.
Qed.

Lemma validate_ownership_ok (owner uid : string) :
  validate_ownership owner uid = Return tt -> owner = uid.
Proof.
  unfold validate_ownership.
  destruct (String.eqb_spec owner uid); [auto|discriminate].
Qed.

Lemma validate_user_id_ok (v : pyval) (uid : string) :
  validate_user_id v = Return uid -> v = PStr uid /\ PyStr.truthy uid = true.
Proof.
  destruct v; simpl; try discriminate.
  destruct (PyStr.truthy s) eqn:E; [|discriminate].
  intros [= <-]. auto.
Qed.

(** One publish: an event more, or an attempt more, or nothing. *)
Lemma publish_event_step br tp ty dat (w : World) (r : pyresult unit)
    (w' : World) :
  publish_event br tp ty dat w = (r, w') ->
  db w' = db w /\ bus_ok (bus w) (bus w')
  /\ (r = Return tt \/ r = Raise PublishError).
Proof.
  unfold publish_event.
  destruct (dapr_available br); simpl.
  - destruct (accepts br (attempts (bus w))); intros [= <- <-]; simpl.
    + split; [reflexivity|]. split; [apply bus_ok_accepted|auto].
    + split; [reflexivity|]. split; [apply bus_ok_rejected|auto].
  - intros [= <- <-]. split; [reflexivity|]. split; [apply bus_ok_refl|auto].
Qed.

End ToolSteps.

Section ToolRuns.

Import BaseMCPTool DaprEventPublisher.

Lemma complete_directly_step (now : datetime) (uid : string) (k : Z)
    (w : World) (r : pyresult response) (w' : World) :
  CompleteTaskTool.complete_directly now uid k w = (r, w') ->
  db_ok uid (db w) (db w') /\ bus w' = bus w.
Proof.
  unfold CompleteTaskTool.complete_directly, mbind, get_db, lift, raise,
         put_db, ret.
  destruct (rows (db w) !! k) as [t|] eqn:Ht.
  - destruct (validate_ownership (user_id t) uid) as [[]|e|] eqn:Ho;
      intros [= <- <-]; try (split; [apply db_ok_refl|reflexivity]).
    simpl. split; [|reflexivity].
    apply (db_ok_update uid _ k t);
      [exact Ht|now apply validate_ownership_ok|reflexivity].
  - intros [= <- <-]. split; [apply db_ok_refl|reflexivity].
Qed.

Lemma update_directly_step ts (now : datetime) (uid : string) (k : Z)
    ti de pr du ta re ru (w : World) (r : pyresult response) (w' : World) :
  UpdateTaskTool.update_directly ts now uid k ti de pr du ta re ru w
  = (r, w') ->
  db_ok uid (db w) (db w') /\ bus w' = bus w.
Proof.
  unfold UpdateTaskTool.update_directly, mbind, get_db, lift, raise,
         put_db, ret.
  destruct (rows (db w) !! k) as [t|] eqn:Ht.
  - destruct (validate_ownership (user_id t) uid) as [[]|e|] eqn:Ho;
      try (intros [= <- <-]; split; [apply db_ok_refl|reflexivity]).
    destruct du as [s|].
    + destruct (ts s) as [dt|];
        intros [= <- <-]; try (split; [apply db_ok_refl|reflexivity]).
      simpl. split; [|reflexivity].
      apply (db_ok_update uid _ k t);
        [exact Ht|now apply validate_ownership_ok|reflexivity].
    + intros [= <- <-]. simpl. split; [|reflexivity].
      apply (db_ok_update uid _ k t);
        [exact Ht|now apply validate_ownership_ok|reflexivity].
  - intros [= <- <-]. split; [apply db_ok_refl|reflexivity].
Qed.

Lemma create_directly_step ts (now_c now_u : datetime) (uid ti : string)
    de pr du ta re ru (w : World) (r : pyresult response) (w' : World) :
  db_wf (db w) ->
  AddTaskTool.create_directly ts now_c now_u uid ti de pr du ta re ru w
  = (r, w') ->
  db_ok uid (db w) (db w') /\ bus w' = bus w.
Proof.
  intros Hwf.
  unfold AddTaskTool.create_directly, mbind, get_db, lift, raise,
         put_db, ret.
  destruct du as [s|].
  - destruct (ts s) as [dt|]; intros [= <- <-];
      try (split; [apply db_ok_refl|reflexivity]).
    simpl. split; [|reflexivity].
    match goal with |- db_ok _ _ (mkTaskDb (<[_ := with_id ?t _]> _) _) =>
      apply (db_ok_insert uid (db w) t Hwf) end.
  - intros [= <- <-]. simpl. split; [|reflexivity].
    match goal with |- db_ok _ _ (mkTaskDb (<[_ := with_id ?t _]> _) _) =>
      apply (db_ok_insert uid (db w) t Hwf) end.
Qed.

End ToolRuns.

Section RunStep.

Import BaseMCPTool DaprEventPublisher.

Lemma add_step ts br n1 n2 nc nu (u ti : string) de pr du ta re ru
    (w : World) (r : pyresult response) (w' : World) :
  db_wf (db w) ->
  AddTaskTool.execute ts br n1 n2 nc nu (PStr u) ti de pr du ta re ru w
  = (r, w') ->
  db_ok u (db w) (db w') /\ bus_ok (bus w) (bus w').
Proof.
  intros Hwf.
  unfold AddTaskTool.execute, mbind at 1, lift at 1.
  destruct (validate_user_id (PStr u)) as [uid|e|] eqn:Hu;
    try (intros [= <- <-]; split; [apply db_ok_refl|apply bus_ok_refl]).
  apply validate_user_id_ok in Hu as [[= <-] _].
  unfold mbind at 1, lift at 1.
  destruct (AddTaskTool.validate ti pr ta) as [[]|e|];
    try (intros [= <- <-]; split; [apply db_ok_refl|apply bus_ok_refl]).
  unfold try_except, mbind, publish_task_created,
         publish_reminder_scheduled, ret.
  match goal with |- context [publish_event ?b ?tp ?ty ?dat w] =>
    destruct (publish_event b tp ty dat w) as [r1 w1] eqn:H1 end.
  apply publish_event_step in H1 as (Hd1 & Hb1 & [-> | ->]).
  - destruct (opt_truthy du).
    + match goal with |- context [publish_event ?b ?tp ?ty ?dat w1] =>
        destruct (publish_event b tp ty dat w1) as [r2 w2] eqn:H2 end.
      apply publish_event_step in H2 as (Hd2 & Hb2 & [-> | ->]).
      * intros [= <- <-]. split.
        { rewrite Hd2, Hd1. apply db_ok_refl. }
        eapply bus_ok_trans; eassumption.
      * intros Hc. apply create_directly_step in Hc as [Hdb Hbus];
          [|rewrite Hd2, Hd1; exact Hwf].
        rewrite Hd2, Hd1 in Hdb. split; [exact Hdb|].
        rewrite Hbus. eapply bus_ok_trans; eassumption.
    + intros [= <- <-]. split; [rewrite Hd1; apply db_ok_refl|exact Hb1].
  - intros Hc. apply create_directly_step in Hc as [Hdb Hbus];
      [|rewrite Hd1; exact Hwf].
    rewrite Hd1 in Hdb. split; [exact Hdb|]. rewrite Hbus. exact Hb1.
Qed.

Lemma complete_step br now (u : string) (k : Z)
    (w : World) (r : pyresult response) (w' : World) :
  CompleteTaskTool.execute br now (PStr u) k w = (r, w') ->
  db_ok u (db w) (db w') /\ bus_ok (bus w) (bus w').
Proof.
  unfold CompleteTaskTool.execute, mbind at 1, lift at 1.
  destruct (validate_user_id (PStr u)) as [uid|e|] eqn:Hu;
    try (intros [= <- <-]; split; [apply db_ok_refl|apply bus_ok_refl]).
  apply validate_user_id_ok in Hu as [[= <-] _].
  unfold try_except, mbind, publish_task_completed, ret.
  match goal with |- context [publish_event ?b ?tp ?ty ?dat w] =>
    destruct (publish_event b tp ty dat w) as [r1 w1] eqn:H1 end.
  apply publish_event_step in H1 as (Hd1 & Hb1 & [-> | ->]).
  - intros [= <- <-]. split; [rewrite Hd1; apply db_ok_refl|exact Hb1].
  - intros Hc. apply complete_directly_step in Hc as [Hdb Hbus].
    rewrite Hd1 in Hdb. split; [exact Hdb|]. rewrite Hbus. exact Hb1.
Qed.

Lemma update_step ts br now (u : string) (k : Z) ti de pr du ta re ru
    (w : World) (r : pyresult response) (w' : World) :
  UpdateTaskTool.execute ts br now (PStr u) k ti de pr du ta re ru w
  = (r, w') ->
  db_ok u (db w) (db w') /\ bus_ok (bus w) (bus w').
Proof.
  unfold UpdateTaskTool.execute, mbind at 1, lift at 1.
  destruct (validate_user_id (PStr u)) as [uid|e|] eqn:Hu;
    try (intros [= <- <-]; split; [apply db_ok_refl|apply bus_ok_refl]).
  apply validate_user_id_ok in Hu as [[= <-] _].
  unfold mbind at 1, lift at 1.
  destruct (UpdateTaskTool.validate k ti de pr du ta re ru) as [[]|e|];
    try (intros [= <- <-]; split; [apply db_ok_refl|apply bus_ok_refl]).
  unfold try_except, mbind, publish_task_updated, ret.
  match goal with |- context [publish_event ?b ?tp ?ty ?dat w] =>
    destruct (publish_event b tp ty dat w) as [r1 w1] eqn:H1 end.
  apply publish_event_step in H1 as (Hd1 & Hb1 & [-> | ->]).
  - intros [= <- <-]. split; [rewrite Hd1; apply db_ok_refl|exact Hb1].
  - intros Hc. apply update_directly_step in Hc as [Hdb Hbus].
    rewrite Hd1 in Hdb. split; [exact Hdb|]. rewrite Hbus. exact Hb1.
Qed.

Lemma view_step (v : pyval) (k : Z) (w : World) :
  (ViewTaskTool.execute v k w).2 = w.
Proof.
  unfold ViewTaskTool.execute, mbind at 1, lift at 1.
  destruct (validate_user_id v) as [uid|e|]; try reflexivity.
  unfold reraise_or_internal, try_except, mbind, get_db, lift, raise, ret.
  destruct (rows (db w) !! k) as [t|]; [|reflexivity].
  destruct (validate_ownership (user_id t) uid) as [[]|e|] eqn:Ho;
    try reflexivity.
  unfold validate_ownership in Ho.
  destruct (negb _); [injection Ho as <-; reflexivity|discriminate].
Qed.

(** The delete tool leaves the world as it found it, whoever calls. *)
Lemma delete_step txt (v : pyval) (k : Z) (w : World) :
  exists c m d,
    DeleteTaskTool.execute txt v k w = (Raise (MCPToolError c m d), w)
    /\ (c = "UNAUTHORIZED" \/ c = "INTERNAL_ERROR").
Proof.
  unfold DeleteTaskTool.execute, mbind at 1, lift at 1.
  destruct (validate_user_id v) as [uid|e|] eqn:Hu.
  - unfold reraise_or_internal, try_except, raise. eauto 7.
  - unfold validate_user_id in Hu.
    destruct v; try (injection Hu as <-; eauto 7).
    destruct (PyStr.truthy s); [discriminate|]. injection Hu as <-.
    eauto 7.
  - unfold validate_user_id in Hu.
    destruct v; try discriminate. destruct (PyStr.truthy s); discriminate.
Qed.

(** Every call changes the caller's rows only, and the bus only grows. *)
Lemma run_step (e : Env) (u : string) (c : call)
    (w : World) (r : pyresult response) (w' : World) :
  db_wf (db w) ->
  run e (PStr u) c w = (r, w') ->
  db_ok u (db w) (db w') /\ bus_ok (bus w) (bus w').
Proof.
  intros Hwf. destruct c; simpl.
  - intros H. apply add_step in H; [exact H|exact Hwf].
  - apply complete_step.
  - apply update_step.
  - intros H.
    destruct (delete_step (env_select_unbound e) (PStr u) task_id_ w)
      as (c0 & m & d & Hd & _).
    rewrite Hd in H. injection H as _ <-.
    split; [apply db_ok_refl|apply bus_ok_refl].
  - intros H. pose proof (view_step (PStr u) task_id_ w) as Hv.
    rewrite H in Hv. simpl in Hv. subst w'.
    split; [apply db_ok_refl|apply bus_ok_refl].
Qed.

End RunStep.

(** X6: tenant isolation over a whole session. Whatever sequence of
    add, complete, update, delete and view calls other users make, and
    whichever publishes fail, every task of [owner] stays in the table
    exactly as it was. *)
Theorem other_users_calls_keep_my_tasks
    (e : Env) (owner : string) (calls : list (string * call)) (w : World) :
  db_wf (db w) ->
  Forall (fun uc => uc.1 <> owner) calls ->
  protects owner (db w) (db (run_all e calls w)).
Proof.
  intros Hwf Hcalls.
  enough (H : protects owner (db w) (db (run_all e calls w))
              /\ db_wf (db (run_all e calls w))) by apply H.
  revert w Hwf. induction Hcalls as [|[u c] calls Hu _ IH]; intros w Hwf.
  - simpl. split; [intros k t Hk _; exact Hk|exact Hwf].
  - simpl. destruct (run e (PStr u) c w) as [r w1] eqn:Hrun. simpl.
    destruct (run_step e u c w r w1 Hwf Hrun) as ((Hkeep & Hwf1 & _) & _).
    destruct (IH w1 (Hwf1 Hwf)) as [Hp1 Hwf2].
    split; [|exact Hwf2].
    intros k t Hk Ho. apply Hp1; [|exact Ho].
    apply Hkeep; [exact Hk|]. simpl in Hu. congruence.
Qed.

Lemma other_users_calls_keep_my_tasks_witness :
  rows (db (run_all quiet_down
              [ ("user-a", DeleteTask 42);
                ("user-a", CompleteTask (naive 2026 2 1 9 0 0) 42);
                ("user-a", UpdateTask (naive 2026 2 1 9 0 1) 42
                             (Some "Mine now") None None None None None None);
                ("user-a", AddTask (naive 2026 2 1 9 0 2)
                             (naive 2026 2 1 9 0 2) (naive 2026 2 1 9 0 3)
                             (naive 2026 2 1 9 0 3) "Pay rent" None "medium"
                             None None None None) ]
              others_world)) !! 42
  = Some others_task.
Proof.
  apply (other_users_calls_keep_my_tasks quiet_down "user-b").
  - change (map_Forall (fun k t => k < 43 /\ id t = Some k)
              (rows (db others_world))).
    apply (bool_decide_unpack _). vm_compute. exact I.
  - repeat constructor; simpl; discriminate.
  - reflexivity.
  - reflexivity.
Defined.

(** X7: the key discipline is an invariant of the tools: after any
    session every stored task sits under the key that is its [id], below
    the sequence, so an insertion never overwrites a row. *)
Theorem sessions_keep_the_key_discipline
    (e : Env) (calls : list (string * call)) (w : World) :
  db_wf (db w) ->
  db_wf (db (run_all e calls w))
  /\ rows (db (run_all e calls w)) !! next_id (db (run_all e calls w)) = None.
Proof.
  intros Hwf.
  enough (H : db_wf (db (run_all e calls w))).
  { split; [exact H|]. now apply (db_insert_fresh pay_rent). }
  revert w Hwf. induction calls as [|[u c] calls IH]; intros w Hwf.
  - exact Hwf.
  - simpl. destruct (run e (PStr u) c w) as [r w1] eqn:Hrun. simpl.
    destruct (run_step e u c w r w1 Hwf Hrun) as ((_ & Hwf1 & _) & _).
    apply IH. apply Hwf1. exact Hwf.
Qed.

Lemma sessions_keep_the_key_discipline_witness :
  db_wf (db (run_all quiet_down
               [ ("user-a", AddTask (naive 2026 2 1 9 0 2)
                              (naive 2026 2 1 9 0 2) (naive 2026 2 1 9 0 3)
                              (naive 2026 2 1 9 0 3) "Pay rent" None "medium"
                              None None None None);
                 ("user-a", DeleteTask 1) ]
               empty_world)).
Proof.
  apply (sessions_keep_the_key_discipline quiet_down).
  intros k t H. simpl in H. rewrite lookup_empty in H. discriminate.
Defined.

(** X8: the bus is append-only for the tools: after any session the
    events published before are still there, in order, followed by the
    new ones, and there are at most as many new events as publish
    attempts were made. *)
Theorem sessions_only_append_to_the_bus
    (e : Env) (calls : list (string * call)) (w : World) :
  db_wf (db w) ->
  exists more,
    published (bus (run_all e calls w)) = (published (bus w) ++ more)%list
    /\ (length more
        <= attempts (bus (run_all e calls w)) - attempts (bus w))%nat
    /\ (attempts (bus w) <= attempts (bus (run_all e calls w)))%nat.
Proof.
  intros Hwf.
  enough (H : bus_ok (bus w) (bus (run_all e calls w))
              /\ db_wf (db (run_all e calls w))).
  { destruct H as [[(more & E & L) A] _]. exists more. auto. }
  revert w Hwf. induction calls as [|[u c] calls IH]; intros w Hwf.
  - split; [apply bus_ok_refl|exact Hwf].
  - simpl. destruct (run e (PStr u) c w) as [r w1] eqn:Hrun. simpl.
    destruct (run_step e u c w r w1 Hwf Hrun) as ((_ & Hwf1 & _) & Hb).
    destruct (IH w1 (Hwf1 Hwf)) as [Hb1 Hwf2].
    split; [eapply bus_ok_trans; eassumption|exact Hwf2].
Qed.

Lemma sessions_only_append_to_the_bus_witness :
  exists more,
    published (bus (run_all quiet_up
                      [ ("user-a", CompleteTask (naive 2026 2 1 9 0 0) 1);
                        ("user-a", DeleteTask 1) ]
                      pay_rent_world))
    = (published (bus pay_rent_world) ++ more)%list
    /\ (length more <= 1)%nat.
Proof.
  destruct (sessions_only_append_to_the_bus quiet_up
              [ ("user-a", CompleteTask (naive 2026 2 1 9 0 0) 1);
                ("user-a", DeleteTask 1) ]
              pay_rent_world)
    as (more & E & L & _).
  - change (map_Forall (fun k t => k < 2 /\ id t = Some k)
              (rows pay_rent_db)).
    apply (bool_decide_unpack _). vm_compute. exact I.
  - exists more. split; [exact E|]. exact L.
Defined.

(** ** Single calls *)

Section SingleCalls.

Import BaseMCPTool DaprEventPublisher.

Lemma validate_user_id_invalid (v : pyval) :
  (forall s, v = PStr s -> s = "") ->
  validate_user_id v
  = Raise (MCPToolError "UNAUTHORIZED" "Invalid or missing user_id"
             [("field", PStr "user_id")]).
Proof.
  intros H. destruct v; try reflexivity.
  rewrite (H s eq_refl). reflexivity.
Qed.

End SingleCalls.

(** X9: a call whose user id is missing, empty or not a string is refused
    by every tool with [UNAUTHORIZED] naming the field [user_id], before
    anything is read, published or written: the world is unchanged. *)
Theorem invalid_user_id_is_refused_first
    (e : Env) (v : pyval) (c : call) (w : World) :
  (forall s, v = PStr s -> s = "") ->
  run e v c w
  = (Raise (MCPToolError "UNAUTHORIZED" "Invalid or missing user_id"
              [("field", PStr "user_id")]), w).
Proof.
  intros H. pose proof (validate_user_id_invalid v H) as Hv.
  destruct c; simpl;
    [ unfold AddTaskTool.execute | unfold CompleteTaskTool.execute
    | unfold UpdateTaskTool.execute | unfold DeleteTaskTool.execute
    | unfold ViewTaskTool.execute ];
    unfold mbind at 1, lift at 1; rewrite Hv; reflexivity.
Qed.

Lemma invalid_user_id_is_refused_first_witness :
  run quiet_up PNone (DeleteTask 1) pay_rent_world
  = (Raise (MCPToolError "UNAUTHORIZED" "Invalid or missing user_id"
              [("field", PStr "user_id")]), pay_rent_world)
  /\ run quiet_up (PStr "") (CompleteTask (naive 2026 2 1 9 0 0) 1)
       pay_rent_world
     = (Raise (MCPToolError "UNAUTHORIZED" "Invalid or missing user_id"
                 [("field", PStr "user_id")]), pay_rent_world).
Proof.
  split; apply invalid_user_id_is_refused_first.
  - intros s H. discriminate.
  - intros s [= <-]. reflexivity.
Defined.

(** X10: on the bus path the complete and the update tool never read the
    table. When the publish is accepted (or skipped without the client
    library) the call is answered with the provisional success and the
    table is left as it is, whether or not the task exists or belongs to
    the caller. *)
Theorem bus_path_does_not_read_the_table
    (br : Broker) (ts : string -> option datetime) (now : datetime)
    (uid : string) (k : Z) (ti de pr du : option string)
    (ta : option (list string)) (re ru : option string) (w : World) :
  PyStr.truthy uid = true ->
  dapr_available br = false \/ accepts br (attempts (bus w)) = true ->
  (exists w',
     CompleteTaskTool.execute br now (PStr uid) k w
     = (Return (create_success_response
                  [("id", PInt k); ("user_id", PStr uid)]
                  ("Task " ++ str_of_int k ++ " completion requested")), w')
     /\ db w' = db w)
  /\ (UpdateTaskTool.validate k ti de pr du ta re ru = Return tt ->
      exists w',
        UpdateTaskTool.execute ts br now (PStr uid) k ti de pr du ta re ru w
        = (Return (create_success_response
                     [ ("id", PInt k); ("user_id", PStr uid);
                       ("title", ostr ti); ("description", ostr de);
                       ("priority", ostr pr); ("due_date", ostr du);
                       ("tags", UpdateTaskTool.otags ta);
                       ("recurrence", ostr re);
                       ("recurrence_rule", ostr ru) ]
                     ("Task " ++ str_of_int k ++ " update requested")), w')
        /\ db w' = db w).
Proof.
  intros Hu Hpub.
  assert (Hp : forall tp ty dat,
            exists w', DaprEventPublisher.publish_event br tp ty dat w
                       = (Return tt, w') /\ db w' = db w).
  { intros tp ty dat. destruct (dapr_available br) eqn:Ha.
    - destruct Hpub as [?|Hc]; [discriminate|].
      rewrite publish_event_accepted by assumption. eauto.
    - rewrite publish_event_dev_mode by assumption. eauto. }
  split.
  - unfold CompleteTaskTool.execute, mbind, lift, try_except.
    rewrite validate_user_id_str by exact Hu.
    unfold DaprEventPublisher.publish_task_completed.
    destruct (Hp "task-events" "task.completed"
                [("id", PInt k); ("user_id", PStr uid)]) as (w' & -> & Hd).
    exists w'. split; [reflexivity|exact Hd].
  - intros Hval.
    unfold UpdateTaskTool.execute, mbind, lift, try_except.
    rewrite validate_user_id_str by exact Hu. rewrite Hval.
    unfold DaprEventPublisher.publish_task_updated.
    match goal with |- context [DaprEventPublisher.publish_event br ?tp ?ty
                                  ?dat w] =>
      destruct (Hp tp ty dat) as (w' & -> & Hd) end.
    exists w'. split; [reflexivity|exact Hd].
Qed.

Lemma bus_path_does_not_read_the_table_witness :
  exists w',
    CompleteTaskTool.execute up (naive 2026 2 1 9 0 0) (PStr "user-a") 99
      empty_world
    = (Return (create_success_response
                 [("id", PInt 99); ("user_id", PStr "user-a")]
                 "Task 99 completion requested"), w')
    /\ db w' = db empty_world.
Proof.
  exact (proj1 (bus_path_does_not_read_the_table up pg_timestamp
                  (naive 2026 2 1 9 0 0) "user-a" 99 None None None None
                  None None None empty_world eq_refl (or_intror eq_refl))).
Defined.

(** X11: the update tool refuses a request that provides nothing to
    change: with no description and every other field absent or empty (an
    empty title included) it fails with [VALIDATION_ERROR], the task id in
    the details, and the world is unchanged. A non-empty priority outside
    high, medium and low is refused naming the field [priority]. *)
Theorem update_needs_a_field
    (ts : string -> option datetime) (br : Broker) (now : datetime)
    (uid : string) (k : Z) (ti de pr du : option string)
    (ta : option (list string)) (re ru : option string) (w : World) :
  PyStr.truthy uid = true ->
  let r :=
    UpdateTaskTool.execute ts br now (PStr uid) k ti de pr du ta re ru w in
  (opt_truthy ti = false -> de = None -> opt_truthy pr = false ->
   opt_truthy du = false -> (ta = None \/ ta = Some []) ->
   opt_truthy re = false -> opt_truthy ru = false ->
   r = (Raise (MCPToolError "VALIDATION_ERROR"
                 "At least one field must be provided for update"
                 [("task_id", PInt k)]), w))
  /\ (forall p, pr = Some p -> p <> "" ->
      ~ (p = "high" \/ p = "medium" \/ p = "low") ->
      r = (Raise (MCPToolError "VALIDATION_ERROR"
                    "Priority must be one of: high, medium, low"
                    [("field", PStr "priority")]), w)).
Proof.
  intros Hu. cbv zeta.
  assert (Hstart : forall e,
    UpdateTaskTool.validate k ti de pr du ta re ru = Raise e ->
    UpdateTaskTool.execute ts br now (PStr uid) k ti de pr du ta re ru w
    = (Raise e, w)).
  { intros e He. unfold UpdateTaskTool.execute, mbind at 1, lift at 1.
    rewrite (validate_user_id_str uid Hu).
    unfold mbind at 1, lift at 1. rewrite He. reflexivity. }
  split.
  - intros Hti -> Hpr Hdu Hta Hre Hru. apply Hstart.
    unfold UpdateTaskTool.validate, UpdateTaskTool.any_field.
    rewrite Hti, Hpr, Hdu, Hre, Hru.
    destruct Hta as [-> | ->]; reflexivity.
  - intros p -> Hp Hbad. apply Hstart.
    unfold UpdateTaskTool.validate, UpdateTaskTool.any_field.
    assert (Ht : PyStr.truthy p = true)
      by (destruct p; [congruence|reflexivity]).
    replace (opt_truthy ti || bool_decide (de <> None)
             || opt_truthy (Some p) || opt_truthy du
             || UpdateTaskTool.list_truthy ta || opt_truthy re
             || opt_truthy ru) with true
      by (simpl opt_truthy; rewrite Ht, orb_true_r; reflexivity).
    simpl negb. cbv iota. simpl opt_truthy. rewrite Ht. simpl default.
    simpl andb.
    destruct (AddTaskTool.in_priorities p) eqn:E; [|reflexivity].
    apply in_priorities_spec in E. contradiction.
Qed.

Lemma update_needs_a_field_witness :
  UpdateTaskTool.execute pg_timestamp up (naive 2026 2 1 9 0 0)
    (PStr "user-a") 1 (Some "") None None None (Some []) None None
    pay_rent_world
  = (Raise (MCPToolError "VALIDATION_ERROR"
              "At least one field must be provided for update"
              [("task_id", PInt 1)]), pay_rent_world).
Proof.
  apply (proj1 (update_needs_a_field pg_timestamp up (naive 2026 2 1 9 0 0)
                  "user-a" 1 (Some "") None None None (Some []) None None
                  pay_rent_world eq_refl));
    try reflexivity.
  right. reflexivity.
Defined.

(** X12: the direct write of the update tool (taken when the publish
    fails) changes the caller's task and nothing else. A field is written
    exactly when its argument is given, even when it is an empty string,
    so an update can blank the title; [updated_at] is the time of the
    call; id, owner, completion flag, creation time and next occurrence
    are kept; no row is added or removed and nothing is published. *)
Theorem update_writes_the_given_fields
    (ts : string -> option datetime) (br : Broker) (now : datetime)
    (uid : string) (k : Z) (ti de pr du : option string)
    (ta : option (list string)) (re ru : option string)
    (w : World) (t : Task) (due : option datetime) :
  PyStr.truthy uid = true ->
  UpdateTaskTool.validate k ti de pr du ta re ru = Return tt ->
  dapr_available br = true -> accepts br (attempts (bus w)) = false ->
  rows (db w) !! k = Some t -> user_id t = uid ->
  match du with Some s => ts s = due /\ due <> None | None => due = None end ->
  exists t' w',
    UpdateTaskTool.execute ts br now (PStr uid) k ti de pr du ta re ru w
    = (Return (create_success_response (task_fields t')
                 ("Task '" ++ title t' ++ "' updated successfully")), w')
    /\ rows (db w') = <[k := t']> (rows (db w))
    /\ size (rows (db w')) = size (rows (db w))
    /\ published (bus w') = published (bus w)
    /\ id t' = id t /\ user_id t' = user_id t
    /\ completed t' = completed t /\ created_at t' = created_at t
    /\ next_occurrence t' = next_occurrence t
    /\ updated_at t' = now
    /\ title t' = default (title t) ti
    /\ priority t' = default (priority t) pr
    /\ description t' = (if de is Some _ then de else description t)
    /\ due_date t' = (if du is Some _ then due else due_date t)
    /\ tags t' = (if ta is Some _ then ta else tags t)
    /\ recurrence t' = (if re is Some _ then re else recurrence t)
    /\ recurrence_rule t' = (if ru is Some _ then ru else recurrence_rule t).
Proof.
  intros Hu Hval Ha Hc Ht Ho Hdue. subst uid.
  exists (UpdateTaskTool.apply_update t ti de pr due ta re ru now).
  eexists.
  unfold UpdateTaskTool.execute, mbind at 1, lift at 1.
  rewrite (validate_user_id_str _ Hu).
  unfold mbind at 1, lift at 1. rewrite Hval.
  unfold try_except, mbind at 1, DaprEventPublisher.publish_task_updated.
  rewrite publish_event_rejected by assumption.
  unfold UpdateTaskTool.update_directly, mbind, get_db, lift.
  cbn [db]. rewrite Ht, validate_ownership_same.
  assert (Hpick :
    match du with
    | Some s => match ts s with
                | Some t0 => ret (Some t0)
                | None => raise DataError
                end
    | None => ret None
    end = (ret due : M (option datetime))).
  { destruct du as [s|]; [|now subst due].
    destruct Hdue as [Hts Hne]. rewrite Hts.
    destruct due; [reflexivity|congruence]. }
  rewrite Hpick. unfold ret, put_db. cbn [db bus].
  split; [reflexivity|]. simpl.
  split; [reflexivity|].
  split; [apply map_size_insert_Some; rewrite Ht; eauto|].
  repeat (split; [reflexivity|]).
  split; [destruct de; reflexivity|].
  split.
  { destruct du as [s|]; [|now subst due].
    destruct Hdue as [_ Hne]. destruct due; [reflexivity|congruence]. }
  split; [destruct ta; reflexivity|].
  split; [destruct re; reflexivity|destruct ru; reflexivity].
Qed.

Lemma update_writes_the_given_fields_witness :
  exists t' w',
    UpdateTaskTool.execute pg_timestamp down (naive 2026 2 1 9 0 0)
      (PStr "user-a") 1 (Some "") (Some "was: pay rent") None None None
      None None pay_rent_world
    = (Return (create_success_response (task_fields t')
                 ("Task '" ++ title t' ++ "' updated successfully")), w')
    /\ title t' = "" /\ priority t' = "medium"
    /\ recurrence t' = Some "monthly".
Proof.
  destruct (update_writes_the_given_fields pg_timestamp down
              (naive 2026 2 1 9 0 0) "user-a" 1 (Some "")
              (Some "was: pay rent") None None None None None
              pay_rent_world pay_rent None
              eq_refl eq_refl eq_refl eq_refl eq_refl eq_refl eq_refl)
    as (t' & w' & E & _ & _ & _ & _ & _ & _ & _ & _ & _ & Hti & Hpr & _ & _
        & _ & Hre & _).
  exists t', w'. split; [exact E|]. split; [exact Hti|].
  split; [exact Hpr|exact Hre].
Defined.

(** X13: the delete tool leaves no trace. Every delete call, by any
    caller and for any task id, is answered with an error, [UNAUTHORIZED]
    for an invalid user id and [INTERNAL_ERROR] otherwise, and leaves the
    table and the bus as they were; so a session ends in the same world
    as the session without its delete calls. *)
Theorem delete_calls_leave_no_trace
    (e : Env) (calls : list (string * call)) (w : World) :
  (forall (v : pyval) (k : Z) (w0 : World),
     exists c m d,
       run e v (DeleteTask k) w0 = (Raise (MCPToolError c m d), w0)
       /\ (c = "UNAUTHORIZED" \/ c = "INTERNAL_ERROR"))
  /\ run_all e calls w
     = run_all e (List.filter (fun uc => negb (is_delete uc.2)) calls) w.
Proof.
  split.
  - intros v k w0. apply delete_step.
  - revert w. induction calls as [|[u c] calls IH]; intros w.
    + reflexivity.
    + destruct c; try (simpl; apply IH).
      cbn [List.filter is_delete negb snd run_all].
      destruct (delete_step (env_select_unbound e) (PStr u) task_id_ w)
        as (c0 & m & d & Hd & _).
      unfold run. rewrite Hd. apply IH.
Qed.

Lemma delete_calls_leave_no_trace_witness :
  run_all quiet_up
    [ ("user-a", DeleteTask 1);
      ("user-a", ViewTask 1);
      ("user-b", DeleteTask 1) ] pay_rent_world
  = pay_rent_world.
Proof.
  rewrite (proj2 (delete_calls_leave_no_trace quiet_up
                    [ ("user-a", DeleteTask 1);
                      ("user-a", ViewTask 1);
                      ("user-b", DeleteTask 1) ] pay_rent_world)).
  reflexivity.
Defined.

(** X14: the view tool only reads. It never changes the table or the bus;
    for a valid user id it succeeds exactly when the task exists and
    belongs to the caller, and then returns that task's id, owner, title,
    description, completion flag and two timestamps. *)
Theorem view_only_reads (v : pyval) (uid : string) (k : Z) (w : World) :
  (ViewTaskTool.execute v k w).2 = w
  /\ (PyStr.truthy uid = true ->
      (forall t, rows (db w) !! k = Some t -> user_id t = uid ->
       (ViewTaskTool.execute (PStr uid) k w).1
       = Return (create_success_response
                   [ ("id", oint (id t)); ("user_id", PStr uid);
                     ("title", PStr (title t));
                     ("description", ostr (description t));
                     ("completed", PBool (completed t));
                     ("created_at", PIso (created_at t));
                     ("updated_at", PIso (updated_at t)) ]
                   ("Here are the details for task " ++ str_of_int k)))
      /\ (forall resp,
            (ViewTaskTool.execute (PStr uid) k w).1 = Return resp ->
            exists t, rows (db w) !! k = Some t /\ user_id t = uid)).
Proof.
  split; [apply view_step|]. intros Hu. split.
  - intros t Ht Ho.
    unfold ViewTaskTool.execute, mbind at 1, lift at 1.
    rewrite (validate_user_id_str uid Hu).
    unfold reraise_or_internal, try_except, mbind, get_db, lift.
    rewrite Ht, Ho, validate_ownership_same. reflexivity.
  - intros resp.
    unfold ViewTaskTool.execute, mbind at 1, lift at 1.
    rewrite (validate_user_id_str uid Hu).
    unfold reraise_or_internal, try_except, mbind, get_db, lift, raise.
    destruct (rows (db w) !! k) as [t|]; [|discriminate].
    destruct (BaseMCPTool.validate_ownership (user_id t) uid)
      as [[]|e|] eqn:Ho.
    + intros _. exists t. split; [reflexivity|].
      now apply validate_ownership_ok.
    + unfold BaseMCPTool.validate_ownership in Ho.
      destruct (negb _); [injection Ho as <-|discriminate]. discriminate.
    + discriminate.
Qed.

Lemma view_only_reads_witness :
  exists resp,
    ViewTaskTool.execute (PStr "user-a") 1 pay_rent_world
    = (Return resp, pay_rent_world).
Proof.
  destruct (view_only_reads (PStr "user-a") "user-a" 1 pay_rent_world)
    as [Hw [Hs _]]; [reflexivity|].
  specialize (Hs pay_rent eq_refl eq_refl).
  eexists.
  destruct (ViewTaskTool.execute (PStr "user-a") 1 pay_rent_world)
    as [r w'] eqn:E.
  simpl in Hw, Hs. rewrite Hs, Hw. reflexivity.
Defined.

(** ** The task service *)

(** X15: [toggle_complete] undoes itself: two toggles by the owner leave
    the task as it was except for [updated_at], with one row rewritten and
    none added; for a task that is missing or belongs to someone else it
    returns nothing and leaves the table alone. *)
Theorem toggle_twice_restores_the_task
    (n1 n2 : datetime) (k : Z) (uid : string) (d : TaskDb) :
  (forall t, rows d !! k = Some t -> user_id t = uid ->
   let '(r1, d1) := TaskService.toggle_complete n1 k uid d in
   let '(r2, d2) := TaskService.toggle_complete n2 k uid d1 in
   (exists t1, r1 = Some t1 /\ completed t1 = negb (completed t))
   /\ r2 = Some (CompleteTaskTool.set_completed t (completed t) n2)
   /\ rows d2
      = <[k := CompleteTaskTool.set_completed t (completed t) n2]> (rows d)
   /\ next_id d2 = next_id d)
  /\ (TaskService.get_by_id k uid d = None ->
      TaskService.toggle_complete n1 k uid d = (None, d)).
Proof.
  split.
  - intros t Ht Ho.
    unfold TaskService.toggle_complete, TaskService.get_by_id.
    rewrite Ht, Ho, String.eqb_refl. simpl.
    rewrite lookup_insert_eq. simpl. rewrite Ho, String.eqb_refl. simpl.
    split; [eexists; split; reflexivity|].
    rewrite negb_involutive.
    split; [reflexivity|]. split; [|reflexivity].
    apply insert_insert_eq.
  - intros H. unfold TaskService.toggle_complete. now rewrite H.
Qed.

Lemma toggle_twice_restores_the_task_witness :
  (TaskService.toggle_complete (naive 2026 2 1 9 0 1) 1 "user-a"
     (TaskService.toggle_complete (naive 2026 2 1 9 0 0) 1 "user-a"
        pay_rent_db).2).1
  = Some (CompleteTaskTool.set_completed pay_rent true
            (naive 2026 2 1 9 0 1)).
Proof.
  pose proof (proj1 (toggle_twice_restores_the_task (naive 2026 2 1 9 0 0)
                       (naive 2026 2 1 9 0 1) 1 "user-a" pay_rent_db)
                pay_rent eq_refl eq_refl) as H.
  destruct (TaskService.toggle_complete (naive 2026 2 1 9 0 0) 1 "user-a"
              pay_rent_db) as [r1 d1].
  simpl.
  destruct (TaskService.toggle_complete (naive 2026 2 1 9 0 1) 1 "user-a"
              d1) as [r2 d2].
  destruct H as (_ & -> & _). reflexivity.
Defined.

(** X16: [TaskService.delete] removes exactly the caller's task: it
    answers [True], the task can no longer be read, every other row is
    as before, and deleting again answers [False]; for a missing or
    foreign task it answers [False] and changes nothing. *)
Theorem service_delete_removes_one_row
    (k : Z) (uid : string) (d : TaskDb) :
  (forall t, rows d !! k = Some t -> user_id t = uid ->
   let d' := (TaskService.delete k uid d).2 in
   (TaskService.delete k uid d).1 = true
   /\ TaskService.get_by_id k uid d' = None
   /\ (forall k' u, k' <> k ->
         TaskService.get_by_id k' u d' = TaskService.get_by_id k' u d)
   /\ TaskService.delete k uid d' = (false, d'))
  /\ (TaskService.get_by_id k uid d = None ->
      TaskService.delete k uid d = (false, d)).
Proof.
  split.
  - intros t Ht Ho. cbv zeta.
    assert (E : TaskService.delete k uid d = (true, db_delete k d)).
    { unfold TaskService.delete, TaskService.get_by_id.
      now rewrite Ht, Ho, String.eqb_refl. }
    rewrite E. cbn [fst snd].
    assert (Hgone : TaskService.get_by_id k uid (db_delete k d) = None).
    { unfold TaskService.get_by_id, db_delete. cbn [rows].
      now rewrite lookup_delete_eq. }
    split; [reflexivity|].
    split; [exact Hgone|]. split.
    + intros k' u Hne. unfold TaskService.get_by_id, db_delete. cbn [rows].
      rewrite lookup_delete_ne by congruence. reflexivity.
    + unfold TaskService.delete. now rewrite Hgone.
  - intros H. unfold TaskService.delete. now rewrite H.
Qed.

Lemma service_delete_removes_one_row_witness :
  (TaskService.delete 1 "user-a" pay_rent_db).1 = true
  /\ TaskService.delete 1 "user-b" pay_rent_db = (false, pay_rent_db).
Proof.
  split.
  - apply (proj1 (service_delete_removes_one_row 1 "user-a" pay_rent_db)
             pay_rent eq_refl eq_refl).
  - apply (proj2 (service_delete_removes_one_row 1 "user-b" pay_rent_db)).
    reflexivity.
Defined.

(** X17: [update_advanced] never fails on bad values, it skips them: a
    priority outside high, medium and low and a due date that does not
    parse leave the stored priority and due date as they are, while the
    other given fields are written; a due date that parses is stored as
    the timestamp column hands it back. A missing or foreign task gives
    [None] and no change. *)
Theorem update_advanced_skips_bad_values
    (fromisoformat : string -> option datetime)
    (column : datetime -> datetime) (now : datetime) (k : Z)
    (uid : string) (ti de pr du : option string) (ta : option (list string))
    (re ru : option string) (d : TaskDb) :
  (forall t, rows d !! k = Some t -> user_id t = uid ->
   exists t',
     TaskServiceMore.update_advanced fromisoformat column now k uid ti de pr
       du ta re ru d = (Some t', db_update k t' d)
     /\ (forall p, pr = Some p ->
         priority t' = if AddTaskTool.in_priorities p then p
                       else priority t)
     /\ (pr = None -> priority t' = priority t)
     /\ (forall s, du = Some s ->
         due_date t' = match fromisoformat (replace_Z s) with
                       | Some x => Some (column x)
                       | None => due_date t
                       end)
     /\ (du = None -> due_date t' = due_date t)
     /\ title t' = default (title t) ti
     /\ updated_at t' = now
     /\ id t' = id t /\ user_id t' = uid /\ completed t' = completed t)
  /\ (TaskService.get_by_id k uid d = None ->
      TaskServiceMore.update_advanced fromisoformat column now k uid ti de pr
        du ta re ru d = (None, d)).
Proof.
  split.
  - intros t Ht Ho. eexists.
    unfold TaskServiceMore.update_advanced, TaskService.get_by_id.
    rewrite Ht, Ho, String.eqb_refl.
    split; [reflexivity|]. simpl.
    split.
    { intros p ->. destruct (AddTaskTool.in_priorities p); reflexivity. }
    split; [intros ->; reflexivity|].
    split.
    { intros s ->. destruct (fromisoformat (replace_Z s)); reflexivity. }
    split; [intros ->; reflexivity|].
    repeat split; try reflexivity. exact Ho.
  - intros H. unfold TaskServiceMore.update_advanced. now rewrite H.
Qed.

Lemma update_advanced_skips_bad_values_witness :
  (exists t',
     (TaskServiceMore.update_advanced sample_fromisoformat sample_column
        (naive 2026 2 1 9 0 0) 1 "user-a" None None (Some "urgent")
        (Some "tomorrow") None None None pay_rent_db).1 = Some t'
     /\ priority t' = "medium"
     /\ due_date t' = Some (naive 2026 1 31 0 0 0))
  /\ (exists t',
        (TaskServiceMore.update_advanced sample_fromisoformat sample_column
           (naive 2026 2 1 9 0 0) 42 "user-b" None None None
           (Some "2026-01-31T00:00:00Z") None None None (db others_world)).1
        = Some t'
        /\ due_date t' = Some (naive 2026 1 31 0 0 0)).
Proof.
  split.
  - destruct (proj1 (update_advanced_skips_bad_values sample_fromisoformat
                       sample_column (naive 2026 2 1 9 0 0) 1 "user-a" None
                       None (Some "urgent") (Some "tomorrow") None None None
                       pay_rent_db) pay_rent eq_refl eq_refl)
      as (t' & E & Hp & _ & Hd & _).
    exists t'. rewrite E. split; [reflexivity|].
    split; [exact (Hp _ eq_refl)|exact (Hd _ eq_refl)].
  - destruct (proj1 (update_advanced_skips_bad_values sample_fromisoformat
                       sample_column (naive 2026 2 1 9 0 0) 42 "user-b" None
                       None None (Some "2026-01-31T00:00:00Z") None None None
                       (db others_world)) others_task eq_refl eq_refl)
      as (t' & E & _ & _ & Hd & _).
    exists t'. rewrite E. split; [reflexivity|exact (Hd _ eq_refl)].
Defined.

(** X18: what [create_advanced] stores can be read back by its owner and by
    nobody else: [get_by_id] under the new key returns the created task
    for the owner and nothing for any other user; the task is not
    completed and has no next occurrence; the rows that were there are
    read as before and the key discipline is kept. *)
Theorem create_then_get_by_id
    (fromisoformat : string -> option datetime)
    (column : datetime -> datetime) (now_c now_u : datetime)
    (uid ti : string) (de : option string) (pr : string)
    (du : option string) (ta : option (list string)) (re ru : option string)
    (d : TaskDb) :
  db_wf d ->
  let '(t, d') :=
    TaskService.create_advanced fromisoformat column now_c now_u uid ti de
      pr du ta re ru d in
  id t = Some (next_id d)
  /\ TaskService.get_by_id (next_id d) uid d' = Some t
  /\ (forall other, other <> uid ->
        TaskService.get_by_id (next_id d) other d' = None)
  /\ (forall k u, rows d !! k <> None ->
        TaskService.get_by_id k u d' = TaskService.get_by_id k u d)
  /\ completed t = false /\ next_occurrence t = None
  /\ user_id t = uid
  /\ db_wf d'.
Proof.
  intros Hwf. unfold TaskService.create_advanced.
  match goal with |- context [db_insert ?x d] => set (new := x) end.
  pose proof (db_insert_wf new d Hwf) as Hwf'.
  pose proof (db_insert_fresh new d Hwf) as Hfresh.
  unfold db_insert in *. simpl in *.
  split; [reflexivity|].
  unfold TaskService.get_by_id. simpl.
  split.
  { rewrite lookup_insert_eq. simpl. now rewrite String.eqb_refl. }
  split.
  { intros other Hne. rewrite lookup_insert_eq. simpl.
    apply not_eq_sym in Hne. apply String.eqb_neq in Hne. now rewrite Hne. }
  split.
  { intros k u Hk. rewrite lookup_insert_ne; [reflexivity|].
    intros <-. contradiction. }
  split; [reflexivity|]. split; [reflexivity|]. split; [reflexivity|].
  exact Hwf'.
Qed.

Lemma create_then_get_by_id_witness :
  exists t,
    TaskService.get_by_id 2 "user-b"
      (TaskService.create_advanced (fun _ => None) sample_column
         (naive 2026 2 1 9 0 0) (naive 2026 2 1 9 0 0) "user-b"
         "Call the bank" None "high" None None None None pay_rent_db).2
    = Some t
    /\ TaskService.get_by_id 2 "user-a"
         (TaskService.create_advanced (fun _ => None) sample_column
            (naive 2026 2 1 9 0 0) (naive 2026 2 1 9 0 0) "user-b"
            "Call the bank" None "high" None None None None pay_rent_db).2
       = None.
Proof.
  assert (Hwf : db_wf pay_rent_db).
  { change (map_Forall (fun k t => k < 2 /\ id t = Some k)
              (rows pay_rent_db)).
    apply (bool_decide_unpack _). vm_compute. exact I. }
  pose proof (create_then_get_by_id (fun _ => None) sample_column
                (naive 2026 2 1 9 0 0) (naive 2026 2 1 9 0 0) "user-b"
                "Call the bank" None "high" None None None None pay_rent_db
                Hwf) as H.
  destruct (TaskService.create_advanced (fun _ => None) sample_column
              (naive 2026 2 1 9 0 0) (naive 2026 2 1 9 0 0) "user-b"
              "Call the bank" None "high" None None None None pay_rent_db)
    as [t d'].
  destruct H as (_ & Hg & Ho & _).
  exists t. split; [exact Hg|]. apply Ho. discriminate.
Defined.

(** ** Retries *)

Section RetrySaturation.

Import Notification NotificationService.

(** The row after [r] invocations. *)
Lemma retry_rounds_rows (r : nat) (db : Db) :
  wf db ->
  forall k,
    rows (retry_rounds r db) !! k
    = (fun n => if decide (eligible n)
                then set_delivery_attempts n
                       (Z.min 3 (delivery_attempts n + Z.of_nat r))
                else n) <$> rows db !! k.
Proof.
  intros Hwf. induction r as [|r IH]; intros k.
  - simpl. destruct (rows db !! k) as [n|]; [|reflexivity]. simpl.
    destruct (decide (eligible n)) as [[_ Ha]|_]; [|reflexivity].
    rewrite Z.add_0_r, Z.min_r by lia. now destruct n.
  - change (retry_rounds (S r) db)
      with (retry_failed_notifications (retry_rounds r db)).2.
    rewrite (proj1 (retry_failed_notifications_rows _
                      (retry_rounds_wf r db Hwf))).
    cbn [rows]. rewrite lookup_fmap, IH.
    destruct (rows db !! k) as [n|]; [|reflexivity]. simpl. f_equal.
    unfold retry_row, retried, eligible.
    destruct (decide (status n = "failed" /\ delivery_attempts n < 3))
      as [[Hs Ha]|Hno]; cbn [status delivery_attempts set_delivery_attempts].
    + destruct (decide (_ /\ _)) as [[_ Hb]|Hb].
      * cbn [status delivery_attempts set_delivery_attempts id task_id
               user_id scheduled_time sent_time channel message_content
               created_at updated_at].
        f_equal. lia.
      * cbn [status delivery_attempts set_delivery_attempts] in Hb.
        f_equal. assert (~ Z.min 3 (delivery_attempts n + Z.of_nat r) < 3)
          by tauto. lia.
    + rewrite decide_False by exact Hno. reflexivity.
Qed.

End RetrySaturation.

(** X19: retrying comes to an end. When no failed notification has a
    negative attempt count, three invocations of
    [retry_failed_notifications] bring every failed notification that had
    fewer than three attempts to exactly three and leave all other rows as
    they were; every later invocation retries nothing and returns 0. *)
Theorem retries_stop_after_three_rounds
    (db : Notification.Db) (rounds : nat) :
  Notification.wf db ->
  (forall k n, Notification.rows db !! k = Some n ->
               Notification.status n = "failed" ->
               0 <= Notification.delivery_attempts n) ->
  (3 <= rounds)%nat ->
  let db' := retry_rounds rounds db in
  (forall k,
     Notification.rows db' !! k
     = (fun n => if decide (eligible n)
                 then Notification.set_delivery_attempts n 3 else n)
       <$> Notification.rows db !! k)
  /\ Notification.next_id db' = Notification.next_id db
  /\ NotificationService.retry_failed_notifications db' = (0, db').
Proof.
  intros Hwf Hpos Hr db'.
  assert (Hrows : forall k,
    Notification.rows db' !! k
    = (fun n => if decide (eligible n)
                then Notification.set_delivery_attempts n 3 else n)
      <$> Notification.rows db !! k).
  { intros k. unfold db'. rewrite retry_rounds_rows by exact Hwf.
    destruct (Notification.rows db !! k) as [n|] eqn:Hk; [|reflexivity].
    simpl. f_equal.
    destruct (decide (eligible n)) as [[Hs Ha]|_]; [|reflexivity].
    f_equal. specialize (Hpos k n Hk Hs). lia. }
  assert (Hwf' : Notification.wf db') by now apply retry_rounds_wf.
  assert (Hnext : Notification.next_id db' = Notification.next_id db).
  { unfold db'. clear -Hwf. induction rounds as [|r IH]; [reflexivity|].
    change (retry_rounds (S r) db)
      with (NotificationService.retry_failed_notifications
              (retry_rounds r db)).2.
    rewrite (proj1 (retry_failed_notifications_rows _
                      (retry_rounds_wf r db Hwf))).
    exact IH. }
  split; [exact Hrows|]. split; [exact Hnext|].
  assert (Hfix : forall k n, Notification.rows db' !! k = Some n ->
                             retry_row n = n).
  { intros k n Hk. rewrite Hrows in Hk.
    destruct (Notification.rows db !! k) as [m|]; [|discriminate].
    simpl in Hk. injection Hk as <-.
    unfold retry_row. destruct (decide (eligible m)) as [He|Hne].
    - rewrite decide_False; [reflexivity|]. intros [_ Ha]. simpl in Ha. lia.
    - rewrite decide_False; [reflexivity|]. exact Hne. }
  pose proof (retry_failed_notifications_rows db' Hwf') as [H2 H1].
  destruct (NotificationService.retry_failed_notifications db')
    as [c d2] eqn:E. simpl in H1, H2. f_equal.
  - rewrite H1.
    match goal with |- context [filter ?P ?l] =>
      destruct (filter P l) as [|x rest] eqn:Ef end; [reflexivity|].
    assert (Hx : x ∈ x :: rest) by left.
    rewrite <- Ef in Hx. apply list_elem_of_filter in Hx as [Ha Hin].
    apply elem_of_failed in Hin as [Hs [kx Hkx]].
    pose proof (Hfix kx x Hkx) as Hrr. unfold retry_row in Hrr.
    rewrite decide_True in Hrr by (split; assumption).
    apply (f_equal Notification.delivery_attempts) in Hrr.
    simpl in Hrr. lia.
  - subst d2. destruct db' as [rows' next'] eqn:Edb. simpl. f_equal.
    apply map_eq. intros k. rewrite lookup_fmap.
    destruct (rows' !! k) as [n|] eqn:Hk; [|reflexivity]. simpl.
    f_equal. apply (Hfix k). exact Hk.
Qed.

Lemma retries_stop_after_three_rounds_witness :
  NotificationService.retry_failed_notifications
    (retry_rounds 3 sample_notifications)
  = (0, retry_rounds 3 sample_notifications)
  /\ Notification.delivery_attempts
       <$> Notification.rows (retry_rounds 3 sample_notifications) !! 2
     = Some 3.
Proof.
  assert (Hpos : forall k n,
            Notification.rows sample_notifications !! k = Some n ->
            Notification.status n = "failed" ->
            0 <= Notification.delivery_attempts n).
  { change (map_Forall
              (fun (_ : Z) n => Notification.status n = "failed" ->
                                0 <= Notification.delivery_attempts n)
              (Notification.rows sample_notifications)).
    apply (bool_decide_unpack _). vm_compute. exact I. }
  destruct (retries_stop_after_three_rounds sample_notifications 3
              sample_notifications_wf Hpos ltac:(lia)) as (Hrows & _ & Hfix).
  split; [exact Hfix|]. rewrite Hrows. vm_compute. reflexivity.
Defined.

(** ** Batches of notifications *)

Section Batch.

Import Notification NotificationService NotificationBatch.

Variable fromisoformat : string -> option datetime.

Variable column : datetime -> datetime.



End Batch.



(** ** Reminder events *)



(** ** The reminder sweep *)

Section Sweep.

Import DaprEventPublisher ReminderScheduler.

Variable br : Broker.

Lemma schedule_reminders_for_task_due (task : Task) (due : datetime)
    (w : World) :
  due_date task = Some due ->
  exists ev,
    topic ev = "reminders" /\ event_type ev = "task.due_scheduled"
    /\ schedule_reminders_for_task br task w
       = if dapr_available br then
           if accepts br (attempts (bus w)) then
             (Return true,
              mkWorld (db w) (mkBus (published (bus w) ++ [ev])
                                (S (attempts (bus w)))))
           else
             (Return false,
              mkWorld (db w) (mkBus (published (bus w))
                                (S (attempts (bus w)))))
         else (Return true, w).
Proof.
  intros Hdue. unfold schedule_reminders_for_task. rewrite Hdue.
  unfold try_except, mbind, publish_reminder_scheduled, publish_event, ret.
  eexists (mkEvent _ _ _ _). split; [reflexivity|]. split; [reflexivity|].
  destruct (dapr_available br); simpl; [|reflexivity].
  destruct (accepts br (attempts (bus w))); reflexivity.
Qed.

Lemma schedule_all_counts (tasks : list Task) :
  Forall (fun t => due_date t <> None) tasks ->
  forall (c : Z) (w : World),
  exists n w',
    schedule_all br tasks c w = (Return n, w')
    /\ db w' = db w
    /\ (dapr_available br = false ->
        w' = w /\ n = c + Z.of_nat (length tasks))
    /\ (dapr_available br = true ->
        attempts (bus w') = (attempts (bus w) + length tasks)%nat
        /\ exists more,
             published (bus w') = (published (bus w) ++ more)%list
             /\ n = c + Z.of_nat (length more)
             /\ length more
                = length (filter (fun i => accepts br i = true)
                            (seq (attempts (bus w)) (length tasks)))
             /\ Forall (fun ev => topic ev = "reminders"
                                  /\ event_type ev = "task.due_scheduled")
                  more).
Proof.
  induction 1 as [|task tasks Hdue Hrest IH]; intros c w.
  - exists c, w. split; [reflexivity|]. split; [reflexivity|].
    split; [intros _; split; [reflexivity|simpl; lia]|].
    intros _. split; [simpl; lia|]. exists [].
    rewrite app_nil_r. simpl. repeat split; try constructor. lia.
  - destruct (due_date task) as [due|] eqn:Hd; [|congruence].
    destruct (schedule_reminders_for_task_due task due w Hd)
      as (ev & Htopic & Htype & Hstep).
    cbn [schedule_all]. unfold mbind at 1. rewrite Hstep.
    destruct (dapr_available br) eqn:Hdapr.
    + destruct (accepts br (attempts (bus w))) eqn:Hacc.
      * match goal with |- context [schedule_all br tasks ?c' ?w1] =>
          destruct (IH c' w1) as (n & w' & -> & Hdb & _ & Hup) end.
        destruct (Hup eq_refl) as (Hatt & more & Hpub & Hn & Hlen & Hall).
        simpl in Hatt, Hpub, Hdb, Hlen.
        exists n, w'. split; [reflexivity|]. split; [exact Hdb|].
        split; [discriminate|]. intros _.
        split; [rewrite Hatt; simpl; lia|].
        exists (ev :: more). split.
        { rewrite Hpub, <- app_assoc. reflexivity. }
        split; [simpl length; lia|]. split.
        { cbn [length seq]. rewrite filter_cons_True by exact Hacc.
          simpl length. now rewrite Hlen. }
        constructor; [tauto|exact Hall].
      * match goal with |- context [schedule_all br tasks ?c' ?w1] =>
          destruct (IH c' w1) as (n & w' & -> & Hdb & _ & Hup) end.
        destruct (Hup eq_refl) as (Hatt & more & Hpub & Hn & Hlen & Hall).
        simpl in Hatt, Hpub, Hdb, Hlen.
        exists n, w'. split; [reflexivity|]. split; [exact Hdb|].
        split; [discriminate|]. intros _.
        split; [rewrite Hatt; simpl; lia|].
        exists more. split; [exact Hpub|]. split; [exact Hn|]. split.
        { cbn [length seq]. rewrite filter_cons_False
            by (rewrite Hacc; discriminate). exact Hlen. }
        exact Hall.
    + destruct (IH (c + 1) w) as (n & w' & -> & Hdb & Hdown & _).
      destruct (Hdown eq_refl) as [-> ->].
      exists (c + 1 + Z.of_nat (length tasks)), w.
      split; [reflexivity|]. split; [reflexivity|].
      split; [|discriminate]. intros _. split; [reflexivity|].
      simpl length. lia.
Qed.

End Sweep.

(** X22: the periodic sweep reads the table and writes only to the bus.
    When [now + hours] is a representable time, the call returns a count
    and leaves the table as it is. With Dapr it makes one publish attempt
    per open task due in the window, appends one [task.due_scheduled]
    event on topic [reminders] for each attempt the sidecar accepts, and
    the count is the number of those events. Without Dapr the bus is
    untouched, and the count is nevertheless the number of due tasks. *)
Theorem periodic_sweep_counts_accepted_publishes
    (br : Broker) (now target : datetime) (hours_before_due : Z)
    (w : World) :
  ReminderScheduler.add_time now hours_before_due 0 = Return target ->
  let due := ReminderScheduler.due_between now target (db w) in
  exists n w',
    ReminderScheduler.schedule_periodic_reminders br now hours_before_due w
    = (Return n, w')
    /\ db w' = db w
    /\ (dapr_available br = false ->
        w' = w /\ n = Z.of_nat (length due))
    /\ (dapr_available br = true ->
        attempts (bus w') = (attempts (bus w) + length due)%nat
        /\ exists more,
             published (bus w') = (published (bus w) ++ more)%list
             /\ n = Z.of_nat (length more)
             /\ length more
                = length (filter (fun i => accepts br i = true)
                            (seq (attempts (bus w)) (length due)))
             /\ Forall (fun ev => topic ev = "reminders"
                                  /\ event_type ev = "task.due_scheduled")
                  more).
Proof.
  intros Htarget due.
  unfold ReminderScheduler.schedule_periodic_reminders, mbind at 1, lift.
  rewrite Htarget. unfold mbind at 1, get_db.
  assert (Hall : Forall (fun t => due_date t <> None) due).
  { apply Forall_forall. intros t Ht. unfold due in Ht.
    unfold ReminderScheduler.due_between in Ht.
    apply list_elem_of_filter in Ht as [[Hd _] _].
    destruct (due_date t); [discriminate|discriminate]. }
  destruct (schedule_all_counts br due Hall 0 w)
    as (n & w' & Hrun & Hdb & Hdown & Hup).
  exists n, w'. split; [exact Hrun|]. split; [exact Hdb|]. split.
  - intros H. destruct (Hdown H) as [-> ->]. split; [reflexivity|lia].
  - intros H. destruct (Hup H) as (Hatt & more & Hpub & Hn & Hlen & Hev).
    split; [exact Hatt|]. exists more.
    split; [exact Hpub|]. split; [lia|]. split; [exact Hlen|exact Hev].
Qed.

Lemma periodic_sweep_counts_accepted_publishes_witness :
  exists w',
    ReminderScheduler.schedule_periodic_reminders flaky
      (naive 2026 1 30 9 0 0) 24 sweep_world = (Return 1, w')
    /\ db w' = db sweep_world
    /\ attempts (bus w') = 2%nat.
Proof.
  destruct (periodic_sweep_counts_accepted_publishes flaky
              (naive 2026 1 30 9 0 0) (naive 2026 1 31 9 0 0) 24 sweep_world
              eq_refl)
    as (n & w' & Hrun & Hdb & _ & Hup).
  destruct (Hup eq_refl) as (Hatt & more & _ & Hn & Hlen & _).
  exists w'. rewrite Hrun, Hn, Hlen, Hatt.
  split; [vm_compute; reflexivity|]. split; [exact Hdb|].
  vm_compute. reflexivity.
Defined.

(** ** The tool server and the invocation skill *)

Section Dictionaries.

Context {A : Type}.

Lemma dict_find_set (key : string) (v : A) (d : list (string * A)) :
  dict_find key (dict_set key v d) = Some v.
Proof.
  induction d as [|[k x] d IH]; simpl.
  - now rewrite String.eqb_refl.
  - destruct (String.eqb k key) eqn:E; simpl; rewrite E; [reflexivity|].
    exact IH.
Qed.

Lemma dict_find_set_other (key key' : string) (v : A)
    (d : list (string * A)) :
  key' <> key -> dict_find key' (dict_set key v d) = dict_find key' d.
Proof.
  intros Hne. induction d as [|[k x] d IH]; simpl.
  - apply not_eq_sym in Hne. apply String.eqb_neq in Hne. now rewrite Hne.
  - destruct (String.eqb k key) eqn:E; simpl.
    + apply String.eqb_eq in E. subst k.
      apply not_eq_sym in Hne. apply String.eqb_neq in Hne.
      now rewrite Hne.
    + destruct (String.eqb k key'); [reflexivity|exact IH].
Qed.

Lemma dict_find_None (key : string) (d : list (string * A)) :
  dict_find key d = None <-> key ∉ map fst d.
Proof.
  induction d as [|[k x] d IH]; simpl.
  - split; [intros _; apply not_elem_of_nil|reflexivity].
  - rewrite not_elem_of_cons. destruct (String.eqb k key) eqn:E.
    + apply String.eqb_eq in E. split; [discriminate|]. intros [H _].
      congruence.
    + apply String.eqb_neq in E. rewrite IH. split; [|tauto].
      intros H. split; [congruence|exact H].
Qed.

Lemma dict_set_keys (key : string) (v : A) (d : list (string * A)) :
  map fst (dict_set key v d)
  = if decide (key ∈ map fst d) then map fst d
    else (map fst d ++ [key])%list.
Proof.
  induction d as [|[k x] d IH].
  - destruct (decide (key ∈ map fst [])) as [Hin|_]; [|reflexivity].
    now apply elem_of_nil in Hin.
  - cbn [dict_set]. destruct (String.eqb k key) eqn:E.
    + apply String.eqb_eq in E. subst k.
      destruct (decide (key ∈ map fst ((key, x) :: d))) as [_|Hout];
        [reflexivity|].
      exfalso. apply Hout. left.
    + apply String.eqb_neq in E.
      change (map fst ((k, x) :: dict_set key v d))
        with (k :: map fst (dict_set key v d)).
      rewrite IH.
      change (map fst ((k, x) :: d)) with (k :: map fst d).
      destruct (decide (key ∈ map fst d)) as [Hin|Hout];
        destruct (decide (key ∈ k :: map fst d)) as [Hin'|Hout'];
        try reflexivity.
      * exfalso. apply Hout'. now right.
      * exfalso. apply elem_of_cons in Hin' as [?|?]; [congruence|tauto].
Qed.

End Dictionaries.

(** X23: the server's registry behaves as a dictionary in insertion order
    and guards every call. After [register_tool] a call by the tool's
    name with a [user_id] argument, and no argument named [self] or
    [tool_name], is the tool's handler on those arguments; the other
    names resolve as before, an existing name keeps its place in
    [list_tools] and a new one is added at the end, so the listed names
    stay distinct. A call with an argument named [self] or [tool_name]
    raises [TypeError]; otherwise a call of an unregistered name or
    without a [user_id] argument raises [ValueError]. In these three
    cases no handler runs: the world is as before. *)
Theorem invoke_tool_runs_the_registered_handler
    (tool : MCPServer.MCPTool) (tools : list (string * MCPServer.MCPTool))
    (kwargs : list (string * pyval)) (w : World) :
  let tools' := MCPServer.register_tool tool tools in
  (forall v, dict_find "user_id" kwargs = Some v ->
     MCPServer.collides kwargs = false ->
     MCPServer.invoke_tool tools' (MCPServer.name tool) kwargs w
     = MCPServer.handler tool kwargs w)
  /\ (forall nm, nm <> MCPServer.name tool ->
        MCPServer.get_tool nm tools' = MCPServer.get_tool nm tools)
  /\ MCPServer.list_tools tools'
     = (if decide (MCPServer.name tool ∈ MCPServer.list_tools tools)
        then MCPServer.list_tools tools
        else (MCPServer.list_tools tools ++ [MCPServer.name tool])%list)
  /\ (NoDup (MCPServer.list_tools tools) ->
      NoDup (MCPServer.list_tools tools'))
  /\ (forall nm, MCPServer.collides kwargs = true ->
        MCPServer.invoke_tool tools nm kwargs w = (Raise TypeError, w))
  /\ (forall nm, MCPServer.collides kwargs = false ->
        nm ∉ MCPServer.list_tools tools ->
        MCPServer.invoke_tool tools nm kwargs w = (Raise ValueError, w))
  /\ (forall nm, MCPServer.collides kwargs = false ->
        dict_find "user_id" kwargs = None ->
        MCPServer.invoke_tool tools nm kwargs w = (Raise ValueError, w)).
Proof.
  cbv zeta. unfold MCPServer.register_tool, MCPServer.list_tools.
  split.
  { intros v Hv Hc. unfold MCPServer.invoke_tool, MCPServer.get_tool, mbind,
      lift. now rewrite Hc, dict_find_set, Hv. }
  split.
  { intros nm Hne. unfold MCPServer.get_tool.
    now rewrite dict_find_set_other by exact Hne. }
  split; [apply dict_set_keys|].
  split.
  { intros Hnd. rewrite dict_set_keys.
    destruct (decide _) as [Hin|Hout]; [exact Hnd|].
    apply NoDup_app. split; [exact Hnd|]. split.
    - intros x Hx Hx'. apply list_elem_of_singleton in Hx'. now subst x.
    - apply NoDup_singleton. }
  split.
  { intros nm Hc. unfold MCPServer.invoke_tool. now rewrite Hc. }
  split.
  { intros nm Hc Hnm. apply dict_find_None in Hnm.
    unfold MCPServer.invoke_tool, MCPServer.get_tool, mbind, lift.
    now rewrite Hc, Hnm. }
  intros nm Hc Hu.
  unfold MCPServer.invoke_tool, MCPServer.get_tool, mbind, lift, raise.
  rewrite Hc.
  destruct (dict_find nm tools); [now rewrite Hu|reflexivity].
Qed.

Lemma invoke_tool_runs_the_registered_handler_witness :
  MCPServer.invoke_tool (MCPServer.register_tool first_task_tool [])
    "complete_task" [("user_id", PStr "user-a")] pay_rent_world
  = ViewTaskTool.execute (PStr "user-a") 1 pay_rent_world
  /\ MCPServer.invoke_tool (MCPServer.register_tool first_task_tool [])
       "complete_task"
       [("user_id", PStr "user-a"); ("tool_name", PStr "view_task")]
       pay_rent_world
     = (Raise TypeError, pay_rent_world).
Proof.
  split.
  - exact (proj1 (invoke_tool_runs_the_registered_handler first_task_tool []
                    [("user_id", PStr "user-a")] pay_rent_world)
             (PStr "user-a") eq_refl eq_refl).
  - destruct (invoke_tool_runs_the_registered_handler first_task_tool
                (MCPServer.register_tool first_task_tool [])
                [("user_id", PStr "user-a"); ("tool_name", PStr "view_task")]
                pay_rent_world) as (_ & _ & _ & _ & H & _).
    exact (H "complete_task" eq_refl).
Defined.

Section Skill.

Import MCPInvocationSkill.

Variable str : exn -> string.

Lemma validate_tool_parameters_result (tool_name : string)
    (parameters : list (string * pyval)) :
  _validate_tool_parameters tool_name parameters = Return tt
  \/ exists missing,
       missing <> []
       /\ (forall p, p ∈ missing -> is_missing parameters p = true)
       /\ _validate_tool_parameters tool_name parameters
          = Raise (MCPToolError "VALIDATION_ERROR"
                     ("Missing required parameters: "
                      ++ String.concat ", " missing)
                     [("missing_parameters", PStrs missing)]).
Proof.
  unfold _validate_tool_parameters.
  destruct (dict_find tool_name REQUIRED_PARAMS) as [required|];
    [|now left].
  destruct (List.filter (is_missing parameters) required) as [|p l] eqn:E;
    [now left|].
  right. exists (p :: l). split; [discriminate|]. split; [|reflexivity].
  intros q Hq. rewrite <- E in Hq. apply list_elem_of_In in Hq.
  now apply filter_In in Hq as [_ Hq].
Qed.

End Skill.

(** X24: the invocation skill lets nothing but an [MCPToolError] out,
    whatever the handlers raise, and always hands the handler the
    caller's [user_id]. With an empty [user_id] it raises UNAUTHORIZED;
    a required parameter of the named tool that is absent or falsy makes
    it raise VALIDATION_ERROR; a parameter named [self] or [tool_name], a
    tool name that is not registered, or a handler exception that is no
    [MCPToolError], comes out as INTERNAL_ERROR; in all these cases but
    the last no handler has run and the world is untouched. Otherwise
    the call is the registered handler on the parameters with [user_id]
    set to the caller, so the server's own check for a missing [user_id]
    cannot fail. *)
Theorem skill_invoke_outcomes
    (str : exn -> string) (tools : list (string * MCPServer.MCPTool))
    (tool_name user_id_ : string)
    (parameters : option (list (string * pyval))) (w : World) :
  let kwargs := dict_set "user_id" (PStr user_id_) (default [] parameters) in
  let '(r, w') :=
    MCPInvocationSkill.invoke str tools tool_name user_id_ parameters w in
  (forall e, r = Raise e -> exists c m d, e = MCPToolError c m d)
  /\ (user_id_ = "" ->
      r = Raise (MCPToolError "UNAUTHORIZED"
                   "user_id is required for MCP tool invocation" [])
      /\ w' = w)
  /\ (forall e,
        MCPInvocationSkill._validate_tool_parameters tool_name kwargs
        = Raise e ->
        user_id_ <> "" -> r = Raise e /\ w' = w)
  /\ (user_id_ <> "" ->
      MCPInvocationSkill._validate_tool_parameters tool_name kwargs
      = Return tt ->
      dict_find "user_id" kwargs = Some (PStr user_id_)
      /\ if MCPServer.collides kwargs then
           r = Raise (MCPToolError "INTERNAL_ERROR"
                        ("Failed to execute tool: " ++ str TypeError) [])
           /\ w' = w
         else
           match dict_find tool_name tools with
           | None =>
               r = Raise (MCPToolError "INTERNAL_ERROR"
                            ("Failed to execute tool: " ++ str ValueError)
                            [])
               /\ w' = w
           | Some tool =>
               w' = (MCPServer.handler tool kwargs w).2
               /\ match (MCPServer.handler tool kwargs w).1 with
                  | Raise (MCPToolError c m d) =>
                      r = Raise (MCPToolError c m d)
                  | Raise e =>
                      r = Raise (MCPToolError "INTERNAL_ERROR"
                                   ("Failed to execute tool: " ++ str e) [])
                  | other => r = other
                  end
           end).
Proof.
  cbv zeta. unfold MCPInvocationSkill.invoke.
  destruct user_id_ as [|c0 u0] eqn:Eu.
  { simpl. split; [intros e [= <-]; eauto|]. split; [auto|].
    split; [intros e _ H; congruence|]. intros H; congruence. }
  rewrite <- Eu in *. assert (Hne : user_id_ <> "") by (subst; discriminate).
  replace (negb (PyStr.truthy user_id_)) with false by (subst; reflexivity).
  clear Eu c0 u0.
  set (kwargs := dict_set "user_id" (PStr user_id_) (default [] parameters)).
  assert (Hk : dict_find "user_id" kwargs = Some (PStr user_id_))
    by apply dict_find_set.
  unfold mbind at 1, lift at 1.
  destruct (validate_tool_parameters_result tool_name kwargs)
    as [Hv | (missing & _ & _ & Hv)]; rewrite Hv.
  - unfold try_except, MCPServer.invoke_tool.
    destruct (MCPServer.collides kwargs) eqn:Hcol.
    { unfold raise.
      split; [intros e [= <-]; eauto|]. split; [intros; congruence|].
      split; [intros e [=]|]. intros _ _. split; [exact Hk|]. now split. }
    unfold MCPServer.get_tool, mbind, lift, raise.
    destruct (dict_find tool_name tools) as [tool|] eqn:Et.
    + rewrite Hk.
      destruct (MCPServer.handler tool kwargs w) as [[a|e|] w1] eqn:Eh.
      * split; [intros e [=]|]. split; [intros; congruence|].
        split; [intros e [=]|]. intros _ _. split; [reflexivity|].
        simpl. now split.
      * destruct e;
          (split; [intros e' [= <-]; eauto|];
           split; [intros; congruence|];
           split; [intros e' [=]|];
           intros _ _; split; [reflexivity|]; simpl; now split).
      * split; [intros e [=]|]. split; [intros; congruence|].
        split; [intros e [=]|]. intros _ _. split; [reflexivity|].
        simpl. now split.
    + split; [intros e [= <-]; eauto|]. split; [intros; congruence|].
      split; [intros e [=]|]. intros _ _. split; [exact Hk|].
      now split.
  - split; [intros e [= <-]; eauto|]. split; [intros; congruence|].
    split; [intros e [= <-] _; now split|]. intros _ [=].
Qed.

Lemma skill_invoke_outcomes_witness :
  MCPInvocationSkill.invoke sample_str
    (MCPServer.register_tool broken_tool []) "view_task" "user-a" None
    pay_rent_world
  = (Raise (MCPToolError "INTERNAL_ERROR" "Failed to execute tool: error"
              []), pay_rent_world)
  /\ (MCPInvocationSkill.invoke sample_str
        (MCPServer.register_tool broken_tool []) "list_tasks" "user-a" None
        pay_rent_world).1
     = Raise (MCPToolError "INTERNAL_ERROR"
                "Failed to execute tool: Tool not found" [])
  /\ MCPInvocationSkill.invoke sample_str
       (MCPServer.register_tool first_task_tool []) "complete_task" "user-a"
       (Some [("task_id", PInt 1); ("self", PNone)]) pay_rent_world
     = (Raise (MCPToolError "INTERNAL_ERROR"
                 "Failed to execute tool: multiple values" []),
        pay_rent_world).
Proof.
  split; [|split].
  - pose proof (skill_invoke_outcomes sample_str
                  (MCPServer.register_tool broken_tool []) "view_task"
                  "user-a" None pay_rent_world) as H.
    cbv zeta in H.
    destruct (MCPInvocationSkill.invoke _ _ _ _ _ _) as [r w'].
    destruct H as (_ & _ & _ & H).
    destruct (H ltac:(discriminate) eq_refl) as (_ & -> & ->). reflexivity.
  - pose proof (skill_invoke_outcomes sample_str
                  (MCPServer.register_tool broken_tool []) "list_tasks"
                  "user-a" None pay_rent_world) as H.
    cbv zeta in H.
    destruct (MCPInvocationSkill.invoke _ _ _ _ _ _) as [r w'].
    destruct H as (_ & _ & _ & H).
    destruct (H ltac:(discriminate) eq_refl) as (_ & -> & _). reflexivity.
  - pose proof (skill_invoke_outcomes sample_str
                  (MCPServer.register_tool first_task_tool [])
                  "complete_task" "user-a"
                  (Some [("task_id", PInt 1); ("self", PNone)])
                  pay_rent_world) as H.
    cbv zeta in H.
    destruct (MCPInvocationSkill.invoke _ _ _ _ _ _) as [r w'].
    destruct H as (_ & _ & _ & H).
    destruct (H ltac:(discriminate) eq_refl) as (_ & -> & ->). reflexivity.
Defined.

(** X25: what the skill counts as missing. For a tool of the table of
    required parameters, a required parameter other than [user_id] that
    is absent from the call or has a falsy value (the task id 0, an empty
    title) makes [invoke] raise VALIDATION_ERROR without touching the
    world; the error lists required parameters only, the offending one
    among them, and never [user_id], which the skill has set itself. *)
Theorem skill_reports_falsy_parameters_as_missing
    (str : exn -> string) (tools : list (string * MCPServer.MCPTool))
    (tool_name user_id_ param : string) (required : list string)
    (parameters : option (list (string * pyval))) (w : World) :
  user_id_ <> "" ->
  dict_find tool_name MCPInvocationSkill.REQUIRED_PARAMS = Some required ->
  param ∈ required -> param <> "user_id" ->
  MCPInvocationSkill.is_missing (default [] parameters) param = true ->
  exists missing,
    MCPInvocationSkill.invoke str tools tool_name user_id_ parameters w
    = (Raise (MCPToolError "VALIDATION_ERROR"
                ("Missing required parameters: "
                 ++ String.concat ", " missing)
                [("missing_parameters", PStrs missing)]), w)
    /\ param ∈ missing /\ ("user_id" ∉ missing)
    /\ forall p, p ∈ missing -> p ∈ required.
Proof.
  intros Hu Hreq Hin Hne Hmiss.
  unfold MCPInvocationSkill.invoke.
  replace (negb (PyStr.truthy user_id_)) with false
    by (destruct user_id_; [congruence|reflexivity]).
  set (kwargs := dict_set "user_id" (PStr user_id_) (default [] parameters)).
  exists (List.filter (MCPInvocationSkill.is_missing kwargs) required).
  assert (Hp : param ∈ List.filter (MCPInvocationSkill.is_missing kwargs)
                         required).
  { apply list_elem_of_In, filter_In. split; [now apply list_elem_of_In|].
    unfold MCPInvocationSkill.is_missing, kwargs in *.
    now rewrite dict_find_set_other by exact Hne. }
  split.
  - unfold mbind at 1, lift at 1,
      MCPInvocationSkill._validate_tool_parameters.
    rewrite Hreq.
    destruct (List.filter (MCPInvocationSkill.is_missing kwargs) required);
      [now apply elem_of_nil in Hp|reflexivity].
  - split; [exact Hp|]. split.
    + intros H. apply list_elem_of_In, filter_In in H as [_ H].
      unfold MCPInvocationSkill.is_missing, kwargs in H.
      rewrite dict_find_set in H. simpl in H.
      destruct user_id_; [congruence|discriminate].
    + intros p H. apply list_elem_of_In, filter_In in H as [H _].
      now apply list_elem_of_In.
Qed.

Lemma skill_reports_falsy_parameters_as_missing_witness :
  exists missing,
    MCPInvocationSkill.invoke sample_str
      (MCPServer.register_tool first_task_tool []) "complete_task" "user-a"
      (Some [("task_id", PInt 0)]) pay_rent_world
    = (Raise (MCPToolError "VALIDATION_ERROR"
                ("Missing required parameters: "
                 ++ String.concat ", " missing)
                [("missing_parameters", PStrs missing)]), pay_rent_world)
    /\ "task_id" ∈ missing.
Proof.
  destruct (skill_reports_falsy_parameters_as_missing sample_str
              (MCPServer.register_tool first_task_tool []) "complete_task"
              "user-a" "task_id" ["user_id"; "task_id"]
              (Some [("task_id", PInt 0)]) pay_rent_world
              ltac:(discriminate) eq_refl
              ltac:(apply list_elem_of_In; simpl; tauto)
              ltac:(discriminate) eq_refl)
    as (missing & Hrun & Hin & _).
  exists missing. split; [exact Hrun|exact Hin].
Defined.

(** ** The reminder handler of the API *)

(** X26: the API's reminder handler only reads the task table. It answers
    [True] exactly when the event names a task (id other than 0,
    non-empty user id and title) that is stored and belongs to that user;
    for a task of another user or a missing one it answers [False] and
    the bus is untouched, and for a completed task it answers [True]
    without announcing anything. The bus gains at most one
    [notification.sent] event, for that task and user. *)
Theorem app_reminder_handler_checks_the_owner
    (br : Broker) (now : datetime) (task_id_ : option Z)
    (user_id_ title_ : option string) (d : TaskDb) (b : Bus) :
  let '(ok, b') :=
    AppNotificationService.process_reminder_event br now task_id_ user_id_
      title_ d b in
  (ok = true <->
   exists k u ti task,
     task_id_ = Some k /\ k <> 0 /\ user_id_ = Some u /\ u <> ""
     /\ title_ = Some ti /\ ti <> ""
     /\ rows d !! k = Some task /\ user_id task = u)
  /\ (ok = false -> b' = b)
  /\ (forall k task, task_id_ = Some k -> rows d !! k = Some task ->
        completed task = true -> b' = b)
  /\ bus_ok b b'
  /\ (b' = b
      \/ (exists ev k u,
            published b' = (published b ++ [ev])%list
            /\ task_id_ = Some k /\ user_id_ = Some u
            /\ topic ev = "notifications"
            /\ dict_find "task_id" (data ev) = Some (PInt k)
            /\ dict_find "user_id" (data ev) = Some (PStr u))
      \/ (published b' = published b /\ attempts b' = S (attempts b))).
Proof.
  unfold AppNotificationService.process_reminder_event.
  assert (Hquiet : forall P : Prop,
            ~ P ->
            ((false = true <-> P)
             /\ (false = false -> b = b)
             /\ (forall k task, task_id_ = Some k -> rows d !! k = Some task ->
                   completed task = true -> b = b)
             /\ bus_ok b b
             /\ (b = b
                 \/ (exists ev k u,
                       published b = (published b ++ [ev])%list
                       /\ task_id_ = Some k /\ user_id_ = Some u
                       /\ topic ev = "notifications"
                       /\ dict_find "task_id" (data ev) = Some (PInt k)
                       /\ dict_find "user_id" (data ev) = Some (PStr u))
                 \/ (published b = published b
                     /\ attempts b = S (attempts b))))).
  { intros P HP. split; [split; [discriminate|tauto]|].
    split; [auto|]. split; [auto|]. split; [apply bus_ok_refl|now left]. }
  destruct task_id_ as [k|];
    [|apply Hquiet; intros (?&?&?&?&?&_); discriminate].
  destruct user_id_ as [u|];
    [|apply Hquiet; intros (?&?&?&?&?&?&?&_); discriminate].
  destruct title_ as [ti|];
    [|apply Hquiet; intros (?&?&?&?&?&?&?&?&?&_); discriminate].
  destruct ((k =? 0) || negb (PyStr.truthy u) || negb (PyStr.truthy ti))
    eqn:Hreq.
  { apply Hquiet.
    intros (k' & u' & ti' & task & [= <-] & Hk & [= <-] & Hu & [= <-] & Hti
            & _).
    apply Z.eqb_neq in Hk. rewrite Hk in Hreq.
    destruct u; [congruence|]. destruct ti; [congruence|]. discriminate. }
  apply orb_false_iff in Hreq as [Hreq Hti].
  apply orb_false_iff in Hreq as [Hk Hu].
  apply Z.eqb_neq in Hk.
  assert (Hu' : u <> "") by (intros ->; discriminate).
  assert (Hti' : ti <> "") by (intros ->; discriminate).
  destruct (rows d !! k) as [task|] eqn:Hrow;
    [|apply Hquiet;
      intros (?&?&?&?& [= <-] &_&_&_&_&_& H &_); congruence].
  destruct (String.eqb (user_id task) u) eqn:Ho;
    [|apply Hquiet;
      intros (?&?&?&?& [= <-] &_& [= <-] &_&_&_& Hr & H);
      apply String.eqb_neq in Ho; rewrite Hrow in Hr;
      injection Hr as <-; contradiction].
  apply String.eqb_eq in Ho.
  assert (Hyes : true = true <->
            exists k0 u0 ti0 task0,
              Some k = Some k0 /\ k0 <> 0 /\ Some u = Some u0 /\ u0 <> ""
              /\ Some ti = Some ti0 /\ ti0 <> ""
              /\ rows d !! k0 = Some task0 /\ user_id task0 = u0).
  { split; [|reflexivity]. intros _. exists k, u, ti, task. tauto. }
  destruct (completed task) eqn:Hc.
  { split; [exact Hyes|]. split; [auto|]. split; [auto|].
    split; [apply bus_ok_refl|now left]. }
  split; [exact Hyes|]. split; [discriminate|].
  split; [intros k' task' [= <-] Hr Hc'; rewrite Hrow in Hr;
          injection Hr as <-; congruence|].
  destruct (dapr_available br); [|split; [apply bus_ok_refl|now left]].
  destruct (accepts br (attempts b)).
  - split; [apply bus_ok_accepted|]. right. left.
    eexists (mkEvent _ _ _ _), k, u. simpl.
    repeat (split; [reflexivity|]). reflexivity.
  - split; [apply bus_ok_rejected|]. right. right. now split.
Qed.

(** X27: the sweep and the handler fit together. For a stored task with
    its key as id (not 0), a non-empty owner and title and a due date,
    when the sidecar takes the publish, [schedule_reminders_for_task]
    answers [True] and puts one event on the bus without touching the
    table; and the API's reminder handler, reading the task id, the user
    and the title from that event, finds the task and answers [True],
    whatever its own broker does. *)
Theorem swept_reminder_is_accepted_by_the_handler
    (br br' : Broker) (now due : datetime) (task : Task) (k : Z)
    (w : World) (b : Bus) :
  rows (db w) !! k = Some task -> id task = Some k -> k <> 0 ->
  user_id task <> "" -> title task <> "" -> due_date task = Some due ->
  dapr_available br = true -> accepts br (attempts (bus w)) = true ->
  exists ev w',
    ReminderScheduler.schedule_reminders_for_task br task w
    = (Return true, w')
    /\ published (bus w') = (published (bus w) ++ [ev])%list
    /\ db w' = db w
    /\ (AppNotificationService.process_reminder_event br' now
          (as_int (dict_find "task_id" (data ev)))
          (as_str (dict_find "user_id" (data ev)))
          (as_str (dict_find "title" (data ev))) (db w') b).1 = true.
Proof.
  intros Hrow Hid Hk Hu Hti Hdue Hdapr Hacc.
  unfold ReminderScheduler.schedule_reminders_for_task. rewrite Hdue.
  unfold try_except, mbind, DaprEventPublisher.publish_reminder_scheduled,
    DaprEventPublisher.publish_event, ret.
  rewrite Hdapr, Hacc. simpl.
  eexists (mkEvent _ _ _ _), _. split; [reflexivity|].
  split; [reflexivity|]. split; [reflexivity|].
  simpl. rewrite Hid. simpl.
  unfold AppNotificationService.process_reminder_event.
  apply Z.eqb_neq in Hk. rewrite Hk.
  destruct (user_id task) as [|c0 u0] eqn:Eu; [congruence|].
  destruct (title task) as [|c1 t1] eqn:Et; [congruence|].
  simpl. rewrite Hrow, Eu, String.eqb_refl.
  destruct (completed task); reflexivity.
Qed.

Lemma swept_reminder_is_accepted_by_the_handler_witness :
  exists ev w',
    ReminderScheduler.schedule_reminders_for_task up
      (mkTask (Some 1) "user-a" "Pay rent" None false (naive 2026 1 1 8 0 0)
         (naive 2026 1 1 8 0 0) "medium" (Some (naive 2026 1 31 0 0 0))
         (Some []) None None None) sweep_world
    = (Return true, w')
    /\ published (bus w') = [ev]
    /\ (AppNotificationService.process_reminder_event down
          (naive 2026 1 30 9 0 0) (as_int (dict_find "task_id" (data ev)))
          (as_str (dict_find "user_id" (data ev)))
          (as_str (dict_find "title" (data ev))) (db w') (mkBus [] 0)).1
       = true.
Proof.
  destruct (swept_reminder_is_accepted_by_the_handler up down
              (naive 2026 1 30 9 0 0) (naive 2026 1 31 0 0 0)
              (mkTask (Some 1) "user-a" "Pay rent" None false
                 (naive 2026 1 1 8 0 0) (naive 2026 1 1 8 0 0) "medium"
                 (Some (naive 2026 1 31 0 0 0)) (Some []) None None None)
              1 sweep_world (mkBus [] 0) eq_refl eq_refl
              ltac:(discriminate) ltac:(discriminate) ltac:(discriminate)
              eq_refl eq_refl eq_refl)
    as (ev & w' & Hrun & Hpub & _ & Hok).
  exists ev, w'. split; [exact Hrun|]. split; [exact Hpub|exact Hok].
Defined.

Lemma app_reminder_handler_checks_the_owner_witness :
  AppNotificationService.process_reminder_event up (naive 2026 1 30 9 0 0)
    (Some 1) (Some "user-b") (Some "Pay rent") pay_rent_db (mkBus [] 0)
  = (false, mkBus [] 0).
Proof.
  pose proof (app_reminder_handler_checks_the_owner up
                (naive 2026 1 30 9 0 0) (Some 1) (Some "user-b")
                (Some "Pay rent") pay_rent_db (mkBus [] 0)) as H.
  destruct (AppNotificationService.process_reminder_event _ _ _ _ _ _ _)
    as [ok b'].
  destruct H as (Hiff & Hfalse & _).
  destruct ok.
  - exfalso.
    destruct (proj1 Hiff eq_refl)
      as (k & u & ti & task & [= <-] & _ & [= <-] & _ & _ & _ & Hr & Ho).
    vm_compute in Hr. injection Hr as <-. discriminate.
  - now rewrite (Hfalse eq_refl).
Defined.

(** ** Pending notifications *)

Section Pending.

Import Notification NotificationService NotificationBatch.

Lemma pending_nil_iff (db : Db) :
  get_pending_notifications db = []
  <-> forall k n, rows db !! k = Some n -> status n <> "pending".
Proof.
  unfold get_pending_notifications. split.
  - intros H k n Hk Hs.
    assert (Hin : n ∈ filter (fun n => status n = "pending")
                        (map snd (map_to_list (rows db)))).
    { apply list_elem_of_filter. split; [exact Hs|].
      apply list_elem_of_fmap. exists (k, n). split; [reflexivity|].
      now apply elem_of_map_to_list. }
    rewrite H in Hin. now apply elem_of_nil in Hin.
  - intros H.
    destruct (filter _ _) as [|x l] eqn:E; [reflexivity|].
    assert (Hx : x ∈ x :: l) by left.
    rewrite <- E in Hx. apply list_elem_of_filter in Hx as [Hs Hx].
    apply list_elem_of_fmap in Hx as [[k n] [-> Hx]].
    apply elem_of_map_to_list in Hx. exfalso. exact (H k n Hx Hs).
Qed.

Lemma save_not_pending (n : t) (db : Db) :
  status n <> "pending" ->
  get_pending_notifications db = [] ->
  get_pending_notifications (save n db) = [].
Proof.
  rewrite !pending_nil_iff. intros Hn H k m. unfold save, insert.
  destruct (id n) as [kn|]; simpl.
  - destruct (decide (kn = k)) as [->|Hne].
    + rewrite lookup_insert_eq. now intros [= <-].
    + rewrite lookup_insert_ne by exact Hne. apply H.
  - destruct (decide (next_id db = k)) as [->|Hne].
    + rewrite lookup_insert_eq. now intros [= <-].
    + rewrite lookup_insert_ne by exact Hne. apply H.
Qed.

End Pending.

(** X28: the notification service never leaves a pending row behind. On a
    table without pending notifications, [get_pending_notifications]
    still finds none after [send_notification] (whether it stores or
    raises), after [retry_failed_notifications], after
    [record_delivery_failure] and after the consumer's
    [handle_failed_notification]. *)
Theorem no_operation_leaves_a_pending_notification
    (fromisoformat : string -> option datetime)
    (column : datetime -> datetime) (n1 n2 n3 n4 : datetime)
    (u : string) (k : Z) (ti : string) (du : option string)
    (msg ch : string) (nid : Z) (err : string) (db : Notification.Db) :
  Notification.wf db ->
  NotificationBatch.get_pending_notifications db = [] ->
  NotificationBatch.get_pending_notifications
    (NotificationService.send_notification fromisoformat column n1 n2 n3 n4
       u k ti du msg ch db).2 = []
  /\ NotificationBatch.get_pending_notifications
       (NotificationService.retry_failed_notifications db).2 = []
  /\ NotificationBatch.get_pending_notifications
       (NotificationService.record_delivery_failure nid err db).2 = []
  /\ NotificationBatch.get_pending_notifications
       (ReminderConsumer.handle_failed_notification nid err db).2 = [].
Proof.
  intros Hwf Hnone. split; [|split; [|split]].
  - unfold NotificationService.send_notification.
    destruct (opt_truthy du); [destruct (fromisoformat _)|];
      try exact Hnone;
      (apply pending_nil_iff; intros k' m; simpl;
       destruct (decide (Notification.next_id db = k')) as [->|Hne];
       [rewrite lookup_insert_eq; now intros [= <-]
       |rewrite lookup_insert_ne by exact Hne;
        now apply pending_nil_iff]).
  - rewrite (proj1 (retry_failed_notifications_rows db Hwf)).
    apply pending_nil_iff. intros k' m. simpl. rewrite lookup_fmap.
    destruct (Notification.rows db !! k') as [m'|] eqn:Hk; [|discriminate].
    simpl. intros [= <-]. unfold retry_row.
    destruct (decide (eligible m')) as [[Hs _]|_].
    + simpl. rewrite Hs. discriminate.
    + exact (proj1 (pending_nil_iff db) Hnone k' m' Hk).
  - unfold NotificationService.record_delivery_failure.
    destruct (Notification.rows db !! nid); [|exact Hnone].
    apply save_not_pending; [discriminate|exact Hnone].
  - unfold ReminderConsumer.handle_failed_notification.
    destruct (Notification.rows db !! nid); [|exact Hnone].
    apply save_not_pending; [discriminate|exact Hnone].
Qed.

Lemma no_operation_leaves_a_pending_notification_witness :
  NotificationBatch.get_pending_notifications
    (NotificationService.retry_failed_notifications sample_notifications).2
  = [].
Proof.
  apply (no_operation_leaves_a_pending_notification sample_fromisoformat
           sample_column
           (naive 2026 1 30 9 0 0) (naive 2026 1 30 9 0 0)
           (naive 2026 1 30 9 0 0) (naive 2026 1 30 9 0 0) "user-a" 1
           "Pay rent" None "Task 'Pay rent' is due soon!" "push" 2
           "timeout" sample_notifications sample_notifications_wf).
  vm_compute. reflexivity.
Defined.
